(** * BCNN.py: bilinear AlexNet embedding network, its manager and the
    SUN360 half-half dataset indexer.

    A shallow embedding of [BCNN.py].  Python exceptions are the
    constructors of [exn]; a call that may raise returns a [result].
    Tensors carry their shape and their row-major data; scalars are exact
    rationals, so float32 rounding is outside the model.  Everything the
    program obtains from outside (the tensor backend's layer arithmetic,
    the file system, NumPy's random generator, the clock) is a variable of
    the enclosing section.  The manager keeps its network on the GPU; the
    one place where the device decides what happens is the conversion of
    the network's output to NumPy in [test]. *)

From Stdlib Require Import String Ascii ZArith QArith Lia Bool Arith
  DecimalString List Permutation.
Import ListNotations.
Local Open Scope nat_scope.
Local Open Scope list_scope.

(** Python's [+] on [str]. *)
Infix "+++" := String.append (at level 60, right associativity).

(** ** Python exceptions and results *)

Inductive exn : Type :=
| ValueError (msg : string)
| AssertionError
| RuntimeError (msg : string)
| AttributeError (attr : string)
| IndexError
| IOError (path : string)
| ZeroDivisionError
| TypeError (msg : string).

Inductive result (A : Type) : Type :=
| Ok (a : A)
| Raise (e : exn).
Arguments Ok {A} a.
Arguments Raise {A} e.

Definition rbind {A B : Type} (r : result A) (k : A -> result B) : result B :=
  match r with
  | Ok a => k a
  | Raise e => Raise e
  end.

Declare Scope result_scope.
Delimit Scope result_scope with result.
Notation "x <- r ;; k" := (rbind r (fun x => k))
  (at level 61, r at next level, right associativity) : result_scope.
Notation "r ;; k" := (rbind r (fun _ => k))
  (at level 61, right associativity) : result_scope.

(** The spec's [InvalidConfiguration] is the [ValueError] of the source. *)
Definition InvalidConfiguration (e : exn) : bool :=
  match e with
  | ValueError _ => true
  | _ => false
  end.

(** Python sequence helpers: [l[:-1]], [l[-1:]] and [l[i]] with negative
    indices counted from the end. *)
Definition but_last {A : Type} (l : list A) : list A :=
  firstn (length l - 1) l.

Definition last_slice {A : Type} (l : list A) : list A :=
  skipn (length l - 1) l.

Definition py_index {A : Type} (l : list A) (i : Z) : result A :=
  let len := Z.of_nat (length l) in
  let j := if (i <? 0)%Z then (len + i)%Z else i in
  if ((j <? 0)%Z || (len <=? j)%Z)%bool then Raise IndexError
  else match nth_error l (Z.to_nat j) with
       | Some x => Ok x
       | None => Raise IndexError
       end.

(** ** Layers and parameters *)

Inductive init_policy : Type :=
| Pretrained
| DefaultInit
| KaimingNormal
| ConstantInit (c : Q).

Inductive role : Type := Weight | Bias.

Record param : Type := mkParam {
  pname : string;
  prole : role;
  pshape : list Z;
  requires_grad : bool;
  pinit : init_policy
}.

Inductive layer_kind : Type :=
| Conv2d (cin cout ksize stride padding : Z)
| ReLU
| MaxPool2d (ksize stride : Z)
| Dropout
| Linear (fin fout : Z).

Record layer : Type := mkLayer {
  kind : layer_kind;
  lparams : list param
}.

Local Open Scope string_scope.
Local Open Scope list_scope.

Definition nat_str (n : nat) : string := NilEmpty.string_of_uint (Nat.to_uint n).

(** A freshly built layer: every parameter has gradients enabled. *)
Definition new_layer (name : string) (k : layer_kind) (i : init_policy) : layer :=
  mkLayer k
    match k with
    | Conv2d cin cout ks _ _ =>
        [ mkParam (name +++ ".weight") Weight [cout; cin; ks; ks] true i;
          mkParam (name +++ ".bias") Bias [cout] true i ]
    | Linear fin fout =>
        [ mkParam (name +++ ".weight") Weight [fout; fin] true i;
          mkParam (name +++ ".bias") Bias [fout] true i ]
    | _ => []
    end.

Definition Sequential (name : string) (kinds : list layer_kind) (i : init_policy)
  : list layer :=
  map (fun ik => new_layer (name +++ "." +++ nat_str (fst ik)) (snd ik) i)
      (combine (seq 0 (length kinds)) kinds).

(** torchvision's AlexNet, the external architecture the source imports:
    [models.alexnet().features] and [models.alexnet().classifier]. *)
Definition alexnet_features : list layer_kind :=
  [ Conv2d 3 64 11 4 2; ReLU; MaxPool2d 3 2;
    Conv2d 64 192 5 1 2; ReLU; MaxPool2d 3 2;
    Conv2d 192 384 3 1 1; ReLU;
    Conv2d 384 256 3 1 1; ReLU;
    Conv2d 256 256 3 1 1; ReLU; MaxPool2d 3 2 ]%Z.

Definition alexnet_classifier : list layer_kind :=
  [ Dropout; Linear (256 * 6 * 6) 4096; ReLU;
    Dropout; Linear 4096 4096; ReLU;
    Linear 4096 1000 ]%Z.

(** ** BilinearAlex *)

Record BilinearAlex : Type := mkNet {
  features : list layer;
  bfc : list layer;
  fc : layer
}.

Definition layers_parameters (ls : list layer) : list param :=
  flat_map lparams ls.

(** [self.parameters()]: registration order features, bfc, fc. *)
Definition parameters (self : BilinearAlex) : list param :=
  layers_parameters (features self) ++ layers_parameters (bfc self)
    ++ lparams (fc self).

Definition trainable (ps : list param) : list param :=
  filter requires_grad ps.

Definition freeze_param (p : param) : param :=
  mkParam (pname p) (prole p) (pshape p) false (pinit p).

Definition freeze_layer (l : layer) : layer :=
  mkLayer (kind l) (map freeze_param (lparams l)).

Definition _freeze (self : BilinearAlex) (option : string) : result BilinearAlex :=
  if String.eqb option "part" then
    Ok (mkNet (map freeze_layer (features self))
              (map freeze_layer (but_last (bfc self)) ++ last_slice (bfc self))
              (fc self))
  else if String.eqb option "all" then
    Ok (mkNet (map freeze_layer (features self))
              (map freeze_layer (bfc self))
              (freeze_layer (fc self)))
  else Raise (ValueError "Unavailable freeze option.").

(** [kaiming_normal_] on the weight, [constant_(val=0)] on the bias. *)
Definition init_param (p : param) : param :=
  mkParam (pname p) (prole p) (pshape p) (requires_grad p)
    match prole p with
    | Weight => KaimingNormal
    | Bias => ConstantInit 0
    end.

Definition init_layer (l : layer) : layer :=
  mkLayer (kind l) (map init_param (lparams l)).

(** Truthiness of the [freeze] argument: [None] and [''] are falsy. *)
Definition truthy (freeze : option string) : bool :=
  match freeze with
  | None => false
  | Some s => negb (String.eqb s "")
  end.

Definition BilinearAlex_init (freeze : option string) : result BilinearAlex :=
  let self :=
    mkNet (Sequential "features" alexnet_features Pretrained)
          (Sequential "bfc" (but_last alexnet_classifier ++ [Linear 4096 512%Z])
             DefaultInit)
          (new_layer "fc" (Linear (512 ^ 2) 512)%Z DefaultInit) in
  (self <- (match freeze with
            | Some option => if truthy freeze then _freeze self option else Ok self
            | None => Ok self
            end) ;;
   match last_slice (bfc self) with
   | [] => Raise IndexError
   | _ =>
       Ok (mkNet (features self)
                 (but_last (bfc self) ++ map init_layer (last_slice (bfc self)))
                 (init_layer (fc self)))
   end)%result.

(** ** Tensors

    A tensor is its shape and its elements in row-major order.  Strides
    are not modelled: every tensor is stored contiguously. *)

Record tensor : Type := mkTensor {
  shape : list Z;
  data : list Q
}.

Definition numel (s : list Z) : Z := fold_right Z.mul 1%Z s.

Definition shape_eqb (s1 s2 : list Z) : bool :=
  Nat.eqb (length s1) (length s2)
  && forallb (fun ab => (fst ab =? snd ab)%Z) (combine s1 s2).

(** [assert X.size() == expected] *)
Definition assert_size (X : tensor) (expected : list Z) : result unit :=
  if shape_eqb (shape X) expected then Ok tt else Raise AssertionError.

(** [X.view(...)]: at most one entry may be [-1]; it is inferred from the
    number of elements, which is refused when the other entries multiply to
    zero. *)
Definition view (X : tensor) (spec : list Z) : result tensor :=
  if existsb (fun d => (d <? -1)%Z) spec then
    Raise (RuntimeError "invalid shape dimension")
  else
    let known := numel (filter (fun d => negb (d =? -1)%Z) spec) in
    let total := numel (shape X) in
    match count_occ Z.eq_dec spec (-1)%Z with
    | 0 =>
        if (known =? total)%Z then Ok (mkTensor spec (data X))
        else Raise (RuntimeError "shape is invalid for input size")
    | 1 =>
        if (known =? 0)%Z then
          Raise (RuntimeError "the unspecified dimension size -1 can be any value")
        else if (total mod known =? 0)%Z then
          Ok (mkTensor
                (map (fun d => if (d =? -1)%Z then (total / known)%Z else d) spec)
                (data X))
        else Raise (RuntimeError "shape is invalid for input size")
    | _ => Raise (RuntimeError "only one dimension can be inferred")
    end.

(** [n] consecutive rows of [k] elements each. *)
Fixpoint rows {A : Type} (n k : nat) (l : list A) : list (list A) :=
  match n with
  | O => []
  | S n' => firstn k l :: rows n' k (skipn k l)
  end.

(** The data of a tensor of shape (n, a, b) as [n] matrices of [a] rows. *)
Definition matrices (n a b : Z) (d : list Q) : list (list (list Q)) :=
  map (rows (Z.to_nat a) (Z.to_nat b))
      (rows (Z.to_nat n) (Z.to_nat (a * b)) d).

Definition flatten_matrices (ms : list (list (list Q))) : list Q :=
  concat (map (@concat Q) ms).

(** Columns of a matrix with [b] columns. *)
Definition transpose_matrix (b : nat) (m : list (list Q)) : list (list Q) :=
  map (fun j => map (fun r => nth j r 0%Q) m) (seq 0 b).

(** [torch.transpose(X, 1, 2)] on a 3-dimensional tensor, the only rank at
    which [forward] calls it. *)
Definition transpose_1_2 (X : tensor) : result tensor :=
  match shape X with
  | [n; a; b] =>
      Ok (mkTensor [n; b; a]
            (flatten_matrices
               (map (transpose_matrix (Z.to_nat b)) (matrices n a b (data X)))))
  | _ => Raise (RuntimeError "transpose: rank not modelled")
  end.

Fixpoint dot (u v : list Q) : Q :=
  match u, v with
  | x :: u', y :: v' => (x * y + dot u' v')%Q
  | _, _ => 0%Q
  end.

Definition matrix_product (c : nat) (m1 m2 : list (list Q)) : list (list Q) :=
  map (fun r => map (fun col => dot r col) (transpose_matrix c m2)) m1.

Fixpoint zip_with {A B C : Type} (f : A -> B -> C) (l1 : list A) (l2 : list B)
  : list C :=
  match l1, l2 with
  | x :: l1', y :: l2' => f x y :: zip_with f l1' l2'
  | _, _ => []
  end.

(** [torch.matmul] of two 3-dimensional tensors with the same batch size:
    the batched matrix product. *)
Definition matmul (X Y : tensor) : result tensor :=
  match shape X, shape Y with
  | [n; a; b], [n'; b'; c] =>
      if ((n =? n') && (b =? b'))%Z then
        Ok (mkTensor [n; a; c]
              (flatten_matrices
                 (zip_with (matrix_product (Z.to_nat c))
                    (matrices n a b (data X)) (matrices n' b' c (data Y)))))
      else Raise (RuntimeError "matmul: size mismatch")
  | _, _ => Raise (RuntimeError "matmul: rank not modelled")
  end.

(** The specification's outer product of a vector with itself, flattened
    row after row: entry [i * length v + j] is [v_i * v_j].  This is the
    reference the pooling step of [forward] is compared with. *)
Definition outer_product_flat (v : list Q) : list Q :=
  flat_map (fun x => map (fun y => x * y)%Q v) v.

(** Output shape of a layer, by the formulas of the tensor backend. *)
Definition conv_out (h ksize stride padding : Z) : Z :=
  ((h + 2 * padding - ksize) / stride + 1)%Z.

Definition layer_shape (k : layer_kind) (s : list Z) : result (list Z) :=
  match k with
  | Conv2d cin cout ks st pd =>
      match s with
      | [n; c; h; w] =>
          if ((c =? cin) && (ks <=? h + 2 * pd) && (ks <=? w + 2 * pd))%Z
          then Ok [n; cout; conv_out h ks st pd; conv_out w ks st pd]
          else Raise (RuntimeError "conv2d: size mismatch")
      | _ => Raise (RuntimeError "conv2d: expected a 4-dimensional input")
      end
  | MaxPool2d ks st =>
      match s with
      | [n; c; h; w] =>
          if ((ks <=? h) && (ks <=? w))%Z
          then Ok [n; c; conv_out h ks st 0; conv_out w ks st 0]
          else Raise (RuntimeError "max_pool2d: output size is too small")
      | _ => Raise (RuntimeError "max_pool2d: expected a 4-dimensional input")
      end
  | ReLU | Dropout => Ok s
  | Linear fin fout =>
      match rev s with
      | d :: front =>
          if (d =? fin)%Z then Ok (rev front ++ [fout])
          else Raise (RuntimeError "linear: size mismatch")
      | [] => Raise (RuntimeError "linear: size mismatch")
      end
  end.

(** Output shape of a stack of layers. *)
Fixpoint sequential_shape (ks : list layer_kind) (s : list Z) : result (list Z) :=
  match ks with
  | [] => Ok s
  | k :: ks' => (s' <- layer_shape k s ;; sequential_shape ks' s')%result
  end.

Section Program.

(** *** The tensor backend

    [weights] is the state of the learned parameters; [layer_forward] is the
    arithmetic a layer performs on the elements of its input under given
    weights. *)
Variable weights : Type.
Variable layer_forward : weights -> layer -> list Q -> list Q.

Definition apply_layer (w : weights) (l : layer) (X : tensor) : result tensor :=
  (s <- layer_shape (kind l) (shape X) ;;
   Ok (mkTensor s (layer_forward w l (data X))))%result.

Fixpoint apply_sequential (w : weights) (ls : list layer) (X : tensor)
  : result tensor :=
  match ls with
  | [] => Ok X
  | l :: ls' => (Y <- apply_layer w l X ;; apply_sequential w ls' Y)%result
  end.

(** Lines 40-41 of [forward]: the product of the transposed vector with
    the vector itself. *)
Definition self_outer_product (N : Z) (X : tensor) : result tensor :=
  (X <- view X [N; -1; 512]%Z ;;
   Xt <- transpose_1_2 X ;;
   matmul Xt X)%result.

(** Lines 40-43 of [forward]: the bilinear pooling step. *)
Definition bilinear_pool (N : Z) (X : tensor) : result tensor :=
  (X <- self_outer_product N X ;;
   assert_size X [N; 512; 512]%Z ;;
   view X [N; 512 ^ 2]%Z)%result.

Definition forward (w : weights) (self : BilinearAlex) (X : tensor)
  : result tensor :=
  (N <- py_index (shape X) 0 ;;
   assert_size X [N; 3; 227; 227]%Z ;;
   X <- apply_sequential w (features self) X ;;
   X <- view X [N; 256 * 6 * 6]%Z ;;
   X <- apply_sequential w (bfc self) X ;;
   assert_size X [N; 512]%Z ;;
   X <- bilinear_pool N X ;;
   X <- apply_layer w (fc self) X ;;
   assert_size X [N; 512]%Z ;;
   Ok X)%result.

(** *** The world: weights, random generator, console

    NumPy's global generator is an oracle indexed by the number of calls
    made so far; the console and the optimizer's actions are recorded in a
    trace, oldest event first. *)

Inductive event : Type :=
| PrintStr (s : string)
| PrintNet (net : BilinearAlex)
| PrintLoss (loss : Q)
| PrintAccuracy (acc : Q)
| ZeroGrad
| Backward
| SolverStep.

Record world : Type := mkWorld {
  model_weights : weights;
  permutation_calls : nat;
  randint_calls : nat;
  trace : list event
}.

Definition M (A : Type) : Type := world -> result A * world.

Definition ret {A : Type} (a : A) : M A := fun w => (Ok a, w).

Definition raise {A : Type} (e : exn) : M A := fun w => (Raise e, w).

Definition bind {A B : Type} (m : M A) (k : A -> M B) : M B :=
  fun w =>
    match m w with
    | (Ok a, w') => k a w'
    | (Raise e, w') => (Raise e, w')
    end.

Definition lift {A : Type} (r : result A) : M A := fun w => (r, w).

Definition emit (e : event) : M unit :=
  fun w => (Ok tt, mkWorld (model_weights w) (permutation_calls w)
                      (randint_calls w) (trace w ++ [e])).

Declare Scope world_scope.
Delimit Scope world_scope with world.
Notation "x <- m ;; k" := (bind m (fun x => k))
  (at level 61, m at next level, right associativity) : world_scope.
Notation "m ;; k" := (bind m (fun _ => k))
  (at level 61, right associativity) : world_scope.

Fixpoint mapM {A B : Type} (f : A -> M B) (l : list A) : M (list B) :=
  match l with
  | [] => ret []
  | x :: l' => (y <- f x ;; ys <- mapM f l' ;; ret (y :: ys))%world
  end.

Variable np_permutation : nat -> nat -> list nat.
Variable np_randint : nat -> nat -> nat.

(** [np.random.permutation(n)] *)
Definition permutation (n : nat) : M (list nat) :=
  fun w => (Ok (np_permutation (permutation_calls w) n),
            mkWorld (model_weights w) (S (permutation_calls w))
              (randint_calls w) (trace w)).

(** [np.random.randint(high)] *)
Definition randint (high : nat) : M Z :=
  fun w => (Ok (Z.of_nat (np_randint (randint_calls w) high)),
            mkWorld (model_weights w) (permutation_calls w)
              (S (randint_calls w)) (trace w)).

(** *** Python built-ins used by the loader *)

Definition py_range (start stop step : Z) : result (list Z) :=
  if (step =? 0)%Z then Raise (ValueError "range() arg 3 must not be zero")
  else
    let len := if (0 <? step)%Z then ((stop - start + step - 1) / step)%Z
               else ((start - stop - step - 1) / (- step))%Z in
    Ok (map (fun k => (start + Z.of_nat k * step)%Z) (seq 0 (Z.to_nat len))).

(** [l[i:e]] *)
Definition py_slice {A : Type} (l : list A) (i e : Z) : list A :=
  let len := Z.of_nat (length l) in
  let norm := fun x => if (x <? 0)%Z then Z.max 0 (len + x) else Z.min x len in
  firstn (Z.to_nat (norm e - norm i)) (skipn (Z.to_nat (norm i)) l).

Definition is_space (c : ascii) : bool :=
  let n := nat_of_ascii c in
  (n =? 32)%nat || ((9 <=? n)%nat && (n <=? 13)%nat).

Fixpoint lstrip (s : string) : string :=
  match s with
  | String c s' => if is_space c then lstrip s' else s
  | EmptyString => EmptyString
  end.

Fixpoint string_rev (acc s : string) : string :=
  match s with
  | String c s' => string_rev (String c acc) s'
  | EmptyString => acc
  end.

Definition strip (s : string) : string :=
  string_rev EmptyString (lstrip (string_rev EmptyString (lstrip s))).

Fixpoint digits_value (acc : Z) (s : string) : option Z :=
  match s with
  | EmptyString => Some acc
  | String c s' =>
      let n := nat_of_ascii c in
      if ((48 <=? n)%nat && (n <=? 57)%nat)
      then digits_value (acc * 10 + Z.of_nat (n - 48))%Z s'
      else None
  end.

(** [int(s)] on a string: surrounding white space, an optional sign and
    decimal digits.  Digit-group underscores are not modelled. *)
Definition py_int (s : string) : result Z :=
  let invalid := Raise (ValueError "invalid literal for int() with base 10") in
  let unsigned := fun ds =>
    match ds with
    | EmptyString => None
    | _ => digits_value 0%Z ds
    end in
  match strip s with
  | String "-"%char ds =>
      match unsigned ds with Some v => Ok (- v)%Z | None => invalid end
  | String "+"%char ds =>
      match unsigned ds with Some v => Ok v | None => invalid end
  | ds =>
      match unsigned ds with Some v => Ok v | None => invalid end
  end.

(** *** The file system

    [csv_file path] is what [list(csv.reader(...))] yields for the table at
    [path]; [json_file path] is the decoded task document
    [[anchor, [candidates]]]; [None] is a file that cannot be read. *)
Variable csv_file : string -> option (list (list string)).
Variable json_file : string -> option (string * list string).

Definition open_csv (path : string) : M (list (list string)) :=
  match csv_file path with
  | Some t => ret t
  | None => raise (IOError path)
  end.

Definition open_json (path : string) : M (string * list string) :=
  match json_file path with
  | Some t => ret t
  | None => raise (IOError path)
  end.

(** ** sun360h_data_load *)

Definition root_path : string := "/mnt/nfs/scratch1/gluo/SUN360/HalfHalf/".
Definition imgs_path : string := "/IMGs/".

Definition triplet : Type := (string * string * string)%type.
Definition batch_paths : Type := (list string * list string * list string)%type.

(** [[k for k in range(10) if k != pos]] *)
Definition other_candidates (pos : Z) : list Z :=
  filter (fun k => negb (k =? pos)%Z) (map Z.of_nat (seq 0 10)).

(** Body of the inner loop (lines 187-191) for row [j]. *)
Definition load_row (task_path : string) (gt_list : list (list string)) (j : nat)
  : M triplet :=
  (row <- lift (py_index gt_list (Z.of_nat j)) ;;
   sample_id <- lift (py_index row 0) ;;
   names <- open_json (root_path +++ task_path +++ sample_id +++ ".json") ;;
   let a := root_path +++ imgs_path +++ fst names in
   gt <- lift (py_index row 1) ;;
   pos <- lift (py_int gt) ;;
   p_name <- lift (py_index (snd names) pos) ;;
   r <- randint 9 ;;
   neg <- lift (py_index (other_candidates pos) r) ;;
   n_name <- lift (py_index (snd names) neg) ;;
   ret (a, root_path +++ imgs_path +++ p_name,
        root_path +++ imgs_path +++ n_name))%world.

Definition unzip3 (l : list triplet) : batch_paths :=
  (map (fun t => fst (fst t)) l, map (fun t => snd (fst t)) l, map snd l).

(** One iteration of the outer loop (lines 185-192) over the rows [chunk]. *)
Definition load_batch (task_path : string) (gt_list : list (list string))
  (chunk : list nat) : M batch_paths :=
  (ts <- mapM (load_row task_path gt_list) chunk ;; ret (unzip3 ts))%world.

(** The slices [idx[i:min(i+batch, gt_len)]] the outer loop walks. *)
Definition index_batches (idx : list nat) (gt_len batch : Z)
  : result (list (list nat)) :=
  (starts <- py_range 0 gt_len batch ;;
   Ok (map (fun i => py_slice idx i (Z.min (i + batch) gt_len)) starts))%result.

(** Lines 159-175: the task directory and the ground-truth table of a
    partition and version. *)
Definition dataset_paths (part : string) (ver : Z) : result (string * string) :=
  (paths <- (if (String.eqb part "train" || String.eqb part "test")%bool
             then Ok ("task_" +++ part, "gt_" +++ part)
             else Raise (ValueError "Unavailable dataset part!")) ;;
   if (ver =? 0)%Z then Ok (fst paths +++ "/", snd paths +++ ".csv")
   else if (ver =? 1)%Z then Ok (fst paths +++ "_v1/", snd paths +++ "_v1.csv")
   else if (ver =? 2)%Z then Ok (fst paths +++ "_v2/", snd paths +++ "_v2.csv")
   else Raise (ValueError "Unavailable dataset version!"))%result.

Definition sun360h_data_load (part : string) (ver : Z) (batch : Z)
  : M (list batch_paths) :=
  (paths <- lift (dataset_paths part ver) ;;
   let task_path := fst paths in
   let gt_path := snd paths in
   gt_list <- open_csv (root_path +++ gt_path) ;;
   let gt_len := length gt_list in
   idx <- permutation gt_len ;;
   chunks <- lift (index_batches idx (Z.of_nat gt_len) batch) ;;
   mapM (load_batch task_path gt_list) chunks)%world.

(** *** Well-formed datasets

    A ground-truth row the loader can process: a sample id whose task file
    is readable and holds ten candidates, and a positive index among them. *)
Definition row_ok (task_path : string) (row : list string) : bool :=
  match row with
  | sample_id :: gt :: _ =>
      match json_file (root_path +++ task_path +++ sample_id +++ ".json"),
            py_int gt with
      | Some (_, cands), Ok pos =>
          (length cands =? 10)%nat && (0 <=? pos)%Z && (pos <? 10)%Z
      | _, _ => false
      end
  | _ => false
  end.

Fixpoint distinct_names (l : list string) : bool :=
  match l with
  | [] => true
  | x :: l' => negb (existsb (String.eqb x) l') && distinct_names l'
  end.

(** The candidates of the row's task file are pairwise different. *)
Definition row_distinct (task_path : string) (row : list string) : bool :=
  match row with
  | sample_id :: _ =>
      match json_file (root_path +++ task_path +++ sample_id +++ ".json") with
      | Some (_, cands) => distinct_names cands
      | None => false
      end
  | [] => false
  end.

(** The contract of [np.random.permutation(n)]: the result lists the
    numbers below [n], each once. *)
Definition is_permutation (idx : list nat) (n : nat) : bool :=
  (length idx =? n)%nat && forallb (fun i => existsb (Nat.eqb i) idx) (seq 0 n).

(** What the loader emits for row [j]: the anchor and the positive of the
    row's task file and, as negative, the candidate at an index [neg] picked
    among [other_candidates pos]. *)
Definition row_triplet (task_path : string) (gt_list : list (list string))
  (j : nat) (pos neg : Z) (t : triplet) : Prop :=
  exists sample_id gt rest anchor cands p_name n_name,
    nth_error gt_list j = Some (sample_id :: gt :: rest) /\
    json_file (root_path +++ task_path +++ sample_id +++ ".json")
      = Some (anchor, cands) /\
    py_int gt = Ok pos /\
    In neg (other_candidates pos) /\
    py_index cands pos = Ok p_name /\
    py_index cands neg = Ok n_name /\
    t = (root_path +++ imgs_path +++ anchor,
         root_path +++ imgs_path +++ p_name,
         root_path +++ imgs_path +++ n_name).

(** The batch emitted for the rows [chunk]. *)
Definition batch_of_rows (task_path : string) (gt_list : list (list string))
  (chunk : list nat) (b : batch_paths) : Prop :=
  exists ts,
    Forall2 (fun j t => exists pos neg, row_triplet task_path gt_list j pos neg t)
            chunk ts /\
    b = unzip3 ts.

(** What the loader emits for row [j] when its negative is the [k]-th
    number drawn from [randint]: [cands] are the candidates of the row's
    task file, [pos] the row's positive index and [neg] the entry of
    [other_candidates pos] the draw selects. *)
Definition row_drawn (task_path : string) (gt_list : list (list string))
  (j k : nat) (cands : list string) (pos neg : Z) (t : triplet) : Prop :=
  exists sample_id gt rest anchor p_name n_name,
    nth_error gt_list j = Some (sample_id :: gt :: rest) /\
    json_file (root_path +++ task_path +++ sample_id +++ ".json")
      = Some (anchor, cands) /\
    py_int gt = Ok pos /\
    py_index cands pos = Ok p_name /\
    py_index (other_candidates pos) (Z.of_nat (np_randint k 9)) = Ok neg /\
    py_index cands neg = Ok n_name /\
    t = (root_path +++ imgs_path +++ anchor,
         root_path +++ imgs_path +++ p_name,
         root_path +++ imgs_path +++ n_name).

(** ** BilinearAlexManager *)

Record optimizer : Type := mkSGD {
  opt_params : list param;
  opt_lr : Q;
  opt_momentum : Q
}.

Record lr_scheduler : Type := mkReduceLROnPlateau {
  sch_mode : string;
  sch_factor : Q;
  sch_patience : Z;
  sch_threshold : Q
}.

(** [_solver] and [_scheduler] are [None] when the attribute was never
    assigned. *)
Record BilinearAlexManager : Type := mkManager {
  _net : BilinearAlex;
  _margin : Q;
  _batch : Z;
  _epoch : nat;
  _solver : option optimizer;
  _scheduler : option lr_scheduler
}.

(** [image_file path]: the 3 x 227 x 227 values [imread], [imresize] and
    [np.transpose] produce for the file, or [None] when it cannot be read.
    [load_checkpoint path]: the weights stored in a checkpoint.
    [triplet_margin_loss] and [optimizer_step]: the criterion, and the
    effect of [loss.backward()] followed by [solver.step()] on the
    weights.  [strftime_now], [writable]: the clock and the disk. *)
Variable image_file : string -> option (list Q).
Variable load_checkpoint : string -> option weights.
Variable triplet_margin_loss : Q -> tensor -> tensor -> tensor -> Q.
Variable optimizer_step : optimizer -> weights -> tensor * tensor * tensor -> weights.
Variable strftime_now : world -> string.
Variable writable : string -> bool.

Definition get_weights : M weights := fun w => (Ok (model_weights w), w).

Definition set_weights (v : weights) : M unit :=
  fun w => (Ok tt, mkWorld v (permutation_calls w) (randint_calls w) (trace w)).

Definition _load (PATH : string) : M unit :=
  match load_checkpoint PATH with
  | Some v =>
      (set_weights v ;; emit (PrintStr ("Model parameters loaded: " +++ PATH)))%world
  | None => raise (IOError PATH)
  end.

Definition _save : M unit :=
  fun w =>
    let PATH := "./bcnn-param-" +++ strftime_now w in
    if writable PATH
    then emit (PrintStr ("Model parameters saved: " +++ PATH)) w
    else raise (IOError PATH) w.

Definition Manager_init (freeze : option string) (param_path : option string)
  : M BilinearAlexManager :=
  (net <- lift (BilinearAlex_init freeze) ;;
   emit (PrintNet net) ;;
   match param_path with
   | Some PATH => if String.eqb PATH "" then ret tt else _load PATH
   | None => ret tt
   end ;;
   let not_test := match freeze with
                   | Some f => negb (String.eqb f "all")
                   | None => true
                   end in
   if not_test then
     ret (mkManager net 1 1 1
            (Some (mkSGD (trainable (parameters net)) (1 # 1000) (9 # 10)))
            (Some (mkReduceLROnPlateau "max" (1 # 10) 3 (1 # 10000))))
   else ret (mkManager net 1 1 1 None None))%world.

Definition _data_loader (self : BilinearAlexManager) (train : bool)
  : M (list batch_paths) :=
  if train then sun360h_data_load "train" 0 (_batch self)
  else sun360h_data_load "test" 0 (_batch self).

Definition read_image (path : string) : result (list Q) :=
  match image_file path with
  | Some px => Ok px
  | None => Raise (IOError path)
  end.

Fixpoint rmapM {A B : Type} (f : A -> result B) (l : list A) : result (list B) :=
  match l with
  | [] => Ok []
  | x :: l' => (y <- f x ;; ys <- rmapM f l' ;; Ok (y :: ys))%result
  end.

Definition _image_loader (abn : batch_paths) : result (tensor * tensor * tensor) :=
  let '(a, p, n) := abn in
  let k := length a in
  (imgs <- rmapM (fun i =>
                    (ai <- py_index a (Z.of_nat i) ;;
                     A <- read_image ai ;;
                     pi <- py_index p (Z.of_nat i) ;;
                     P <- read_image pi ;;
                     ni <- py_index n (Z.of_nat i) ;;
                     N <- read_image ni ;;
                     Ok (A, P, N))%result) (seq 0 k) ;;
   let sz := [Z.of_nat k; 3; 227; 227]%Z in
   Ok (mkTensor sz (concat (map (fun t => fst (fst t)) imgs)),
       mkTensor sz (concat (map (fun t => snd (fst t)) imgs)),
       mkTensor sz (concat (map snd imgs))))%result.

Definition net_forward (self : BilinearAlexManager) (X : tensor) : M tensor :=
  (w <- get_weights ;; lift (forward w (_net self) X))%world.

Definition get_solver (self : BilinearAlexManager) : M optimizer :=
  match _solver self with
  | Some s => ret s
  | None => raise (AttributeError "_solver")
  end.

(** Body of the batch loop of [train] (lines 95-108); returns the loss
    appended to [epoch_loss]. *)
Definition train_batch (self : BilinearAlexManager) (abn : batch_paths) : M Q :=
  (APN <- lift (_image_loader abn) ;;
   let '(A, P, N) := APN in
   solver <- get_solver self ;;
   emit ZeroGrad ;;
   feat_a <- net_forward self A ;;
   feat_p <- net_forward self P ;;
   feat_n <- net_forward self N ;;
   let loss := triplet_margin_loss (_margin self) feat_a feat_p feat_n in
   emit Backward ;;
   solver <- get_solver self ;;
   w <- get_weights ;;
   set_weights (optimizer_step solver w (A, P, N)) ;;
   emit SolverStep ;;
   ret loss)%world.

(** The batch loop: [epoch_loss] and [iter_num] are threaded through. *)
Fixpoint train_batches (self : BilinearAlexManager) (batches : list batch_paths)
  (epoch_loss : list Q) (iter_num : Z) : M (list Q * Z) :=
  match batches with
  | [] => ret (epoch_loss, iter_num)
  | abn :: rest =>
      (loss <- train_batch self abn ;;
       train_batches self rest (epoch_loss ++ [loss]) (iter_num + 1)%Z)%world
  end.

(** One iteration of the epoch loop (lines 90-110). *)
Definition train_epoch (self : BilinearAlexManager) : M unit :=
  (batches <- _data_loader self true ;;
   st <- train_batches self batches [] 0%Z ;;
   let '(epoch_loss, iter_num) := st in
   if (iter_num mod 50 =? 0)%Z then
     (l <- lift (py_index epoch_loss (-1)) ;; emit (PrintLoss l))
   else ret tt)%world.

Fixpoint repeatM (n : nat) (m : M unit) : M unit :=
  match n with
  | O => ret tt
  | S n' => (m ;; repeatM n' m)%world
  end.

Definition train (self : BilinearAlexManager) : M unit :=
  (emit (PrintStr "Training.") ;;
   repeatM (_epoch self) (train_epoch self) ;;
   _save)%world.

(** Squared Euclidean distance of two rows: [((x-y)**2).sum()]. *)
Definition sqdist (x y : list Q) : Q :=
  fold_right Qplus 0%Q (zip_with (fun a b => (a - b) ^ 2)%Q x y).

(** The test of line 124 for one row. *)
Definition triplet_correct (margin : Q) (a p n : list Q) : bool :=
  Qle_bool (sqdist a p - sqdist a n + margin)%Q 0%Q.

Fixpoint zip3 {A : Type} (l1 l2 l3 : list A) : list (A * A * A) :=
  match l1, l2, l3 with
  | x :: l1', y :: l2', z :: l3' => (x, y, z) :: zip3 l1' l2' l3'
  | _, _, _ => []
  end.

(** [(... <= 0).sum()] over the rows of three (k, 512) arrays. *)
Definition count_correct (margin : Q) (fa fp fn : list (list Q)) : Z :=
  Z.of_nat (length (filter (fun t => triplet_correct margin (fst (fst t))
                                       (snd (fst t)) (snd t))
                      (zip3 fa fp fn))).

Definition embedding_rows (X : tensor) : list (list Q) :=
  match shape X with
  | [k; d] => rows (Z.to_nat k) (Z.to_nat d) (data X)
  | _ => []
  end.

(** *** Devices

    [torch.from_numpy] builds the image tensors in host memory.  Line 68
    wraps the network in [DataParallel] and moves it to the GPU with
    [.cuda()]: the inputs are copied there and what [self._net(X)] returns
    is gathered on the GPU. *)
Inductive device : Type :=
| cpu
| cuda.

Definition net_device (self : BilinearAlexManager) : device := cuda.

(** [t.detach().numpy()] on a tensor held by device [d]: a NumPy array
    lives in host memory, and PyTorch refuses to convert a CUDA tensor (the
    source has no [.cpu()] before the call). *)
Definition cuda_to_numpy : exn :=
  TypeError "can't convert CUDA tensor to numpy. Use Tensor.cpu() to copy the tensor to host memory first.".

Definition detach_numpy (d : device) (X : tensor) : result tensor :=
  match d with
  | cpu => Ok X
  | cuda => Raise cuda_to_numpy
  end.

(** Body of the batch loop of [test] (lines 118-125). *)
Definition test_batch (self : BilinearAlexManager) (abn : batch_paths)
  (num_correct num_total : Z) : M (Z * Z) :=
  (APN <- lift (_image_loader abn) ;;
   let '(A, P, N) := APN in
   out_a <- net_forward self A ;;
   feat_a <- lift (detach_numpy (net_device self) out_a) ;;
   out_p <- net_forward self P ;;
   feat_p <- lift (detach_numpy (net_device self) out_p) ;;
   out_n <- net_forward self N ;;
   feat_n <- lift (detach_numpy (net_device self) out_n) ;;
   ret (num_correct + count_correct (_margin self) (embedding_rows feat_a)
                        (embedding_rows feat_p) (embedding_rows feat_n),
        num_total + Z.of_nat (length (fst (fst abn))))%Z)%world.

Fixpoint test_batches (self : BilinearAlexManager) (batches : list batch_paths)
  (num_correct num_total : Z) : M (Z * Z) :=
  match batches with
  | [] => ret (num_correct, num_total)
  | abn :: rest =>
      (st <- test_batch self abn num_correct num_total ;;
       test_batches self rest (fst st) (snd st))%world
  end.

(** [num_correct/num_total], true division. *)
Definition true_divide (a b : Z) : result Q :=
  match b with
  | Z0 => Raise ZeroDivisionError
  | Zpos d => Ok (a # d)
  | Zneg d => Ok ((- a) # d)
  end.

Definition test (self : BilinearAlexManager) : M Q :=
  (emit (PrintStr "Testing.") ;;
   batches <- _data_loader self false ;;
   st <- test_batches self batches 0%Z 0%Z ;;
   acc <- lift (true_divide (fst st) (snd st)) ;;
   emit (PrintAccuracy acc) ;;
   ret acc)%world.

(** A computation that neither prints nor touches the weights. *)
Definition quiet {A : Type} (m : M A) : Prop :=
  forall w, trace (snd (m w)) = trace w /\
            model_weights (snd (m w)) = model_weights w.

Definition is_loss_report (e : event) : bool :=
  match e with
  | PrintLoss _ => true
  | _ => false
  end.

Definition main : M unit :=
  (bcnn <- Manager_init (Some "part") None ;;
   train bcnn ;;
   test bcnn ;;
   ret tt)%world.

(** * Properties *)

(** ** Freezing *)

Lemma new_layer_trainable name k i p :
  In p (lparams (new_layer name k i)) -> requires_grad p = true.
Proof.
  destruct k; simpl; intros H; repeat destruct H as [<- | H]; auto; contradiction.
Qed.

Lemma Sequential_trainable name kinds i p :
  In p (layers_parameters (Sequential name kinds i)) -> requires_grad p = true.
Proof.
  unfold layers_parameters, Sequential. rewrite in_flat_map.
  intros (l & Hl & Hp). apply in_map_iff in Hl as (ik & <- & _).
  eapply new_layer_trainable; eauto.
Qed.

Lemma freeze_layer_frozen l p :
  In p (lparams (freeze_layer l)) -> requires_grad p = false.
Proof.
  simpl. rewrite in_map_iff. intros (q & <- & _). reflexivity.
Qed.

Lemma freeze_layers_frozen ls p :
  In p (layers_parameters (map freeze_layer ls)) -> requires_grad p = false.
Proof.
  unfold layers_parameters. rewrite in_flat_map.
  intros (l & Hl & Hp). apply in_map_iff in Hl as (l0 & <- & _).
  eapply freeze_layer_frozen; eauto.
Qed.

Lemma init_layer_requires_grad l :
  map requires_grad (lparams (init_layer l)) = map requires_grad (lparams l).
Proof.
  simpl. rewrite map_map. reflexivity.
Qed.

Lemma trainable_none ps :
  (forall p, In p ps -> requires_grad p = false) -> trainable ps = [].
Proof.
  induction ps as [|p ps IH]; simpl; intros H; [reflexivity|].
  rewrite (H p (or_introl eq_refl)). apply IH. intros q Hq. apply H. now right.
Qed.

Lemma trainable_all ps :
  (forall p, In p ps -> requires_grad p = true) -> trainable ps = ps.
Proof.
  induction ps as [|p ps IH]; simpl; intros H; [reflexivity|].
  rewrite (H p (or_introl eq_refl)). f_equal. apply IH. intros q Hq. apply H. now right.
Qed.

Lemma unrecognized_freeze_raises s :
  s <> "" -> s <> "part" -> s <> "all" ->
  BilinearAlex_init (Some s) = Raise (ValueError "Unavailable freeze option.").
Proof.
  intros H0 H1 H2. unfold BilinearAlex_init, truthy, _freeze.
  apply String.eqb_neq in H0, H1, H2. rewrite H0, H1, H2. reflexivity.
Qed.

(** The string ['none'] is not a freeze mode: no freezing is [None]. *)
Lemma freeze_string_none_raises :
  BilinearAlex_init (Some "none") = Raise (ValueError "Unavailable freeze option.").
Proof. apply unrecognized_freeze_raises; discriminate. Qed.

(** C2: constructing the network without a freeze mode succeeds, and every
    parameter of the feature extractor, of the bilinear sub-head and of the
    final projection has gradients enabled. *)
Theorem freeze_none_all_trainable :
  exists net,
    BilinearAlex_init None = Ok net /\
    (forall p, In p (layers_parameters (features net)) -> requires_grad p = true) /\
    (forall p, In p (layers_parameters (bfc net)) -> requires_grad p = true) /\
    (forall p, In p (lparams (fc net)) -> requires_grad p = true) /\
    trainable (parameters net) = parameters net /\
    length (parameters net) = 18.
Proof.
  eexists. split; [reflexivity|].
  assert (Hf : forall p, In p (layers_parameters
            (Sequential "features" alexnet_features Pretrained)) ->
            requires_grad p = true) by apply Sequential_trainable.
  assert (Hb : forall p, In p (layers_parameters
            (but_last (Sequential "bfc"
               (but_last alexnet_classifier ++ [Linear 4096 512]) DefaultInit) ++
             map init_layer (last_slice (Sequential "bfc"
               (but_last alexnet_classifier ++ [Linear 4096 512]) DefaultInit)))) ->
            requires_grad p = true).
  { intros p Hp. vm_compute in Hp.
    repeat destruct Hp as [<- | Hp]; auto; contradiction. }
  assert (Hc : forall p, In p (lparams (init_layer
            (new_layer "fc" (Linear (512 ^ 2) 512) DefaultInit))) ->
            requires_grad p = true).
  { intros p Hp. simpl in Hp. repeat destruct Hp as [<- | Hp]; auto; contradiction. }
  split; [exact Hf|]. split; [exact Hb|]. split; [exact Hc|]. split.
  - apply trainable_all. unfold parameters. intros p Hp.
    apply in_app_or in Hp as [Hp | Hp]; [now apply Hf|].
    apply in_app_or in Hp as [Hp | Hp]; [apply Hb | apply Hc]; exact Hp.
  - reflexivity.
Qed.

Lemma Manager_init_inv freeze param_path w mgr :
  fst (Manager_init freeze param_path w) = Ok mgr ->
  exists net,
    BilinearAlex_init freeze = Ok net /\
    _net mgr = net /\ _margin mgr = 1%Q /\ _batch mgr = 1%Z /\ _epoch mgr = 1 /\
    _solver mgr =
      (if match freeze with
          | Some f => negb (String.eqb f "all")
          | None => true
          end
       then Some (mkSGD (trainable (parameters net)) (1 # 1000) (9 # 10))
       else None).
Proof.
  unfold Manager_init, bind, lift.
  destruct (BilinearAlex_init freeze) as [net|e]; simpl; [|discriminate].
  set (loaded := match param_path with
                 | Some PATH => if String.eqb PATH "" then ret tt else _load PATH
                 | None => ret tt
                 end _).
  destruct loaded as [[[]|e] w1]; simpl; [|discriminate].
  destruct (match freeze with Some f => negb (String.eqb f "all") | None => true end);
    simpl; intros [= <-]; exists net; repeat split; reflexivity.
Qed.

(** C4: with freeze mode [all] no parameter has gradients enabled; with
    [part] the parameters with gradients enabled are exactly those of the
    last layer of the bilinear sub-head and of the final projection, the
    feature extractor and the earlier sub-head layers being frozen; and a
    manager, whose network is the one the constructor builds for its freeze
    mode, holds an optimizer, built over exactly the trainable parameters of
    that network (SGD, learning rate 0.001, momentum 0.9), if and only if
    its freeze mode is not [all]: the optimizer of a [part] manager holds
    [bfc.6] and [fc], an [all] manager has none. *)
Theorem freeze_modes_and_solver :
  (exists net,
     BilinearAlex_init (Some "all") = Ok net /\
     trainable (parameters net) = []) /\
  (exists net,
     BilinearAlex_init (Some "part") = Ok net /\
     trainable (parameters net)
       = layers_parameters (last_slice (bfc net)) ++ lparams (fc net) /\
     map pname (trainable (parameters net))
       = ["bfc.6.weight"; "bfc.6.bias"; "fc.weight"; "fc.bias"] /\
     (forall p, In p (layers_parameters (features net)) ->
                requires_grad p = false) /\
     (forall p, In p (layers_parameters (but_last (bfc net))) ->
                requires_grad p = false)) /\
  (forall freeze param_path w mgr,
     fst (Manager_init freeze param_path w) = Ok mgr ->
     BilinearAlex_init freeze = Ok (_net mgr) /\
     (_solver mgr <> None <-> freeze <> Some "all") /\
     (forall s, _solver mgr = Some s ->
        opt_params s = trainable (parameters (_net mgr)) /\
        opt_lr s = (1 # 1000)%Q /\ opt_momentum s = (9 # 10)%Q)) /\
  (forall param_path w mgr,
     fst (Manager_init (Some "part") param_path w) = Ok mgr ->
     exists s,
       _solver mgr = Some s /\
       opt_params s
         = layers_parameters (last_slice (bfc (_net mgr))) ++ lparams (fc (_net mgr)) /\
       map pname (opt_params s)
         = ["bfc.6.weight"; "bfc.6.bias"; "fc.weight"; "fc.bias"] /\
       Forall (fun p => requires_grad p = true) (opt_params s)) /\
  (forall param_path w mgr,
     fst (Manager_init (Some "all") param_path w) = Ok mgr ->
     _solver mgr = None /\ trainable (parameters (_net mgr)) = []) /\
  (forall freeze w,
     freeze = Some "part" \/ freeze = Some "all" ->
     exists mgr w', Manager_init freeze None w = (Ok mgr, w')).
Proof.
  assert (Hall : exists net,
            BilinearAlex_init (Some "all") = Ok net /\
            trainable (parameters net) = []).
  { eexists. split; [reflexivity|].
    apply trainable_none. unfold parameters. intros p Hp.
    apply in_app_or in Hp as [Hp | Hp];
      [eapply freeze_layers_frozen; exact Hp|].
    apply in_app_or in Hp as [Hp | Hp].
    + vm_compute in Hp. repeat destruct Hp as [<- | Hp]; auto; contradiction.
    + simpl in Hp. repeat destruct Hp as [<- | Hp]; auto; contradiction. }
  split; [exact Hall|]. split; [|split; [|split; [|split]]].
  - eexists. split; [reflexivity|].
    split; [reflexivity|]. split; [reflexivity|]. split.
    + intros p Hp. eapply freeze_layers_frozen; exact Hp.
    + intros p Hp. vm_compute in Hp.
      repeat destruct Hp as [<- | Hp]; auto; contradiction.
  - intros freeze param_path w mgr H.
    apply Manager_init_inv in H as (net & Hnet & Hn & _ & _ & _ & Hs).
    split; [now rewrite Hn|]. split.
    + rewrite Hs. destruct freeze as [f|]; simpl.
      * destruct (String.eqb_spec f "all") as [->|Hne]; simpl.
        -- split; intros C; exfalso; apply C; reflexivity.
        -- split; [intros _ [= E]; contradiction | discriminate].
      * split; discriminate.
    + intros s Hsome. rewrite Hs in Hsome.
      destruct (match freeze with Some f => negb (String.eqb f "all") | None => true end);
        [|discriminate].
      injection Hsome as <-. subst net. repeat split; reflexivity.
  - intros param_path w mgr H.
    apply Manager_init_inv in H as (net & Hnet & Hn & _ & _ & _ & Hs).
    cbn in Hs. injection Hnet as Hnet. rewrite Hn, <- Hnet.
    eexists. split; [exact Hs|]. cbn [opt_params].
    split; [subst net; reflexivity|]. split; [subst net; reflexivity|].
    subst net. apply Forall_forall. intros p Hp. unfold trainable in Hp.
    apply filter_In in Hp as [_ Hp]. exact Hp.
  - intros param_path w mgr H.
    apply Manager_init_inv in H as (net & Hnet & Hn & _ & _ & _ & Hs).
    cbn in Hs. split; [exact Hs|].
    destruct Hall as (net' & Hnet' & Hnone). rewrite Hn.
    rewrite Hnet in Hnet'. injection Hnet' as <-. exact Hnone.
  - intros freeze w [-> | ->]; eexists; eexists; reflexivity.
Qed.

(** ** Invalid configurations *)

Lemma data_load_bad_part part ver batch w :
  part <> "train" -> part <> "test" ->
  sun360h_data_load part ver batch w
    = (Raise (ValueError "Unavailable dataset part!"), w).
Proof.
  intros H1 H2. unfold sun360h_data_load, bind, lift, dataset_paths.
  apply String.eqb_neq in H1, H2. rewrite H1, H2. reflexivity.
Qed.

Lemma data_load_bad_version part ver batch w :
  part = "train" \/ part = "test" ->
  ver <> 0%Z -> ver <> 1%Z -> ver <> 2%Z ->
  sun360h_data_load part ver batch w
    = (Raise (ValueError "Unavailable dataset version!"), w).
Proof.
  intros Hp H0 H1 H2. unfold sun360h_data_load, bind, lift, dataset_paths.
  replace (String.eqb part "train" || String.eqb part "test")%bool with true
    by (destruct Hp as [-> | ->]; reflexivity).
  apply Z.eqb_neq in H0, H1, H2. simpl. rewrite H0, H1, H2. reflexivity.
Qed.

(** C8 (amended): a non-empty freeze mode other than [part] and [all]
    (such as ["bogus"]) makes the construction of the network, and of a
    manager, fail with [InvalidConfiguration]; a dataset partition outside
    train/test, or a version outside 0, 1, 2 (such as 5), makes the loader
    fail with [InvalidConfiguration].  Each failure is immediate, before
    any batch is produced: [_freeze] raises once the layers are built
    (lines 12-16, the pretrained feature extractor included), and the
    failing manager has printed nothing and loaded no checkpoint; the
    failing loader has drawn no permutation and no negative, its table
    being opened only after the two checks.  The empty freeze string is
    accepted and means no freezing. *)
Theorem invalid_configuration_fails_fast :
  (forall s, s <> "" -> s <> "part" -> s <> "all" ->
     exists e, BilinearAlex_init (Some s) = Raise e /\
               InvalidConfiguration e = true) /\
  (forall s param_path w, s <> "" -> s <> "part" -> s <> "all" ->
     exists e, Manager_init (Some s) param_path w = (Raise e, w) /\
               InvalidConfiguration e = true) /\
  (forall part ver batch w, part <> "train" -> part <> "test" ->
     exists e, sun360h_data_load part ver batch w = (Raise e, w) /\
               InvalidConfiguration e = true) /\
  (forall part ver batch w, ver <> 0%Z -> ver <> 1%Z -> ver <> 2%Z ->
     exists e, sun360h_data_load part ver batch w = (Raise e, w) /\
               InvalidConfiguration e = true) /\
  BilinearAlex_init (Some "") = BilinearAlex_init None.
Proof.
  split; [|split; [|split; [|split]]].
  - intros s H0 H1 H2. eexists. split;
      [apply unrecognized_freeze_raises; assumption | reflexivity].
  - intros s pp w H0 H1 H2.
    exists (ValueError "Unavailable freeze option."). split; [|reflexivity].
    unfold Manager_init, bind, lift.
    rewrite unrecognized_freeze_raises by assumption. reflexivity.
  - intros part ver batch w H1 H2. eexists. split;
      [apply data_load_bad_part; assumption | reflexivity].
  - intros part ver batch w H0 H1 H2.
    destruct (String.eqb_spec part "train") as [Ht | Ht].
    + eexists. split;
        [apply data_load_bad_version; auto | reflexivity].
    + destruct (String.eqb_spec part "test") as [Hs | Hs].
      * eexists. split;
          [apply data_load_bad_version; auto | reflexivity].
      * eexists. split;
          [apply data_load_bad_part; assumption | reflexivity].
  - reflexivity.
Qed.

(** ** Shapes through [forward] *)

Lemma shape_eqb_refl s : shape_eqb s s = true.
Proof.
  unfold shape_eqb. rewrite Nat.eqb_refl. simpl.
  induction s as [|d s IH]; simpl; [reflexivity|].
  rewrite Z.eqb_refl. exact IH.
Qed.

Lemma assert_size_ok X s : shape X = s -> assert_size X s = Ok tt.
Proof. intros <-. unfold assert_size. now rewrite shape_eqb_refl. Qed.

Lemma nonneg_dims spec :
  Forall (fun d => 0 <= d)%Z spec ->
  existsb (fun d => (d <? -1)%Z) spec = false /\
  filter (fun d => negb (d =? -1)%Z) spec = spec /\
  count_occ Z.eq_dec spec (-1)%Z = 0.
Proof.
  induction 1 as [|d l Hd _ (IH1 & IH2 & IH3)]; simpl; [auto|].
  destruct (Z.ltb_spec d (-1)); [lia|].
  destruct (Z.eqb_spec d (-1)); [lia|].
  destruct (Z.eq_dec d (-1)); [lia|].
  simpl. rewrite IH2. auto.
Qed.

Lemma view_exact X spec :
  Forall (fun d => 0 <= d)%Z spec -> numel spec = numel (shape X) ->
  view X spec = Ok (mkTensor spec (data X)).
Proof.
  intros Hpos Hnum. unfold view.
  destruct (nonneg_dims spec Hpos) as (Hex & Hfil & Hcnt).
  rewrite Hex, Hfil, Hcnt, Hnum, Z.eqb_refl. reflexivity.
Qed.

Lemma view_insert_axis X N :
  (1 <= N)%Z -> shape X = [N; 512]%Z ->
  view X [N; -1; 512]%Z = Ok (mkTensor [N; 1; 512]%Z (data X)).
Proof.
  intros HN HX. unfold view. rewrite HX. simpl.
  destruct (Z.ltb_spec N (-1)); [lia|]. simpl.
  destruct (Z.eqb_spec N (-1)); [lia|]. simpl.
  destruct (Z.eq_dec N (-1)); [lia|].
  replace (N * 512 =? 0)%Z with false by (symmetry; apply Z.eqb_neq; lia).
  rewrite Z.mod_same by lia. simpl.
  rewrite Z.div_same by lia. reflexivity.
Qed.

Lemma apply_sequential_shape w ls X s :
  sequential_shape (map kind ls) (shape X) = Ok s ->
  exists Y, apply_sequential w ls X = Ok Y /\ shape Y = s.
Proof.
  revert X. induction ls as [|l ls IH]; simpl; intros X H.
  - injection H as <-. now exists X.
  - unfold apply_layer.
    destruct (layer_shape (kind l) (shape X)) as [s1|e]; simpl in *; [|discriminate].
    apply (IH (mkTensor s1 (layer_forward w l (data X)))). exact H.
Qed.

Lemma transpose_1_2_shape X n a b :
  shape X = [n; a; b] ->
  exists T, transpose_1_2 X = Ok T /\ shape T = [n; b; a].
Proof. intros H. unfold transpose_1_2. rewrite H. eexists. split; reflexivity. Qed.

Lemma matmul_shape X Y n a b c :
  shape X = [n; a; b] -> shape Y = [n; b; c] ->
  exists P, matmul X Y = Ok P /\ shape P = [n; a; c].
Proof.
  intros HX HY. unfold matmul. rewrite HX, HY, !Z.eqb_refl. simpl.
  eexists. split; reflexivity.
Qed.

Lemma self_outer_product_shape N X :
  (1 <= N)%Z -> shape X = [N; 512]%Z ->
  exists O, self_outer_product N X = Ok O /\ shape O = [N; 512; 512]%Z.
Proof.
  intros HN HX. unfold self_outer_product.
  rewrite (view_insert_axis X N HN HX). cbn [rbind].
  destruct (transpose_1_2_shape (mkTensor [N; 1; 512]%Z (data X)) N 1 512 eq_refl)
    as (T & -> & HT). cbn [rbind].
  apply (matmul_shape T (mkTensor [N; 1; 512]%Z (data X)) N 512 1 512 HT eq_refl).
Qed.

Lemma bilinear_pool_shape N X :
  (1 <= N)%Z -> shape X = [N; 512]%Z ->
  exists P, bilinear_pool N X = Ok P /\ shape P = [N; 262144]%Z.
Proof.
  intros HN HX. unfold bilinear_pool.
  destruct (self_outer_product_shape N X HN HX) as (O & -> & HO). cbn [rbind].
  rewrite (assert_size_ok O _ HO). cbn [rbind].
  rewrite view_exact.
  - eexists. split; reflexivity.
  - repeat constructor; lia.
  - rewrite HO. unfold numel. simpl. lia.
Qed.

Lemma py_index_nat {A : Type} (l : list A) (j : nat) (x : A) :
  nth_error l j = Some x -> py_index l (Z.of_nat j) = Ok x.
Proof.
  intros H. unfold py_index.
  assert (Hlt : j < length l) by (apply nth_error_Some; congruence).
  destruct (Z.ltb_spec (Z.of_nat j) 0); [lia|].
  destruct (Z.ltb_spec (Z.of_nat j) 0); [lia|].
  destruct (Z.leb_spec (Z.of_nat (length l)) (Z.of_nat j)); [lia|].
  simpl. rewrite Nat2Z.id, H. reflexivity.
Qed.

Definition valid_freeze (freeze : option string) : Prop :=
  freeze = None \/ freeze = Some "part" \/ freeze = Some "all".

(** C1: for every valid freeze mode and every input batch of shape
    (N, 3, 227, 227) with N >= 1, the network is constructed and its forward
    pass returns a tensor of shape (N, 512); the feature extractor yields
    (N, 256, 6, 6), the bilinear sub-head (N, 512), the outer product
    (N, 512, 512) and the pooling (N, 262144), so that no assertion of
    [forward] fires. *)
Theorem forward_output_shape (w : weights) (freeze : option string) (N : Z)
  (X : tensor) :
  valid_freeze freeze -> (1 <= N)%Z -> shape X = [N; 3; 227; 227]%Z ->
  exists net F B O P Y,
    BilinearAlex_init freeze = Ok net /\
    apply_sequential w (features net) X = Ok F /\
    shape F = [N; 256; 6; 6]%Z /\
    rbind (view F [N; 256 * 6 * 6]%Z) (apply_sequential w (bfc net)) = Ok B /\
    shape B = [N; 512]%Z /\
    self_outer_product N B = Ok O /\ shape O = [N; 512; 512]%Z /\
    bilinear_pool N B = Ok P /\ shape P = [N; 262144]%Z /\
    forward w net X = Ok Y /\ shape Y = [N; 512]%Z.
Proof.
  intros Hf HN HX.
  assert (Hnet : exists net, BilinearAlex_init freeze = Ok net /\
            map kind (features net) = alexnet_features /\
            map kind (bfc net) = but_last alexnet_classifier ++ [Linear 4096 512] /\
            kind (fc net) = Linear 262144 512).
  { destruct Hf as [-> | [-> | ->]]; eexists; (split; [reflexivity|]);
      repeat split; reflexivity. }
  destruct Hnet as (net & Hinit & Hkf & Hkb & Hkc).
  destruct (apply_sequential_shape w (features net) X [N; 256; 6; 6]%Z)
    as (F & HF & HsF).
  { rewrite Hkf, HX. reflexivity. }
  assert (HV : view F [N; 256 * 6 * 6]%Z = Ok (mkTensor [N; 9216]%Z (data F))).
  { apply view_exact; [repeat constructor; lia|].
    rewrite HsF. unfold numel. simpl. lia. }
  destruct (apply_sequential_shape w (bfc net) (mkTensor [N; 9216]%Z (data F))
              [N; 512]%Z) as (B & HB & HsB).
  { rewrite Hkb. reflexivity. }
  destruct (self_outer_product_shape N B HN HsB) as (O & HO & HsO).
  destruct (bilinear_pool_shape N B HN HsB) as (P & HP & HsP).
  assert (HY : exists Y, apply_layer w (fc net) P = Ok Y /\ shape Y = [N; 512]%Z).
  { unfold apply_layer. rewrite Hkc, HsP. simpl. eexists. split; reflexivity. }
  destruct HY as (Y & HY & HsY).
  exists net, F, B, O, P, Y.
  split; [exact Hinit|]. split; [exact HF|]. split; [exact HsF|].
  split; [rewrite HV; exact HB|]. split; [exact HsB|].
  split; [exact HO|]. split; [exact HsO|].
  split; [exact HP|]. split; [exact HsP|]. split; [|exact HsY].
  { unfold forward. rewrite HX.
    change 0%Z with (Z.of_nat 0) at 1.
    rewrite (py_index_nat [N; 3; 227; 227]%Z 0 N eq_refl). cbn [rbind].
    rewrite (assert_size_ok X _ HX). cbn [rbind].
    rewrite HF. cbn [rbind]. rewrite HV. cbn [rbind]. rewrite HB. cbn [rbind].
    rewrite (assert_size_ok B _ HsB). cbn [rbind]. rewrite HP. cbn [rbind].
    rewrite HY. cbn [rbind]. rewrite (assert_size_ok Y _ HsY). reflexivity. }
Qed.

(** ** Bilinear pooling *)

Lemma Qplus_0_r_eq (q : Q) : (q + 0)%Q = q.
Proof.
  destruct q as [n d]. unfold Qplus. simpl.
  now rewrite Z.mul_1_r, Z.add_0_r, Pos.mul_1_r.
Qed.

Lemma rows_concat {A : Type} (k : nat) (vs : list (list A)) :
  Forall (fun v => length v = k) vs -> rows (length vs) k (concat vs) = vs.
Proof.
  induction 1 as [|v vs Hv _ IH]; simpl; [reflexivity|]. subst k.
  rewrite firstn_app, skipn_app, Nat.sub_diag, firstn_all, skipn_all.
  simpl. now rewrite app_nil_r, IH.
Qed.

Lemma rows_one {A : Type} (v : list A) : rows 1 (length v) v = [v].
Proof. simpl. now rewrite firstn_all. Qed.

Lemma rows_singletons {A : Type} (v : list A) :
  rows (length v) 1 v = map (fun x => [x]) v.
Proof. induction v as [|x v IH]; simpl; [reflexivity|]. now rewrite IH. Qed.

Lemma map_nth_seq_id {A : Type} (d : A) (v : list A) :
  map (fun j => nth j v d) (seq 0 (length v)) = v.
Proof.
  induction v as [|x v IH]; simpl; [reflexivity|].
  rewrite <- seq_shift, map_map. simpl. now rewrite IH.
Qed.

Lemma concat_map_singleton {A B : Type} (f : A -> B) (l : list A) :
  concat (map (fun x => [f x]) l) = map f l.
Proof. induction l as [|x l IH]; simpl; [reflexivity|]. now rewrite IH. Qed.

Lemma zip_with_map_same {A B C D : Type} (f : B -> C -> D) (g : A -> B)
  (h : A -> C) (l : list A) :
  zip_with f (map g l) (map h l) = map (fun x => f (g x) (h x)) l.
Proof. induction l as [|x l IH]; simpl; [reflexivity|]. now rewrite IH. Qed.

Lemma transpose_row_vector (v : list Q) :
  concat (transpose_matrix (length v) [v]) = v.
Proof.
  unfold transpose_matrix. simpl.
  rewrite (concat_map_singleton (fun j => nth j v 0%Q)). apply map_nth_seq_id.
Qed.

Lemma column_times_row (v : list Q) :
  concat (matrix_product (length v) (map (fun x => [x]) v) [v])
  = outer_product_flat v.
Proof.
  unfold matrix_product, outer_product_flat, transpose_matrix.
  rewrite map_map, flat_map_concat_map. f_equal.
  apply map_ext. intros x. rewrite map_map. simpl.
  rewrite <- (map_nth_seq_id 0%Q v) at 2. rewrite map_map.
  apply map_ext. intros j. apply Qplus_0_r_eq.
Qed.

Section Pooling.

Variable N : Z.
Variable vs : list (list Q).
Hypothesis batch_size : length vs = Z.to_nat N.
Hypothesis row_length : Forall (fun v => length v = 512) vs.

Lemma map_rows_ext {A : Type} (f g : list Q -> A) :
  (forall v, In v vs -> f v = g v) -> map f vs = map g vs.
Proof. apply map_ext_in. Qed.

Lemma matrices_row_vectors :
  matrices N 1 512 (concat vs) = map (fun v => [v]) vs.
Proof.
  unfold matrices. rewrite <- batch_size.
  change (Z.to_nat (1 * 512)) with 512. change (Z.to_nat 512) with 512.
  change (Z.to_nat 1) with 1.
  rewrite (rows_concat 512 vs row_length).
  apply map_rows_ext. intros v Hv.
  rewrite Forall_forall in row_length. rewrite <- (row_length v Hv).
  apply rows_one.
Qed.

Lemma matrices_column_vectors :
  matrices N 512 1 (concat vs) = map (fun v => map (fun x => [x]) v) vs.
Proof.
  unfold matrices. rewrite <- batch_size.
  change (Z.to_nat (512 * 1)) with 512. change (Z.to_nat 512) with 512.
  change (Z.to_nat 1) with 1.
  rewrite (rows_concat 512 vs row_length).
  apply map_rows_ext. intros v Hv.
  rewrite Forall_forall in row_length. rewrite <- (row_length v Hv).
  apply rows_singletons.
Qed.

Lemma flatten_transposed_rows :
  flatten_matrices (map (transpose_matrix 512) (map (fun v => [v]) vs))
  = concat vs.
Proof.
  unfold flatten_matrices. rewrite !map_map.
  rewrite (map_rows_ext _ (fun v => v)); [now rewrite map_id|].
  intros v Hv. rewrite Forall_forall in row_length.
  rewrite <- (row_length v Hv). apply transpose_row_vector.
Qed.

Lemma flatten_products :
  flatten_matrices
    (zip_with (matrix_product 512)
       (map (fun v => map (fun x => [x]) v) vs) (map (fun v => [v]) vs))
  = concat (map outer_product_flat vs).
Proof.
  unfold flatten_matrices. rewrite zip_with_map_same, map_map. f_equal.
  apply map_rows_ext. intros v Hv. rewrite Forall_forall in row_length.
  rewrite <- (row_length v Hv). apply column_times_row.
Qed.

Lemma self_outer_product_data :
  (1 <= N)%Z ->
  self_outer_product N (mkTensor [N; 512]%Z (concat vs))
  = Ok (mkTensor [N; 512; 512]%Z (concat (map outer_product_flat vs))).
Proof.
  intros HN. unfold self_outer_product.
  rewrite (view_insert_axis (mkTensor [N; 512]%Z (concat vs)) N HN eq_refl).
  cbn [rbind data].
  unfold transpose_1_2. cbn [shape data rbind].
  rewrite matrices_row_vectors.
  change (Z.to_nat 512) with 512. rewrite flatten_transposed_rows.
  unfold matmul. cbn [shape data]. rewrite !Z.eqb_refl. cbn [andb].
  rewrite matrices_row_vectors, matrices_column_vectors.
  change (Z.to_nat 512) with 512. rewrite flatten_products. reflexivity.
Qed.

Lemma bilinear_pool_data :
  (1 <= N)%Z ->
  bilinear_pool N (mkTensor [N; 512]%Z (concat vs))
  = Ok (mkTensor [N; 262144]%Z (concat (map outer_product_flat vs))).
Proof.
  intros HN. unfold bilinear_pool.
  rewrite (self_outer_product_data HN). cbn [rbind].
  rewrite (assert_size_ok (mkTensor [N; 512; 512]%Z _) [N; 512; 512]%Z eq_refl).
  cbn [rbind].
  rewrite view_exact; [reflexivity | repeat constructor; lia|].
  unfold numel. simpl. lia.
Qed.

End Pooling.

Lemma outer_product_flat_length (v : list Q) :
  length (outer_product_flat v) = length v * length v.
Proof.
  unfold outer_product_flat.
  assert (H : forall u : list Q,
            length (flat_map (fun x => map (fun y => x * y)%Q v) u)
            = length u * length v).
  { induction u as [|x u IH]; simpl; [reflexivity|].
    now rewrite length_app, length_map, IH. }
  apply H.
Qed.

Lemma nth_flat_map_uniform {A B : Type} (f : A -> list B) (k : nat) (l : list A)
  (da : A) (db : B) (i j : nat) :
  (forall x, length (f x) = k) -> i < length l -> j < k ->
  nth (i * k + j) (flat_map f l) db = nth j (f (nth i l da)) db.
Proof.
  intros Hk. revert i. induction l as [|x l IH]; simpl; intros i Hi Hj; [lia|].
  destruct i as [|i]; simpl.
  - apply app_nth1. now rewrite Hk.
  - rewrite app_nth2; rewrite Hk; [|lia].
    replace (k + i * k + j - k) with (i * k + j) by lia.
    apply IH; lia.
Qed.

Lemma outer_product_flat_entry (v : list Q) (i j : nat) :
  i < length v -> j < length v ->
  nth (i * length v + j) (outer_product_flat v) 0%Q
  = (nth i v 0 * nth j v 0)%Q.
Proof.
  intros Hi Hj. unfold outer_product_flat.
  rewrite (nth_flat_map_uniform _ (length v) v 0%Q 0%Q i j);
    [| intros x; apply length_map | assumption | assumption].
  rewrite (nth_indep _ 0%Q (nth i v 0 * 0)%Q) by now rewrite length_map.
  apply (map_nth (fun y => (nth i v 0 * y)%Q)).
Qed.

Lemma shape_eqb_eq s1 s2 : shape_eqb s1 s2 = true -> s1 = s2.
Proof.
  unfold shape_eqb. intros H. apply andb_prop in H as [Hl Hall].
  apply Nat.eqb_eq in Hl. revert s2 Hl Hall.
  induction s1 as [|a s1 IH]; intros [|b s2] Hl Hall; simpl in *;
    try discriminate; [reflexivity|].
  apply andb_prop in Hall as [Hab Hall]. apply Z.eqb_eq in Hab. subst b.
  f_equal. apply IH; [now injection Hl | exact Hall].
Qed.

Lemma assert_size_inv X s u : assert_size X s = Ok u -> shape X = s.
Proof.
  unfold assert_size. destruct (shape_eqb (shape X) s) eqn:E; [|discriminate].
  intros _. now apply shape_eqb_eq.
Qed.

Lemma rbind_inv {A B : Type} (r : result A) (k : A -> result B) (b : B) :
  rbind r k = Ok b -> exists a, r = Ok a /\ k a = Ok b.
Proof. destruct r as [a|e]; simpl; [eauto | discriminate]. Qed.

Lemma view_insert_axis_inv X N V :
  view X [N; -1; 512]%Z = Ok V -> (1 <= N)%Z.
Proof.
  unfold view. cbn [existsb filter count_occ].
  destruct (Z.ltb_spec N (-1)); [discriminate|]. cbn [orb].
  destruct (Z.eq_dec N (-1)) as [->|Hne]; [discriminate|].
  destruct (Z.eqb_spec N (-1)); [contradiction|]. cbn [negb].
  change (if Z.eq_dec (-1) (-1) then 1 else 0) with 1.
  cbn -[Z.mul Z.modulo Z.div numel].
  unfold numel at 1. cbn [fold_right].
  destruct (Z.eqb_spec (N * (512 * 1)) 0); [discriminate|].
  intros _. lia.
Qed.

(** What a successful forward pass went through. *)
Lemma forward_inv (w : weights) (self : BilinearAlex) (X Y : tensor) :
  forward w self X = Ok Y ->
  exists N F V B P,
    py_index (shape X) 0 = Ok N /\
    shape X = [N; 3; 227; 227]%Z /\
    apply_sequential w (features self) X = Ok F /\
    view F [N; 256 * 6 * 6]%Z = Ok V /\
    apply_sequential w (bfc self) V = Ok B /\
    shape B = [N; 512]%Z /\
    bilinear_pool N B = Ok P /\
    apply_layer w (fc self) P = Ok Y /\
    shape Y = [N; 512]%Z.
Proof.
  unfold forward. intros H.
  apply rbind_inv in H as (N & HN & H).
  apply rbind_inv in H as (u1 & HX & H).
  apply rbind_inv in H as (F & HF & H).
  apply rbind_inv in H as (V & HV & H).
  apply rbind_inv in H as (B & HB & H).
  apply rbind_inv in H as (u2 & HsB & H).
  apply rbind_inv in H as (P & HP & H).
  apply rbind_inv in H as (Y' & HY & H).
  apply rbind_inv in H as (u3 & HsY & H).
  injection H as <-.
  exists N, F, V, B, P.
  apply assert_size_inv in HX, HsB, HsY. auto 10.
Qed.

(** C3: on the 512-vectors [vs] coming out of the bilinear sub-head, one per
    image, the pooling step computes for each vector [v] the full outer
    product of [v] with itself, 512 x 512 entries [v_i * v_j], flattened to
    512 * 512 = 262144 values.  And this is the step of every successful
    forward pass: the tensor pooled is the output [B] of the sub-head on
    the features of the input [X], the pooled tensor [P] holds the outer
    products of the rows of [B], and the final projection is applied to
    [P]. *)
Theorem bilinear_pool_outer_product (w : weights) (self : BilinearAlex) (N : Z)
  (vs : list (list Q)) :
  (1 <= N)%Z -> length vs = Z.to_nat N ->
  Forall (fun v => length v = 512) vs ->
  self_outer_product N (mkTensor [N; 512]%Z (concat vs))
    = Ok (mkTensor [N; 512; 512]%Z (concat (map outer_product_flat vs))) /\
  bilinear_pool N (mkTensor [N; 512]%Z (concat vs))
    = Ok (mkTensor [N; 262144]%Z (concat (map outer_product_flat vs))) /\
  (forall v, In v vs ->
     length (outer_product_flat v) = 512 * 512 /\
     forall i j, i < 512 -> j < 512 ->
       nth (i * 512 + j) (outer_product_flat v) 0%Q
       = (nth i v 0 * nth j v 0)%Q) /\
  (forall X Y, forward w self X = Ok Y ->
     exists n F V B P,
       (1 <= n)%Z /\ shape X = [n; 3; 227; 227]%Z /\
       apply_sequential w (features self) X = Ok F /\
       view F [n; 256 * 6 * 6]%Z = Ok V /\
       apply_sequential w (bfc self) V = Ok B /\
       shape B = [n; 512]%Z /\
       bilinear_pool n B = Ok P /\
       shape P = [n; 262144]%Z /\
       (forall us, length us = Z.to_nat n ->
          Forall (fun u => length u = 512) us ->
          data B = concat us ->
          data P = concat (map outer_product_flat us)) /\
       apply_layer w (fc self) P = Ok Y).
Proof.
  intros HN Hlen Hrows.
  split; [exact (self_outer_product_data N vs Hlen Hrows HN)|].
  split; [exact (bilinear_pool_data N vs Hlen Hrows HN)|].
  split.
  - intros v Hv. rewrite Forall_forall in Hrows. specialize (Hrows v Hv).
    split.
    + rewrite outer_product_flat_length, Hrows. reflexivity.
    + intros i j Hi Hj. rewrite <- Hrows in *.
      now apply outer_product_flat_entry.
  - intros X Y H.
    apply forward_inv in H
      as (n & F & V & B & P & _ & HX & HF & HV & HB & HsB & HP & HY & _).
    assert (Hn : (1 <= n)%Z).
    { pose proof HP as HP'. unfold bilinear_pool, self_outer_product in HP'.
      apply rbind_inv in HP' as (O & HO & _).
      apply rbind_inv in HO as (V1 & HV1 & _).
      eapply view_insert_axis_inv; eauto. }
    exists n, F, V, B, P.
    split; [exact Hn|]. split; [exact HX|]. split; [exact HF|].
    split; [exact HV|]. split; [exact HB|]. split; [exact HsB|].
    split; [exact HP|]. split; [|split; [|exact HY]].
    + destruct (bilinear_pool_shape n B Hn HsB) as (P' & HP' & HsP).
      rewrite HP in HP'. injection HP' as <-. exact HsP.
    + intros us Hlu Hru Hd. destruct B as [sB dB]. cbn [shape data] in *.
      subst sB dB. rewrite (bilinear_pool_data n us Hlu Hru Hn) in HP.
      injection HP as <-. reflexivity.
Qed.

(** ** The dataset indexer *)

Lemma other_candidates_In pos k :
  In k (other_candidates pos) <-> (0 <= k < 10)%Z /\ k <> pos.
Proof.
  unfold other_candidates. rewrite filter_In, in_map_iff. split.
  - intros [(i & <- & Hi) Hne]. apply in_seq in Hi.
    apply negb_true_iff, Z.eqb_neq in Hne. split; [lia | exact Hne].
  - intros [Hk Hne]. split.
    + exists (Z.to_nat k). split; [lia | apply in_seq; lia].
    + now apply negb_true_iff, Z.eqb_neq.
Qed.

Lemma other_candidates_NoDup pos : NoDup (other_candidates pos).
Proof.
  unfold other_candidates. apply NoDup_filter.
  apply Finite.Injective_map_NoDup; [|apply seq_NoDup].
  intros a b. apply Nat2Z.inj.
Qed.

Lemma other_candidates_length pos :
  (0 <= pos < 10)%Z -> length (other_candidates pos) = 9.
Proof.
  intros H.
  assert (C : (pos = 0 \/ pos = 1 \/ pos = 2 \/ pos = 3 \/ pos = 4 \/ pos = 5 \/
               pos = 6 \/ pos = 7 \/ pos = 8 \/ pos = 9)%Z) by lia.
  repeat destruct C as [-> | C]; try subst pos; reflexivity.
Qed.

Lemma filter_all {A : Type} (f : A -> bool) (l : list A) :
  (forall x, In x l -> f x = true) -> filter f l = l.
Proof.
  induction l as [|x l IH]; simpl; intros H; [reflexivity|].
  rewrite (H x (or_introl eq_refl)). f_equal. apply IH. intros y Hy. apply H. now right.
Qed.

Lemma other_candidates_long pos : 9 <= length (other_candidates pos).
Proof.
  destruct (Z_lt_dec pos 0) as [Hn | Hn];
    [| destruct (Z_lt_dec pos 10) as [Hl | Hl];
       [rewrite other_candidates_length; lia |]].
  all: unfold other_candidates; rewrite filter_all;
    [rewrite length_map, length_seq; lia |].
  all: intros k Hk; apply in_map_iff in Hk as (i & <- & Hi); apply in_seq in Hi;
    apply negb_true_iff, Z.eqb_neq; lia.
Qed.

Lemma py_index_In {A : Type} (l : list A) (i : Z) (x : A) :
  py_index l i = Ok x -> In x l.
Proof.
  unfold py_index.
  destruct (_ || _)%bool; [discriminate|].
  destruct (nth_error l _) as [y|] eqn:E; [|discriminate].
  intros [= <-]. eapply nth_error_In; eauto.
Qed.

Lemma py_index_nth_error {A : Type} (l : list A) (i : Z) (x : A) :
  (0 <= i)%Z -> py_index l i = Ok x -> nth_error l (Z.to_nat i) = Some x.
Proof.
  intros Hi. unfold py_index.
  destruct (Z.ltb_spec i 0); [lia|].
  destruct (_ || _)%bool; [discriminate|].
  destruct (nth_error l _) as [y|] eqn:E; [|discriminate].
  now intros [= <-].
Qed.

Lemma py_index_in_range {A : Type} (l : list A) (i : Z) :
  (0 <= i < Z.of_nat (length l))%Z -> exists x, py_index l i = Ok x.
Proof.
  intros Hi.
  destruct (nth_error l (Z.to_nat i)) as [x|] eqn:E.
  - exists x. rewrite <- (Z2Nat.id i) by lia. now apply py_index_nat.
  - apply nth_error_None in E. lia.
Qed.

(** *** Running the world monad *)

Lemma bind_ok {A B : Type} (m : M A) (k : A -> M B) w a w1 :
  m w = (Ok a, w1) -> bind m k w = k a w1.
Proof. unfold bind. now intros ->. Qed.

Lemma bind_raise {A B : Type} (m : M A) (k : A -> M B) w e w1 :
  m w = (Raise e, w1) -> bind m k w = (Raise e, w1).
Proof. unfold bind. now intros ->. Qed.

Lemma mapM_ok {A B : Type} (f : A -> M B) (P : A -> B -> Prop) (l : list A) :
  (forall x w, In x l -> exists y w', f x w = (Ok y, w') /\ P x y) ->
  forall w, exists ys w', mapM f l w = (Ok ys, w') /\ Forall2 P l ys.
Proof.
  induction l as [|x l IH]; intros H w.
  - exists [], w. split; [reflexivity | constructor].
  - destruct (H x w (or_introl eq_refl)) as (y & w1 & Hy & HP).
    destruct (IH (fun x' w' Hx => H x' w' (or_intror Hx)) w1)
      as (ys & w2 & Hys & HF).
    exists (y :: ys), w2. split; [|now constructor].
    simpl. rewrite (bind_ok _ _ _ _ _ Hy), (bind_ok _ _ _ _ _ Hys). reflexivity.
Qed.

Lemma row_ok_inv task_path row :
  row_ok task_path row = true ->
  exists sample_id gt rest anchor cands pos,
    row = sample_id :: gt :: rest /\
    json_file (root_path +++ task_path +++ sample_id +++ ".json")
      = Some (anchor, cands) /\
    py_int gt = Ok pos /\ length cands = 10 /\ (0 <= pos < 10)%Z.
Proof.
  unfold row_ok. destruct row as [|sample_id [|gt rest]]; try discriminate.
  destruct (json_file _) as [[anchor cands]|] eqn:Hjson; [|discriminate].
  destruct (py_int gt) as [pos|] eqn:Hint; [|discriminate].
  intros H. apply andb_prop in H as [H H3]. apply andb_prop in H as [H1 H2].
  apply Nat.eqb_eq in H1. apply Z.leb_le in H2. apply Z.ltb_lt in H3.
  exists sample_id, gt, rest, anchor, cands, pos. repeat split; auto.
Qed.

Lemma load_row_ok task_path gt_list j row :
  (forall k, np_randint k 9 < 9) ->
  nth_error gt_list j = Some row -> row_ok task_path row = true ->
  forall w, exists t w',
    load_row task_path gt_list j w = (Ok t, w') /\
    exists pos neg, row_triplet task_path gt_list j pos neg t.
Proof.
  intros Hrand Hj Hok w.
  destruct (row_ok_inv _ _ Hok)
    as (sample_id & gt & rest & anchor & cands & pos & -> & Hjson & Hint & Hlen & Hpos).
  destruct (py_index_in_range cands pos) as (p_name & Hp); [lia|].
  set (r := np_randint (randint_calls w) 9).
  destruct (py_index_in_range (other_candidates pos) (Z.of_nat r)) as (neg & Hneg).
  { pose proof (other_candidates_long pos). pose proof (Hrand (randint_calls w)).
    fold r in H0. lia. }
  assert (Hin : In neg (other_candidates pos)) by (eapply py_index_In; eauto).
  destruct (py_index_in_range cands neg) as (n_name & Hn).
  { apply other_candidates_In in Hin. lia. }
  eexists. eexists. split.
  - unfold load_row, bind, lift, open_json, randint, ret.
    rewrite (py_index_nat _ _ _ Hj).
    change 0%Z with (Z.of_nat 0).
    rewrite (py_index_nat (sample_id :: gt :: rest) 0 sample_id eq_refl).
    rewrite Hjson.
    change 1%Z with (Z.of_nat 1).
    rewrite (py_index_nat (sample_id :: gt :: rest) 1 gt eq_refl).
    rewrite Hint. cbn [snd fst]. rewrite Hp.
    fold r. rewrite Hneg, Hn. reflexivity.
  - exists pos, neg, sample_id, gt, rest, anchor, cands, p_name, n_name.
    repeat split; auto.
Qed.

Lemma load_batch_ok task_path gt_list chunk :
  (forall k, np_randint k 9 < 9) ->
  forallb (row_ok task_path) gt_list = true ->
  Forall (fun j => j < length gt_list) chunk ->
  forall w, exists b w',
    load_batch task_path gt_list chunk w = (Ok b, w') /\
    batch_of_rows task_path gt_list chunk b.
Proof.
  intros Hrand Hok Hchunk w. rewrite forallb_forall in Hok.
  rewrite Forall_forall in Hchunk.
  destruct (mapM_ok (load_row task_path gt_list)
              (fun j t => exists pos neg, row_triplet task_path gt_list j pos neg t)
              chunk) with (w := w) as (ts & w' & Hts & HF).
  { intros j w0 Hj. specialize (Hchunk j Hj).
    destruct (nth_error gt_list j) as [row|] eqn:E;
      [|apply nth_error_None in E; lia].
    apply (load_row_ok task_path gt_list j row Hrand E).
    apply Hok. eapply nth_error_In; eauto. }
  exists (unzip3 ts), w'. split.
  - unfold load_batch. rewrite (bind_ok _ _ _ _ _ Hts). reflexivity.
  - exists ts. split; [exact HF | reflexivity].
Qed.

(** *** Slicing the permutation *)

Lemma py_slice_nat {A : Type} (l : list A) (i e : nat) :
  i <= e <= length l ->
  py_slice l (Z.of_nat i) (Z.of_nat e) = firstn (e - i) (skipn i l).
Proof.
  intros H. unfold py_slice.
  destruct (Z.ltb_spec (Z.of_nat e) 0); [lia|].
  destruct (Z.ltb_spec (Z.of_nat i) 0); [lia|].
  rewrite !Z.min_l by lia. f_equal; [lia | f_equal; lia].
Qed.

Lemma firstn_plus {A : Type} (l : list A) (a b : nat) :
  firstn (a + b) l = firstn a l ++ firstn b (skipn a l).
Proof.
  revert l. induction a as [|a IH]; intros l; [reflexivity|].
  destruct l as [|x l]; simpl; [now rewrite firstn_nil | now rewrite IH].
Qed.

Section Chunks.

Variable idx : list nat.
Variable B : nat.
Hypothesis B_pos : 1 <= B.

Let n := length idx.
Let count := (n + B - 1) / B.
Let chunk (k : nat) : list nat :=
  firstn (Nat.min (k * B + B) n - k * B) (skipn (k * B) idx).

Lemma count_bounds : n <= count * B /\ (forall k, k < count -> k * B < n).
Proof.
  unfold count.
  pose proof (Nat.div_mod_eq (n + B - 1) B) as E.
  pose proof (Nat.mod_upper_bound (n + B - 1) B) as U.
  split; [nia|]. intros k Hk. nia.
Qed.

Lemma index_batches_nat :
  index_batches idx (Z.of_nat n) (Z.of_nat B) = Ok (map chunk (seq 0 count)).
Proof.
  unfold index_batches, py_range.
  destruct (Z.eqb_spec (Z.of_nat B) 0); [lia|].
  destruct (Z.ltb_spec 0 (Z.of_nat B)); [|lia].
  replace (Z.of_nat n - 0 + Z.of_nat B - 1)%Z with (Z.of_nat (n + B - 1)) by lia.
  rewrite <- Nat2Z.inj_div, Nat2Z.id. fold count. cbn [rbind]. f_equal.
  rewrite map_map. apply map_ext_in. intros k Hk. apply in_seq in Hk.
  destruct count_bounds as [_ Hlt]. specialize (Hlt k ltac:(lia)).
  replace (0 + Z.of_nat k * Z.of_nat B)%Z with (Z.of_nat (k * B)) by lia.
  replace (Z.min (Z.of_nat (k * B) + Z.of_nat B) (Z.of_nat n))
    with (Z.of_nat (Nat.min (k * B + B) n)) by lia.
  apply py_slice_nat. fold n. lia.
Qed.

Lemma concat_chunks (c : nat) :
  concat (map chunk (seq 0 c)) = firstn (c * B) idx.
Proof.
  induction c as [|c IH]; [reflexivity|].
  rewrite seq_S, map_app, concat_app, IH. simpl. rewrite app_nil_r.
  unfold chunk. destruct (Nat.le_gt_cases (c * B + B) n) as [Hle | Hgt].
  - rewrite Nat.min_l by lia.
    replace (c * B + B - c * B) with B by lia.
    replace (B + c * B) with (c * B + B) by lia. now rewrite firstn_plus.
  - rewrite <- firstn_plus.
    rewrite !firstn_all2; [reflexivity | fold n; lia | fold n; lia].
Qed.

Lemma chunk_length (k : nat) :
  k < count ->
  1 <= length (chunk k) <= B /\ (S k < count -> length (chunk k) = B).
Proof.
  intros Hk. destruct count_bounds as [_ Hlt].
  pose proof (Hlt k Hk) as Hk1. unfold chunk.
  rewrite length_firstn, length_skipn. fold n. split; [lia|].
  intros Hk2. specialize (Hlt (S k) Hk2). simpl in Hlt. lia.
Qed.

Lemma index_batches_chunks :
  exists chunks,
    index_batches idx (Z.of_nat n) (Z.of_nat B) = Ok chunks /\
    concat chunks = idx /\
    length chunks = count /\
    forall i c, nth_error chunks i = Some c ->
      1 <= length c <= B /\ (S i < length chunks -> length c = B).
Proof.
  exists (map chunk (seq 0 count)). split; [exact index_batches_nat|].
  split; [|split].
  - rewrite concat_chunks. apply firstn_all2. fold n.
    destruct count_bounds as [H _]. lia.
  - now rewrite length_map, length_seq.
  - intros i c Hc. rewrite length_map, length_seq.
    assert (Hi : i < count).
    { assert (H : i < length (map chunk (seq 0 count)))
        by (apply nth_error_Some; congruence).
      now rewrite length_map, length_seq in H. }
    rewrite nth_error_map, nth_error_seq in Hc.
    destruct (Nat.ltb_spec i count); [|lia]. injection Hc as <-.
    now apply chunk_length.
Qed.

End Chunks.

Lemma is_permutation_spec idx n :
  is_permutation idx n = true -> length idx = n /\ Permutation idx (seq 0 n).
Proof.
  unfold is_permutation. intros H. apply andb_prop in H as [Hlen Hall].
  apply Nat.eqb_eq in Hlen. split; [exact Hlen|].
  symmetry. apply NoDup_Permutation_bis.
  - apply seq_NoDup.
  - rewrite length_seq. lia.
  - intros i Hi. rewrite forallb_forall in Hall. specialize (Hall i Hi).
    apply existsb_exists in Hall as (j & Hj & E). apply Nat.eqb_eq in E. now subst.
Qed.

Lemma dataset_paths_valid part ver task_path gt_path :
  dataset_paths part ver = Ok (task_path, gt_path) ->
  (part = "train" \/ part = "test") /\ (ver = 0 \/ ver = 1 \/ ver = 2)%Z.
Proof.
  unfold dataset_paths.
  destruct (String.eqb_spec part "train") as [->|H1]; simpl.
  - destruct (Z.eqb_spec ver 0); [auto|].
    destruct (Z.eqb_spec ver 1); [auto|].
    destruct (Z.eqb_spec ver 2); [auto|discriminate].
  - destruct (String.eqb_spec part "test") as [->|H2]; simpl; [|discriminate].
    destruct (Z.eqb_spec ver 0); [auto|].
    destruct (Z.eqb_spec ver 1); [auto|].
    destruct (Z.eqb_spec ver 2); [auto|discriminate].
Qed.

Lemma Forall2_nth_error_r {A B : Type} (P : A -> B -> Prop) l l' i y :
  Forall2 P l l' -> nth_error l' i = Some y ->
  exists x, nth_error l i = Some x /\ P x y.
Proof.
  intros H. revert i. induction H as [|x0 y0 l l' HP _ IH]; intros i Hi.
  - destruct i; discriminate.
  - destruct i as [|i]; simpl in *; [injection Hi as <-; eauto | now apply IH].
Qed.

Lemma Forall2_Forall_r {A B : Type} (P : A -> B -> Prop) l l' :
  Forall2 P l l' -> Forall (fun y => exists x, P x y) l'.
Proof. induction 1; constructor; eauto. Qed.

(** What a run of the loader on a well-formed dataset yields. *)
Lemma data_load_spec part ver batch w task_path gt_path gt_list :
  dataset_paths part ver = Ok (task_path, gt_path) ->
  csv_file (root_path +++ gt_path) = Some gt_list ->
  forallb (row_ok task_path) gt_list = true ->
  (1 <= batch)%Z ->
  is_permutation (np_permutation (permutation_calls w) (length gt_list))
    (length gt_list) = true ->
  (forall k, np_randint k 9 < 9) ->
  exists chunks result w',
    sun360h_data_load part ver batch w = (Ok result, w') /\
    index_batches (np_permutation (permutation_calls w) (length gt_list))
      (Z.of_nat (length gt_list)) batch = Ok chunks /\
    Forall2 (batch_of_rows task_path gt_list) chunks result.
Proof.
  intros Hpaths Hcsv Hok Hb Hperm Hrand.
  set (idx := np_permutation (permutation_calls w) (length gt_list)) in *.
  destruct (is_permutation_spec _ _ Hperm) as [Hlen HP].
  destruct (index_batches_chunks idx (Z.to_nat batch) ltac:(lia))
    as (chunks & Hchunks & Hcat & _ & _).
  rewrite Z2Nat.id, Hlen in Hchunks by lia.
  set (w1 := mkWorld (model_weights w) (S (permutation_calls w))
               (randint_calls w) (trace w)).
  destruct (mapM_ok (load_batch task_path gt_list)
              (batch_of_rows task_path gt_list) chunks) with (w := w1)
    as (result & w' & Hres & HF).
  { intros c w0 Hc. apply load_batch_ok; [exact Hrand | exact Hok |].
    apply Forall_forall. intros j Hj.
    assert (Hin : In j idx) by (rewrite <- Hcat; apply in_concat; eauto).
    apply (Permutation_in _ HP), in_seq in Hin. lia. }
  exists chunks, result, w'. split; [|split; assumption].
  unfold sun360h_data_load, bind, lift, open_csv, permutation, ret.
  rewrite Hpaths. cbn [fst snd]. rewrite Hcsv. fold idx. rewrite Hchunks.
  exact Hres.
Qed.

(** C5: on a well-formed dataset of n rows and for every batch size b >= 1
    the indexer returns exactly ceil(n / b) batches; the batches are the
    triplets of the rows of consecutive slices of the permutation; every
    batch but possibly the last holds exactly b triplets, the last between
    1 and b; and the row indices of all batches, pooled, are every row
    index exactly once. *)
Theorem data_load_batches part ver batch w task_path gt_path gt_list :
  dataset_paths part ver = Ok (task_path, gt_path) ->
  csv_file (root_path +++ gt_path) = Some gt_list ->
  forallb (row_ok task_path) gt_list = true ->
  (1 <= batch)%Z ->
  is_permutation (np_permutation (permutation_calls w) (length gt_list))
    (length gt_list) = true ->
  (forall k, np_randint k 9 < 9) ->
  exists chunks result w',
    sun360h_data_load part ver batch w = (Ok result, w') /\
    Z.of_nat (length result)
      = ((Z.of_nat (length gt_list) + batch - 1) / batch)%Z /\
    (Z.of_nat (length gt_list) <= Z.of_nat (length result) * batch
       < Z.of_nat (length gt_list) + batch)%Z /\
    Forall2 (batch_of_rows task_path gt_list) chunks result /\
    Permutation (concat chunks) (seq 0 (length gt_list)) /\
    NoDup (concat chunks) /\
    (forall i a p n, nth_error result i = Some (a, p, n) ->
       length p = length a /\ length n = length a /\
       (1 <= Z.of_nat (length a) <= batch)%Z /\
       (S i < length result -> Z.of_nat (length a) = batch)).
Proof.
  intros Hpaths Hcsv Hok Hb Hperm Hrand.
  destruct (data_load_spec part ver batch w task_path gt_path gt_list
              Hpaths Hcsv Hok Hb Hperm Hrand)
    as (chunks & result & w' & Hrun & Hchunks & HF).
  set (idx := np_permutation (permutation_calls w) (length gt_list)) in *.
  destruct (is_permutation_spec _ _ Hperm) as [Hlen HP].
  destruct (index_batches_chunks idx (Z.to_nat batch) ltac:(lia))
    as (chunks' & Hchunks' & Hcat & Hcount & Hsizes).
  rewrite Z2Nat.id, Hlen in Hchunks' by lia.
  rewrite Hchunks in Hchunks'. injection Hchunks' as <-.
  rewrite Hlen in Hcount.
  assert (Hlr : length result = length chunks)
    by (symmetry; eapply Forall2_length; eauto).
  assert (Hceil : Z.of_nat (length result)
                  = ((Z.of_nat (length gt_list) + batch - 1) / batch)%Z).
  { rewrite Hlr, Hcount, Nat2Z.inj_div. f_equal; lia. }
  exists chunks, result, w'.
  split; [exact Hrun|]. split; [exact Hceil|]. split.
  { rewrite Hceil.
    pose proof (Z.div_mod (Z.of_nat (length gt_list) + batch - 1) batch ltac:(lia)).
    pose proof (Z.mod_pos_bound (Z.of_nat (length gt_list) + batch - 1) batch ltac:(lia)).
    nia. }
  split; [exact HF|]. split; [now rewrite Hcat|]. split.
  { rewrite Hcat. apply (Permutation_NoDup (Permutation_sym HP)), seq_NoDup. }
  intros i a p n Hi.
  destruct (Forall2_nth_error_r _ _ _ _ _ HF Hi) as (c & Hc & ts & Hts & Hb3).
  destruct (Hsizes i c Hc) as [Hrange Hfull].
  apply Forall2_length in Hts.
  unfold unzip3 in Hb3. injection Hb3 as -> -> ->.
  rewrite !length_map. split; [reflexivity|]. split; [reflexivity|].
  rewrite Hlr. unfold triplet in *.
  split; [lia|]. intros Hlt. specialize (Hfull Hlt). lia.
Qed.

(** *** Inverting a run of the world monad *)

Lemma bind_inv {A B : Type} (m : M A) (k : A -> M B) w b w' :
  bind m k w = (Ok b, w') ->
  exists a w1, m w = (Ok a, w1) /\ k a w1 = (Ok b, w').
Proof.
  unfold bind. destruct (m w) as [[a|e] w1]; [eauto | discriminate].
Qed.

Lemma lift_inv {A : Type} (r : result A) w a w' :
  lift r w = (Ok a, w') -> r = Ok a /\ w' = w.
Proof. unfold lift. now intros [= -> ->]. Qed.

(** [k] more draws of [randint], and nothing else changed. *)
Definition draws (k : nat) (w w' : world) : Prop :=
  w' = mkWorld (model_weights w) (permutation_calls w) (randint_calls w + k)
         (trace w).

Lemma draws_zero w : draws 0 w w.
Proof. unfold draws. rewrite Nat.add_0_r. now destruct w. Qed.

Lemma draws_trans a b w w1 w2 : draws a w w1 -> draws b w1 w2 -> draws (a + b) w w2.
Proof. unfold draws. intros -> ->. simpl. f_equal. lia. Qed.

Lemma mapM_inv {A B : Type} (f : A -> M B) (P : A -> B -> Prop) (cost : A -> nat)
  (l : list A) :
  (forall x w y w', In x l -> f x w = (Ok y, w') -> P x y /\ draws (cost x) w w') ->
  forall w ys w', mapM f l w = (Ok ys, w') ->
    Forall2 P l ys /\ draws (list_sum (map cost l)) w w'.
Proof.
  induction l as [|x l IH]; intros H w ys w' Hrun.
  - injection Hrun as <- <-. split; [constructor | apply draws_zero].
  - cbn [mapM] in Hrun.
    apply bind_inv in Hrun as (y & w1 & Hy & Hrun).
    apply bind_inv in Hrun as (ys' & w2 & Hys & Hrun).
    injection Hrun as <- <-.
    destruct (H x w y w1 (or_introl eq_refl) Hy) as [HP Hd].
    destruct (IH (fun x' w0 y' w0' Hx => H x' w0 y' w0' (or_intror Hx)) w1 ys' w2 Hys)
      as [HF Hd'].
    split; [now constructor|]. simpl. eapply draws_trans; eauto.
Qed.

Lemma py_index_nat_inv {A : Type} (l : list A) (j : nat) (x : A) :
  py_index l (Z.of_nat j) = Ok x -> nth_error l j = Some x.
Proof.
  intros H. apply py_index_nth_error in H; [|lia]. now rewrite Nat2Z.id in H.
Qed.

(** *** Negatives *)

Lemma distinct_names_NoDup l : distinct_names l = true -> NoDup l.
Proof.
  induction l as [|x l IH]; simpl; intros H; [constructor|].
  apply andb_prop in H as [Hx Hl]. constructor; [|now apply IH].
  intros Hin. apply negb_true_iff in Hx.
  assert (E : existsb (String.eqb x) l = true)
    by (apply existsb_exists; exists x; split; [exact Hin | apply String.eqb_refl]).
  congruence.
Qed.

Lemma append_inj_r (s a b : string) : s +++ a = s +++ b -> a = b.
Proof.
  induction s as [|c s IH]; simpl; intros H; [exact H|].
  injection H as H. now apply IH.
Qed.

Lemma row_triplet_indices task_path gt_list j pos neg t :
  row_triplet task_path gt_list j pos neg t ->
  neg <> pos /\ (0 <= neg < 10)%Z.
Proof.
  intros (sample_id & gt & rest & anchor & cands & p_name & n_name &
          _ & _ & _ & Hin & _).
  apply other_candidates_In in Hin as [Hrange Hne]. split; assumption.
Qed.

Lemma row_triplet_paths_differ task_path gt_list j pos neg a p n :
  forallb (row_ok task_path) gt_list = true ->
  forallb (row_distinct task_path) gt_list = true ->
  row_triplet task_path gt_list j pos neg (a, p, n) ->
  p <> n.
Proof.
  intros Hok Hdis
    (sample_id & gt & rest & anchor & cands & p_name & n_name &
     Hj & Hjson & Hint & Hin & Hp & Hn & Ht).
  injection Ht as -> -> ->.
  apply nth_error_In in Hj.
  rewrite forallb_forall in Hok, Hdis.
  specialize (Hok _ Hj). specialize (Hdis _ Hj).
  unfold row_ok in Hok. unfold row_distinct in Hdis.
  rewrite Hjson in Hok, Hdis. rewrite Hint in Hok.
  apply andb_prop in Hok as [Hok H3]. apply andb_prop in Hok as [H1 H2].
  apply Z.leb_le in H2.
  apply other_candidates_In in Hin as [Hneg Hne].
  apply py_index_nth_error in Hp; [|lia]. apply py_index_nth_error in Hn; [|lia].
  intros E. apply (append_inj_r root_path), (append_inj_r imgs_path) in E.
  subst n_name.
  apply distinct_names_NoDup in Hdis.
  assert (Hlt : Z.to_nat pos < length cands)
    by (apply nth_error_Some; congruence).
  pose proof (proj1 (NoDup_nth_error cands) Hdis (Z.to_nat pos) (Z.to_nat neg) Hlt)
    as Hinj.
  rewrite Hp, Hn in Hinj. specialize (Hinj eq_refl). lia.
Qed.

Lemma Forall2_map_neq {A B : Type} (f g : A -> B) (l : list A) :
  Forall (fun t => f t <> g t) l -> Forall2 (fun x y => x <> y) (map f l) (map g l).
Proof. induction 1; simpl; constructor; auto. Qed.

Lemma other_candidates_draw pos k :
  (0 <= pos < 10)%Z ->
  ((0 <= k < 10)%Z /\ k <> pos <->
   exists r, r < 9 /\ py_index (other_candidates pos) (Z.of_nat r) = Ok k).
Proof.
  intros Hpos. rewrite <- other_candidates_In. split.
  - intros Hin. apply In_nth_error in Hin as (r & Hr). exists r. split.
    + rewrite <- (other_candidates_length pos Hpos).
      apply nth_error_Some. congruence.
    + now apply py_index_nat.
  - intros (r & _ & Hr). eapply py_index_In; eauto.
Qed.

(** The rows of a chunk, and of a list of chunks, with the draws that
    picked their negatives: the rows are processed in order, one draw
    each. *)
Lemma load_row_drawn task_path gt_list j w t w' :
  load_row task_path gt_list j w = (Ok t, w') ->
  draws 1 w w' /\
  exists cands pos neg,
    row_drawn task_path gt_list j (randint_calls w) cands pos neg t.
Proof.
  unfold load_row. intros H.
  apply bind_inv in H as (row & w1 & H1 & H). apply lift_inv in H1 as [Hrow ->].
  apply bind_inv in H as (sample_id & w1 & H1 & H). apply lift_inv in H1 as [Hsid ->].
  apply bind_inv in H as ([anchor cands] & w1 & H1 & H).
  unfold open_json in H1.
  destruct (json_file _) as [names|] eqn:Hjson; [|discriminate].
  injection H1 as -> <-.
  apply bind_inv in H as (gt & w1 & H1 & H). apply lift_inv in H1 as [Hgt ->].
  apply bind_inv in H as (pos & w1 & H1 & H). apply lift_inv in H1 as [Hint ->].
  apply bind_inv in H as (p_name & w1 & H1 & H). apply lift_inv in H1 as [Hp ->].
  apply bind_inv in H as (r & w1 & H1 & H). injection H1 as <- <-.
  apply bind_inv in H as (neg & w2 & H1 & H). apply lift_inv in H1 as [Hneg ->].
  apply bind_inv in H as (n_name & w2 & H1 & H). apply lift_inv in H1 as [Hn ->].
  injection H as <- <-.
  apply py_index_nat_inv in Hrow.
  change 0%Z with (Z.of_nat 0) in Hsid. apply py_index_nat_inv in Hsid.
  change 1%Z with (Z.of_nat 1) in Hgt. apply py_index_nat_inv in Hgt.
  destruct row as [|s0 [|g0 rest]]; try discriminate.
  injection Hsid as ->. injection Hgt as ->.
  cbn [fst snd] in *. split.
  - unfold draws. cbn. f_equal. lia.
  - exists cands, pos, neg, sample_id, gt, rest, anchor, p_name, n_name.
    repeat split; assumption.
Qed.

Lemma load_rows_drawn task_path gt_list chunk :
  forall w ts w',
    mapM (load_row task_path gt_list) chunk w = (Ok ts, w') ->
    draws (length chunk) w w' /\ length ts = length chunk /\
    forall i j t,
      nth_error chunk i = Some j -> nth_error ts i = Some t ->
      exists cands pos neg,
        row_drawn task_path gt_list j (randint_calls w + i) cands pos neg t.
Proof.
  induction chunk as [|j0 chunk IH]; intros w ts w' H.
  - injection H as <- <-. split; [apply draws_zero|]. split; [reflexivity|].
    intros [|i] j t Hj; discriminate.
  - cbn [mapM] in H.
    apply bind_inv in H as (t0 & w1 & H0 & H).
    apply bind_inv in H as (ts' & w2 & Hts & H). injection H as <- <-.
    apply load_row_drawn in H0 as [Hd0 Hrow].
    destruct (IH _ _ _ Hts) as (Hd & Hlen & Hrows).
    split; [exact (draws_trans 1 (length chunk) _ _ _ Hd0 Hd)|].
    split; [simpl; now rewrite Hlen|].
    intros [|i] j t Hj Ht; cbn [nth_error] in Hj, Ht.
    + injection Hj as <-. injection Ht as <-. now rewrite Nat.add_0_r.
    + destruct (Hrows i j t Hj Ht) as (cands & pos & neg & Hr).
      exists cands, pos, neg. unfold draws in Hd0. subst w1.
      cbn [randint_calls] in Hr.
      replace (randint_calls w + S i) with (randint_calls w + 1 + i) by lia.
      exact Hr.
Qed.

Lemma load_batches_drawn task_path gt_list chunks :
  forall w result w',
    mapM (load_batch task_path gt_list) chunks w = (Ok result, w') ->
    exists tss,
      result = map unzip3 tss /\
      Forall2 (fun chunk ts => length ts = length chunk) chunks tss /\
      draws (length (concat chunks)) w w' /\
      forall i j t,
        nth_error (concat chunks) i = Some j ->
        nth_error (concat tss) i = Some t ->
        exists cands pos neg,
          row_drawn task_path gt_list j (randint_calls w + i) cands pos neg t.
Proof.
  induction chunks as [|c chunks IH]; intros w result w' H.
  - injection H as <- <-. exists []. split; [reflexivity|].
    split; [constructor|]. split; [apply draws_zero|].
    intros [|i] j t Hj; discriminate.
  - cbn [mapM] in H.
    apply bind_inv in H as (b & w1 & Hb & H).
    apply bind_inv in H as (bs & w2 & Hbs & H). injection H as <- <-.
    unfold load_batch in Hb.
    apply bind_inv in Hb as (ts & w1' & Hts & Hb). injection Hb as <- <-.
    apply load_rows_drawn in Hts as (Hd0 & Hlen & Hrows).
    destruct (IH _ _ _ Hbs) as (tss & -> & HF & Hd & Hrest).
    exists (ts :: tss). split; [reflexivity|].
    split; [now constructor|]. cbn [concat]. rewrite length_app.
    split; [exact (draws_trans _ _ _ _ _ Hd0 Hd)|].
    intros i j t Hj Ht.
    destruct (Nat.lt_ge_cases i (length c)) as [Hi | Hi].
    + rewrite nth_error_app1 in Hj by exact Hi.
      rewrite nth_error_app1 in Ht by (unfold triplet in *; lia).
      eauto.
    + rewrite nth_error_app2 in Hj by exact Hi.
      rewrite nth_error_app2 in Ht by (unfold triplet in *; lia).
      replace (length ts) with (length c) in Ht by (unfold triplet in *; lia).
      destruct (Hrest _ j t Hj Ht) as (cands & pos & neg & Hr).
      exists cands, pos, neg. unfold draws in Hd0. subst w1'.
      cbn [randint_calls] in Hr.
      replace (randint_calls w + i) with (randint_calls w + length c + (i - length c))
        by lia.
      exact Hr.
Qed.

(** The index drawn is never the positive index; the names differ when the
    positive index counts from the front and the file repeats no name. *)
Lemma row_drawn_differs task_path gt_list j k cands pos neg a p n :
  row_drawn task_path gt_list j k cands pos neg (a, p, n) ->
  neg <> pos /\ (0 <= neg < 10)%Z /\
  ((0 <= pos)%Z -> distinct_names cands = true -> p <> n).
Proof.
  intros (sample_id & gt & rest & anchor & p_name & n_name &
          Hj & Hjson & Hint & Hp & Hneg & Hn & Ht).
  injection Ht as -> -> ->.
  apply py_index_In, other_candidates_In in Hneg as [Hrange Hne].
  split; [exact Hne|]. split; [exact Hrange|].
  intros Hpos Hdis E.
  apply (append_inj_r root_path), (append_inj_r imgs_path) in E. subst n_name.
  apply py_index_nth_error in Hp; [|lia]. apply py_index_nth_error in Hn; [|lia].
  apply distinct_names_NoDup in Hdis.
  assert (Hlt : Z.to_nat pos < length cands)
    by (apply nth_error_Some; congruence).
  pose proof (proj1 (NoDup_nth_error cands) Hdis (Z.to_nat pos) (Z.to_nat neg) Hlt)
    as Hinj.
  rewrite Hp, Hn in Hinj. specialize (Hinj eq_refl). lia.
Qed.

(** The nine values of the draw and the nine indices other than [pos]
    correspond one to one. *)
Lemma other_candidates_bijection pos :
  (0 <= pos < 10)%Z ->
  (forall r, r < 9 ->
     exists k, py_index (other_candidates pos) (Z.of_nat r) = Ok k /\
               (0 <= k < 10)%Z /\ k <> pos) /\
  (forall k, (0 <= k < 10)%Z -> k <> pos ->
     exists r, r < 9 /\ py_index (other_candidates pos) (Z.of_nat r) = Ok k /\
       forall r', r' < 9 ->
         py_index (other_candidates pos) (Z.of_nat r') = Ok k -> r' = r).
Proof.
  intros Hpos. pose proof (other_candidates_length pos Hpos) as Hlen. split.
  - intros r Hr.
    destruct (py_index_in_range (other_candidates pos) (Z.of_nat r)) as (k & Hk);
      [lia|].
    exists k. split; [exact Hk|].
    apply py_index_In, other_candidates_In in Hk. exact Hk.
  - intros k Hk Hne.
    destruct (proj1 (other_candidates_draw pos k Hpos) (conj Hk Hne))
      as (r & Hr & Hidx).
    exists r. split; [exact Hr|]. split; [exact Hidx|].
    intros r' Hr' Hidx'.
    apply py_index_nat_inv in Hidx, Hidx'.
    apply (proj1 (NoDup_nth_error (other_candidates pos))
             (other_candidates_NoDup pos)); [lia | congruence].
Qed.

(** C6 (amended): in every completed load and for every row of every batch,
    the negative is the candidate at the index that the row's own draw of
    [randint(9)] selects in the list of the indices of 0..9 other than the
    row's positive index: that index is in 0..9 and is not the positive
    index.  When the positive index is one of 0..9 the nine values of the
    draw and the nine other indices correspond one to one, so a uniform
    draw picks uniformly among the nine non-positive candidates.  The
    negative path differs from the positive path at the same position
    when the positive index is non-negative and the row's task file lists
    pairwise different names; on a well-formed dataset the load completes
    and this holds for every row of every batch. *)
Theorem negative_differs_from_positive part ver batch w :
  (forall result w',
     sun360h_data_load part ver batch w = (Ok result, w') ->
     exists task_path gt_path gt_list chunks tss,
       dataset_paths part ver = Ok (task_path, gt_path) /\
       csv_file (root_path +++ gt_path) = Some gt_list /\
       index_batches (np_permutation (permutation_calls w) (length gt_list))
         (Z.of_nat (length gt_list)) batch = Ok chunks /\
       result = map unzip3 tss /\
       Forall2 (fun chunk ts => length ts = length chunk) chunks tss /\
       forall i j a p n,
         nth_error (concat chunks) i = Some j ->
         nth_error (concat tss) i = Some (a, p, n) ->
         exists cands pos neg,
           row_drawn task_path gt_list j (randint_calls w + i) cands pos neg
             (a, p, n) /\
           neg <> pos /\ (0 <= neg < 10)%Z /\
           ((0 <= pos)%Z -> distinct_names cands = true -> p <> n)) /\
  (forall pos, (0 <= pos < 10)%Z ->
     (forall r, r < 9 ->
        exists k, py_index (other_candidates pos) (Z.of_nat r) = Ok k /\
                  (0 <= k < 10)%Z /\ k <> pos) /\
     (forall k, (0 <= k < 10)%Z -> k <> pos ->
        exists r, r < 9 /\ py_index (other_candidates pos) (Z.of_nat r) = Ok k /\
          forall r', r' < 9 ->
            py_index (other_candidates pos) (Z.of_nat r') = Ok k -> r' = r)) /\
  (forall task_path gt_path gt_list,
     dataset_paths part ver = Ok (task_path, gt_path) ->
     csv_file (root_path +++ gt_path) = Some gt_list ->
     forallb (row_ok task_path) gt_list = true ->
     (1 <= batch)%Z ->
     is_permutation (np_permutation (permutation_calls w) (length gt_list))
       (length gt_list) = true ->
     (forall k, np_randint k 9 < 9) ->
     exists result w',
       sun360h_data_load part ver batch w = (Ok result, w') /\
       (forallb (row_distinct task_path) gt_list = true ->
        forall a p n, In (a, p, n) result -> Forall2 (fun x y => x <> y) p n)).
Proof.
  split; [|split].
  - intros result w' H. unfold sun360h_data_load in H.
    apply bind_inv in H as ([task_path gt_path] & w1 & H1 & H).
    apply lift_inv in H1 as [Hpaths ->]. cbn [fst snd] in H.
    apply bind_inv in H as (gt_list & w1 & H1 & H).
    unfold open_csv in H1.
    destruct (csv_file _) as [tb|] eqn:Hcsv; [|discriminate]. injection H1 as -> <-.
    apply bind_inv in H as (idx & w1 & H1 & H). injection H1 as <- <-.
    apply bind_inv in H as (chunks & w2 & H1 & H). apply lift_inv in H1 as [Hchunks ->].
    apply load_batches_drawn in H as (tss & Hres & HF & _ & Hrows).
    exists task_path, gt_path, gt_list, chunks, tss.
    split; [exact Hpaths|]. split; [exact Hcsv|]. split; [exact Hchunks|].
    split; [exact Hres|]. split; [exact HF|].
    intros i j a p n Hj Ht.
    destruct (Hrows i j _ Hj Ht) as (cands & pos & neg & Hr).
    cbn [randint_calls] in Hr.
    exists cands, pos, neg. split; [exact Hr|].
    eapply row_drawn_differs; exact Hr.
  - apply other_candidates_bijection.
  - intros task_path gt_path gt_list Hpaths Hcsv Hok Hb Hperm Hrand.
    destruct (data_load_spec part ver batch w task_path gt_path gt_list
                Hpaths Hcsv Hok Hb Hperm Hrand)
      as (chunks & result & w' & Hrun & _ & HF).
    exists result, w'. split; [exact Hrun|].
    intros Hdis a p n Hin.
    apply In_nth_error in Hin as (i & Hi).
    destruct (Forall2_nth_error_r _ _ _ _ _ HF Hi) as (c & _ & ts & Hts & Hb3).
    unfold unzip3 in Hb3. injection Hb3 as -> -> ->.
    apply Forall2_map_neq.
    apply Forall2_Forall_r in Hts.
    eapply Forall_impl; [|exact Hts].
    intros [[a0 p0] n0] (j & pos & neg & Ht). simpl.
    eapply row_triplet_paths_differ; eauto.
Qed.

(** ** The manager *)

Lemma quiet_ret {A : Type} (a : A) : quiet (ret a).
Proof. intros w. split; reflexivity. Qed.

Lemma quiet_raise {A : Type} (e : exn) : quiet (@raise A e).
Proof. intros w. split; reflexivity. Qed.

Lemma quiet_lift {A : Type} (r : result A) : quiet (lift r).
Proof. intros w. split; reflexivity. Qed.

Lemma quiet_bind {A B : Type} (m : M A) (k : A -> M B) :
  quiet m -> (forall a, quiet (k a)) -> quiet (bind m k).
Proof.
  intros Hm Hk w. unfold bind. specialize (Hm w).
  destruct (m w) as [[a|e] w1]; simpl in *; [|exact Hm].
  destruct (Hk a w1) as [H1 H2]. destruct Hm as [H3 H4]. split; congruence.
Qed.

Lemma quiet_mapM {A B : Type} (f : A -> M B) (l : list A) :
  (forall x, quiet (f x)) -> quiet (mapM f l).
Proof.
  intros Hf. induction l as [|x l IH]; simpl; [apply quiet_ret|].
  apply quiet_bind; [apply Hf|]. intros y.
  apply quiet_bind; [exact IH|]. intros ys. apply quiet_ret.
Qed.

Lemma quiet_permutation n : quiet (permutation n).
Proof. intros w. split; reflexivity. Qed.

Lemma quiet_randint n : quiet (randint n).
Proof. intros w. split; reflexivity. Qed.

Lemma quiet_open_csv path : quiet (open_csv path).
Proof.
  unfold open_csv. destruct (csv_file path); [apply quiet_ret | apply quiet_raise].
Qed.

Lemma quiet_open_json path : quiet (open_json path).
Proof.
  unfold open_json. destruct (json_file path); [apply quiet_ret | apply quiet_raise].
Qed.

Create HintDb quiet.
#[local] Hint Resolve quiet_ret quiet_raise quiet_lift quiet_permutation
  quiet_randint quiet_open_csv quiet_open_json : quiet.

Ltac quiet_steps :=
  repeat (first [ apply quiet_bind; [auto with quiet|]; intros ?
                | solve [auto with quiet] ]).

Lemma quiet_load_row task_path gt_list j : quiet (load_row task_path gt_list j).
Proof. unfold load_row. quiet_steps. Qed.

Lemma quiet_data_load part ver batch : quiet (sun360h_data_load part ver batch).
Proof.
  unfold sun360h_data_load. quiet_steps.
  apply quiet_mapM. intros chunk. unfold load_batch.
  apply quiet_bind; [|intros ts; apply quiet_ret].
  apply quiet_mapM. intros j. apply quiet_load_row.
Qed.

Lemma quiet_data_loader self train : quiet (_data_loader self train).
Proof. unfold _data_loader. destruct train; apply quiet_data_load. Qed.

(** *** Training *)

Definition batch_events : list event := [ZeroGrad; Backward; SolverStep].

Lemma train_batch_trace self abn w :
  exists evs,
    trace (snd (train_batch self abn w)) = trace w ++ evs /\
    Forall (fun e => is_loss_report e = false) evs /\
    (forall l w', train_batch self abn w = (Ok l, w') -> evs = batch_events).
Proof.
  unfold train_batch, bind, lift, get_solver, emit, net_forward, get_weights,
    set_weights, ret, raise.
  destruct (_image_loader abn) as [[[A P] N]|e]; cbn.
  2: { exists []. rewrite app_nil_r. repeat split; [constructor | discriminate]. }
  destruct (_solver self) as [solver|]; cbn.
  2: { exists []. rewrite app_nil_r. repeat split; [constructor | discriminate]. }
  destruct (forward (model_weights w) (_net self) A) as [fa|e]; cbn.
  2: { exists [ZeroGrad]. repeat split; [repeat constructor | discriminate]. }
  destruct (forward (model_weights w) (_net self) P) as [fp|e]; cbn.
  2: { exists [ZeroGrad]. repeat split; [repeat constructor | discriminate]. }
  destruct (forward (model_weights w) (_net self) N) as [fn|e]; cbn.
  2: { exists [ZeroGrad]. repeat split; [repeat constructor | discriminate]. }
  exists batch_events. rewrite <- !app_assoc. repeat split; repeat constructor.
Qed.

Lemma train_batches_trace self batches epoch_loss iter_num w :
  exists evs,
    trace (snd (train_batches self batches epoch_loss iter_num w))
      = trace w ++ evs /\
    Forall (fun e => is_loss_report e = false) evs /\
    (forall losses it w',
       train_batches self batches epoch_loss iter_num w = (Ok (losses, it), w') ->
       evs = concat (map (fun _ => batch_events) batches) /\
       it = (iter_num + Z.of_nat (length batches))%Z /\
       length losses = length epoch_loss + length batches).
Proof.
  revert epoch_loss iter_num w.
  induction batches as [|abn rest IH]; intros epoch_loss iter_num w.
  - exists []. simpl. rewrite app_nil_r. split; [reflexivity|].
    split; [constructor|]. intros losses it w' [= <- <- <-].
    repeat split; lia.
  - destruct (train_batch_trace self abn w) as (ev1 & Ht1 & Hf1 & Hs1).
    cbn [train_batches].
    destruct (train_batch self abn w) as [[loss|e] w1] eqn:E1; cbn [snd] in *;
      [rewrite (bind_ok _ _ _ _ _ E1) | rewrite (bind_raise _ _ _ _ _ E1)].
    + destruct (IH (epoch_loss ++ [loss]) (iter_num + 1)%Z w1)
        as (ev2 & Ht2 & Hf2 & Hs2).
      exists (ev1 ++ ev2). rewrite Ht2, Ht1, app_assoc.
      split; [reflexivity|]. split; [now apply Forall_app|].
      intros losses it w' Hrun. specialize (Hs2 _ _ _ Hrun) as (-> & -> & Hl).
      rewrite (Hs1 loss w1 eq_refl). rewrite length_app in Hl. simpl in *.
      repeat split; lia.
    + exists ev1. split; [exact Ht1|]. split; [exact Hf1|]. discriminate.
Qed.

Lemma py_index_last {A : Type} (l : list A) (d : A) :
  l <> [] -> py_index l (-1) = Ok (last l d).
Proof.
  intros Hne. destruct (exists_last Hne) as (l' & x & ->).
  rewrite last_last. unfold py_index. rewrite length_app. simpl.
  destruct (Z.ltb_spec (Z.of_nat (length l' + 1) + -1) 0); [lia|].
  destruct (Z.leb_spec (Z.of_nat (length l' + 1))
              (Z.of_nat (length l' + 1) + -1)); [lia|].
  simpl. replace (Z.to_nat (Z.of_nat (length l' + 1) + -1)) with (length l') by lia.
  now rewrite nth_error_app2, Nat.sub_diag by lia.
Qed.

(** The events of one epoch: those of its batches, none of which is a loss
    report, followed by at most one report. *)
Lemma train_epoch_trace self w :
  exists evs tail,
    trace (snd (train_epoch self w)) = trace w ++ evs ++ tail /\
    Forall (fun e => is_loss_report e = false) evs /\
    (tail = [] \/ exists l, tail = [PrintLoss l]) /\
    (forall batches w1 losses it w2,
       _data_loader self true w = (Ok batches, w1) ->
       train_batches self batches [] 0%Z w1 = (Ok (losses, it), w2) ->
       evs = concat (map (fun _ => batch_events) batches) /\
       tail = if (Z.of_nat (length batches) mod 50 =? 0)%Z
              then match batches with
                   | [] => []
                   | _ => [PrintLoss (last losses 0%Q)]
                   end
              else []).
Proof.
  unfold train_epoch.
  destruct (quiet_data_loader self true w) as [Hq _].
  destruct (_data_loader self true w) as [[batches|e] w1] eqn:E0; cbn [snd] in Hq.
  2: { rewrite (bind_raise _ _ _ _ _ E0). exists [], []. simpl.
       rewrite app_nil_r. split; [congruence|]. split; [constructor|].
       split; [now left | discriminate]. }
  rewrite (bind_ok _ _ _ _ _ E0).
  destruct (train_batches_trace self batches [] 0%Z w1) as (evs & Ht & Hf & Hs).
  destruct (train_batches self batches [] 0%Z w1) as [[[losses it]|e] w2] eqn:E1;
    cbn [snd] in Ht.
  2: { rewrite (bind_raise _ _ _ _ _ E1). exists evs, []. simpl.
       rewrite app_nil_r. split; [congruence|]. split; [exact Hf|].
       split; [now left|]. intros ? ? ? ? ? [= <- <-] H. congruence. }
  rewrite (bind_ok _ _ _ _ _ E1).
  destruct (Hs losses it w2 eq_refl) as (Hevs & Hit & Hlen). simpl in Hit, Hlen.
  subst it.
  destruct (Z.of_nat (length batches) mod 50 =? 0)%Z eqn:E50.
  - destruct batches as [|b bs].
    + destruct losses; [|discriminate]. exists evs, []. cbn.
      rewrite app_nil_r. split; [congruence|]. split; [exact Hf|].
      split; [now left|]. intros ? ? ? ? ? [= <- <-] H. now split.
    + assert (Hne : losses <> []) by (intros ->; discriminate).
      exists evs, [PrintLoss (last losses 0%Q)].
      unfold bind, lift. rewrite (py_index_last losses 0%Q Hne). cbn.
      split; [rewrite Hq in Ht; rewrite Ht; now rewrite <- app_assoc|].
      split; [exact Hf|]. split; [right; eauto|].
      intros ? ? ? ? ? [= <- <-] H. rewrite E1 in H. injection H as <- _ _.
      rewrite E50. now split.
  - exists evs, []. cbn. rewrite app_nil_r.
    split; [congruence|]. split; [exact Hf|]. split; [now left|].
    intros ? ? ? ? ? [= <- <-] H. rewrite E50. now split.
Qed.

(** C9 (what the code does): within an epoch no loss is reported between
    batches.  The events of an epoch are those of its batches, none of
    which is a loss report, followed by at most one report; when the
    batches all succeed, that single report is printed after the last batch
    and only if the number of batches is a multiple of 50.  An epoch of 100
    successful batches thus consists of the 100 batches' events followed by
    one report: nothing is reported after batch 50. *)
Theorem loss_reported_after_the_batch_loop self w :
  (exists evs tail,
     trace (snd (train_epoch self w)) = trace w ++ evs ++ tail /\
     Forall (fun e => is_loss_report e = false) evs /\
     (tail = [] \/ exists l, tail = [PrintLoss l]) /\
     (forall batches w1 losses it w2,
        _data_loader self true w = (Ok batches, w1) ->
        train_batches self batches [] 0%Z w1 = (Ok (losses, it), w2) ->
        evs = concat (map (fun _ => batch_events) batches) /\
        tail = if (Z.of_nat (length batches) mod 50 =? 0)%Z
               then match batches with
                    | [] => []
                    | _ => [PrintLoss (last losses 0%Q)]
                    end
               else [])) /\
  (forall batches w1 losses it w2,
     _data_loader self true w = (Ok batches, w1) ->
     train_batches self batches [] 0%Z w1 = (Ok (losses, it), w2) ->
     length batches = 100 ->
     trace (snd (train_epoch self w))
     = trace w ++ concat (map (fun _ => batch_events) batches)
         ++ [PrintLoss (last losses 0%Q)]).
Proof.
  destruct (train_epoch_trace self w) as (evs & tail & Ht & Hf & Htail & Hok).
  split; [exists evs, tail; auto|].
  intros batches w1 losses it w2 Hload Hrun Hlen.
  destruct (Hok batches w1 losses it w2 Hload Hrun) as (-> & ->).
  rewrite Ht, Hlen. destruct batches; [discriminate | reflexivity].
Qed.



(** *** Evaluation *)

(** The exception the body of the batch loop of [test] ends with, under
    weights [w]: that of the image loader, else that of the first forward
    pass, else the refusal to convert its output. *)
Definition test_batch_error (self : BilinearAlexManager) (w : weights)
  (abn : batch_paths) : exn :=
  match _image_loader abn with
  | Raise e => e
  | Ok (A, _, _) =>
      match forward w (_net self) A with
      | Raise e => e
      | Ok _ => cuda_to_numpy
      end
  end.

Lemma test_batch_eq self abn c t w :
  test_batch self abn c t w
  = (Raise (test_batch_error self (model_weights w) abn), w).
Proof.
  unfold test_batch, test_batch_error, bind, lift, net_forward, get_weights.
  destruct (_image_loader abn) as [[[A P] N]|e]; cbn; [|reflexivity].
  destruct (forward (model_weights w) (_net self) A); cbn; reflexivity.
Qed.

Lemma test_batches_eq self abn rest c t w :
  test_batches self (abn :: rest) c t w
  = (Raise (test_batch_error self (model_weights w) abn), w).
Proof. cbn [test_batches]. unfold bind. now rewrite test_batch_eq. Qed.

(** Every run of [test], step by step. *)
Lemma test_eq self w :
  test self w
  = match _data_loader self false (snd (emit (PrintStr "Testing.") w)) with
    | (Ok [], w1) => (Raise ZeroDivisionError, w1)
    | (Ok (abn :: _), w1) =>
        (Raise (test_batch_error self (model_weights w1) abn), w1)
    | (Raise e, w1) => (Raise e, w1)
    end.
Proof.
  unfold test. unfold bind at 1. cbn [emit snd]. unfold bind at 1.
  destruct (_data_loader self false _) as [[[|abn rest]|e] w1]; [| |reflexivity].
  - reflexivity.
  - unfold bind at 1. now rewrite test_batches_eq.
Qed.

Lemma test_raises self w :
  exists e w',
    test self w = (Raise e, w') /\
    trace w' = trace w ++ [PrintStr "Testing."] /\
    model_weights w' = model_weights w.
Proof.
  rewrite test_eq.
  destruct (quiet_data_loader self false (snd (emit (PrintStr "Testing.") w)))
    as [Hq1 Hq2].
  destruct (_data_loader self false _) as [[[|abn rest]|e] w1];
    cbn [snd] in Hq1, Hq2; eexists; eexists; (split; [reflexivity|]);
    split; assumption.
Qed.

Lemma triplet_correct_iff margin a p n :
  triplet_correct margin a p n = true
  <-> (sqdist a p - sqdist a n + margin <= 0)%Q.
Proof. unfold triplet_correct. apply Qle_bool_iff. Qed.

Lemma count_correct_cons margin a p n fa fp fn :
  count_correct margin (a :: fa) (p :: fp) (n :: fn)
  = ((if triplet_correct margin a p n then 1 else 0)
     + count_correct margin fa fp fn)%Z.
Proof.
  unfold count_correct. cbn [zip3 filter fst snd].
  destruct (triplet_correct margin a p n); cbn [length]; lia.
Qed.

(** C7: the margin of every manager is 1, and line 124 counts a triplet
    of embedding rows (a, p, n) exactly when
    |a-p|^2 - |a-n|^2 + margin <= 0, one unit per such row: with margin 1,
    distances 0.1 and 2.0 count as correct and distances 2.0 and 0.1 as
    incorrect; line 126 divides the count by the number of samples.  But
    no run of [test] gets as far as counting: the network was moved to the
    GPU at line 68, and line 121 converts its output with
    [.detach().numpy()], which PyTorch refuses for a CUDA tensor.  Every
    run of [test] raises, having printed the banner and no accuracy; when
    the loader delivers a first batch whose images can be read and whose
    anchor goes through the network, the exception is that [TypeError]. *)
Theorem test_raises_before_scoring :
  (forall freeze param_path w mgr,
     fst (Manager_init freeze param_path w) = Ok mgr -> _margin mgr = 1%Q) /\
  (forall margin a p n,
     triplet_correct margin a p n = true
     <-> (sqdist a p - sqdist a n + margin <= 0)%Q) /\
  (forall margin,
     count_correct margin [] [] [] = 0%Z /\
     forall a p n fa fp fn,
       count_correct margin (a :: fa) (p :: fp) (n :: fn)
       = ((if triplet_correct margin a p n then 1 else 0)
          + count_correct margin fa fp fn)%Z) /\
  (forall a p n,
     (sqdist a p == 1 # 10)%Q -> (sqdist a n == 2)%Q ->
     triplet_correct 1 a p n = true) /\
  (forall a p n,
     (sqdist a p == 2)%Q -> (sqdist a n == 1 # 10)%Q ->
     triplet_correct 1 a p n = false) /\
  (forall c t, (0 < t)%Z ->
     exists acc, true_divide c t = Ok acc /\
                 (acc == inject_Z c / inject_Z t)%Q) /\
  (forall self w, exists e w',
     test self w = (Raise e, w') /\
     trace w' = trace w ++ [PrintStr "Testing."] /\
     (forall b rest w1 A P N Y,
        _data_loader self false (snd (emit (PrintStr "Testing.") w))
          = (Ok (b :: rest), w1) ->
        _image_loader b = Ok (A, P, N) ->
        forward (model_weights w) (_net self) A = Ok Y ->
        e = cuda_to_numpy)).
Proof.
  split; [|split; [|split; [|split; [|split; [|split]]]]].
  - intros freeze pp w mgr H.
    apply Manager_init_inv in H as (net & _ & _ & Hm & _). exact Hm.
  - apply triplet_correct_iff.
  - intros margin. split; [reflexivity | apply count_correct_cons].
  - intros a p n Hp Hn. apply triplet_correct_iff. rewrite Hp, Hn. discriminate.
  - intros a p n Hp Hn. apply not_true_is_false. rewrite triplet_correct_iff.
    rewrite Hp, Hn. intros H. apply H. reflexivity.
  - intros c t Ht. destruct t as [|d|d]; try lia.
    exists (c # d)%Q. split; [reflexivity | apply Qmake_Qdiv].
  - intros self w.
    destruct (test_raises self w) as (e & w' & Hrun & Ht & _).
    exists e, w'. split; [exact Hrun|]. split; [exact Ht|].
    intros b rest w1 A P N Y Hload HI HY.
    rewrite test_eq, Hload in Hrun. injection Hrun as <- _.
    destruct (quiet_data_loader self false (snd (emit (PrintStr "Testing.") w)))
      as [_ Hq].
    rewrite Hload in Hq. cbn [snd emit model_weights] in Hq.
    unfold test_batch_error. now rewrite HI, Hq, HY.
Qed.

(** * Further properties *)

(** ** The forward pass on arbitrary inputs *)

Lemma py_index_head {A : Type} (x : A) (l : list A) : py_index (x :: l) 0 = Ok x.
Proof. change 0%Z with (Z.of_nat 0). now apply py_index_nat. Qed.

(** X1: [forward] checks its input before any layer runs: a tensor without
    dimensions raises [IndexError] (at [X.size()[0]]), and a tensor whose
    size is not (N, 3, 227, 227), N being its first dimension, raises
    [AssertionError], whatever the layers and the weights are. *)
Theorem forward_rejects_other_shapes (w : weights) (self : BilinearAlex)
  (X : tensor) :
  (shape X = [] -> forward w self X = Raise IndexError) /\
  (forall N rest, shape X = N :: rest -> rest <> [3; 227; 227]%Z ->
     forward w self X = Raise AssertionError).
Proof.
  split.
  - intros H. unfold forward. rewrite H. reflexivity.
  - intros N rest H Hrest. unfold forward. rewrite H, py_index_head. cbn [rbind].
    unfold assert_size. rewrite H.
    destruct (shape_eqb (N :: rest) [N; 3; 227; 227]%Z) eqn:E; [|reflexivity].
    apply shape_eqb_eq in E. injection E as E. contradiction.
Qed.

Lemma init_ok_cases freeze net :
  BilinearAlex_init freeze = Ok net ->
  BilinearAlex_init None = Ok net \/
  BilinearAlex_init (Some "part") = Ok net \/
  BilinearAlex_init (Some "all") = Ok net.
Proof.
  destruct freeze as [s|]; [|auto].
  destruct (String.eqb_spec s "") as [->|H0]; [auto|].
  destruct (String.eqb_spec s "part") as [->|H1]; [auto|].
  destruct (String.eqb_spec s "all") as [->|H2]; [auto|].
  rewrite unrecognized_freeze_raises by assumption. discriminate.
Qed.

Lemma init_kinds freeze net :
  BilinearAlex_init freeze = Ok net ->
  map kind (features net) = alexnet_features /\
  map kind (bfc net) = but_last alexnet_classifier ++ [Linear 4096 512] /\
  kind (fc net) = Linear 262144 512.
Proof.
  intros H. apply init_ok_cases in H as [H | [H | H]];
    vm_compute in H; injection H as <-; repeat split; reflexivity.
Qed.

(** On a network with AlexNet's layers, a batch of N >= 1 images goes
    through. *)
Lemma forward_ok_of_kinds (w : weights) (self : BilinearAlex) (N : Z) (X : tensor) :
  map kind (features self) = alexnet_features ->
  map kind (bfc self) = but_last alexnet_classifier ++ [Linear 4096 512] ->
  kind (fc self) = Linear 262144 512 ->
  (1 <= N)%Z -> shape X = [N; 3; 227; 227]%Z ->
  exists Y, forward w self X = Ok Y /\ shape Y = [N; 512]%Z.
Proof.
  intros Hkf Hkb Hkc HN HX.
  destruct (apply_sequential_shape w (features self) X [N; 256; 6; 6]%Z)
    as (F & HF & HsF); [rewrite Hkf, HX; reflexivity|].
  assert (HV : view F [N; 256 * 6 * 6]%Z = Ok (mkTensor [N; 9216]%Z (data F))).
  { apply view_exact; [repeat constructor; lia|].
    rewrite HsF. unfold numel. simpl. lia. }
  destruct (apply_sequential_shape w (bfc self) (mkTensor [N; 9216]%Z (data F))
              [N; 512]%Z) as (B & HB & HsB); [rewrite Hkb; reflexivity|].
  destruct (bilinear_pool_shape N B HN HsB) as (P & HP & HsP).
  assert (HY : exists Y, apply_layer w (fc self) P = Ok Y /\ shape Y = [N; 512]%Z).
  { unfold apply_layer. rewrite Hkc, HsP. simpl. eexists. split; reflexivity. }
  destruct HY as (Y & HY & HsY). exists Y. split; [|exact HsY].
  unfold forward. rewrite HX, py_index_head. cbn [rbind].
  rewrite (assert_size_ok X _ HX). cbn [rbind].
  rewrite HF. cbn [rbind]. rewrite HV. cbn [rbind]. rewrite HB. cbn [rbind].
  rewrite (assert_size_ok B _ HsB). cbn [rbind]. rewrite HP. cbn [rbind].
  rewrite HY. cbn [rbind]. rewrite (assert_size_ok Y _ HsY). reflexivity.
Qed.

(** X2: on every network the constructor returns (whatever the accepted
    freeze argument), [forward] returns a result exactly for the inputs of
    size (N, 3, 227, 227) with N >= 1, and the result then has size
    (N, 512): an empty batch never gets through. *)
Theorem forward_returns_iff_nonempty_batch (w : weights)
  (freeze : option string) (net : BilinearAlex) (X : tensor) :
  BilinearAlex_init freeze = Ok net ->
  ((exists Y, forward w net X = Ok Y) <->
   (exists N, (1 <= N)%Z /\ shape X = [N; 3; 227; 227]%Z)) /\
  (forall Y, forward w net X = Ok Y ->
     exists N, (1 <= N)%Z /\ shape X = [N; 3; 227; 227]%Z /\
               shape Y = [N; 512]%Z).
Proof.
  intros Hinit.
  assert (Hinv : forall Y, forward w net X = Ok Y ->
            exists N, (1 <= N)%Z /\ shape X = [N; 3; 227; 227]%Z /\
                      shape Y = [N; 512]%Z).
  { intros Y H.
    apply forward_inv in H
      as (N & F & V & B & P & _ & HX & _ & _ & _ & _ & HP & _ & HY).
    exists N. split; [|split; assumption].
    unfold bilinear_pool, self_outer_product in HP.
    apply rbind_inv in HP as (O & HO & _).
    apply rbind_inv in HO as (V1 & HV1 & _).
    eapply view_insert_axis_inv; eauto. }
  split; [|exact Hinv]. split.
  - intros (Y & HY). destruct (Hinv Y HY) as (N & HN & HX & _). eauto.
  - intros (N & HN & HX).
    destruct (init_kinds freeze net Hinit) as (Hkf & Hkb & Hkc).
    destruct (forward_ok_of_kinds w net N X Hkf Hkb Hkc HN HX) as (Y & HY & _).
    eauto.
Qed.

(** ** Freezing, again *)

Lemma but_last_last_slice {A : Type} (l : list A) : but_last l ++ last_slice l = l.
Proof. apply firstn_skipn. Qed.

Lemma but_last_map {A B : Type} (f : A -> B) (l : list A) :
  but_last (map f l) = map f (but_last l).
Proof. unfold but_last. now rewrite length_map, firstn_map. Qed.

Lemma last_slice_map {A B : Type} (f : A -> B) (l : list A) :
  last_slice (map f l) = map f (last_slice l).
Proof. unfold last_slice. now rewrite length_map, skipn_map. Qed.

Lemma but_last_snoc {A : Type} (l : list A) (x : A) : but_last (l ++ [x]) = l.
Proof.
  unfold but_last. rewrite length_app. simpl.
  replace (length l + 1 - 1) with (length l + 0) by lia.
  rewrite firstn_app_2. simpl. apply app_nil_r.
Qed.

Lemma last_slice_snoc {A : Type} (l : list A) (x : A) : last_slice (l ++ [x]) = [x].
Proof.
  unfold last_slice. rewrite length_app. simpl.
  replace (length l + 1 - 1) with (length l) by lia.
  now rewrite skipn_app, skipn_all, Nat.sub_diag.
Qed.

Lemma last_slice_cases {A : Type} (l : list A) :
  l = [] \/ exists x, last_slice l = [x].
Proof.
  destruct l as [|a l]; [now left | right].
  destruct (exists_last (l := a :: l)) as (l' & x & E); [discriminate|].
  rewrite E. exists x. apply last_slice_snoc.
Qed.

(** Replacing all but the last element and putting the last one back. *)
Lemma rebuild_but_last {A : Type} (f : A -> A) (l : list A) :
  but_last (map f (but_last l) ++ last_slice l) = map f (but_last l) /\
  last_slice (map f (but_last l) ++ last_slice l) = last_slice l.
Proof.
  destruct (last_slice_cases l) as [-> | (x & E)]; [split; reflexivity|].
  rewrite E. split; [apply but_last_snoc | apply last_slice_snoc].
Qed.

Lemma freeze_layer_idem l : freeze_layer (freeze_layer l) = freeze_layer l.
Proof. unfold freeze_layer. simpl. now rewrite map_map. Qed.

Lemma freeze_layers_idem ls :
  map freeze_layer (map freeze_layer ls) = map freeze_layer ls.
Proof. rewrite map_map. apply map_ext. apply freeze_layer_idem. Qed.

(** A parameter after freezing: same name, role, shape and initial value,
    and no gradient that was not there before. *)
Definition frozen_from (p q : param) : Prop :=
  pname q = pname p /\ prole q = prole p /\ pshape q = pshape p /\
  pinit q = pinit p /\ (requires_grad q = true -> requires_grad p = true).

Lemma frozen_from_refl ps : Forall2 frozen_from ps ps.
Proof. induction ps; constructor; [repeat split; auto | assumption]. Qed.

Lemma frozen_from_freeze ps : Forall2 frozen_from ps (map freeze_param ps).
Proof.
  induction ps; simpl; constructor; [|assumption].
  repeat split; auto. simpl. discriminate.
Qed.

Lemma frozen_from_layers ls :
  Forall2 frozen_from (layers_parameters ls)
    (layers_parameters (map freeze_layer ls)).
Proof.
  induction ls as [|l ls IH]; simpl; [constructor|].
  apply Forall2_app; [apply frozen_from_freeze | exact IH].
Qed.

Lemma layers_parameters_app l1 l2 :
  layers_parameters (l1 ++ l2) = layers_parameters l1 ++ layers_parameters l2.
Proof. unfold layers_parameters. apply flat_map_app. Qed.

(** X3: whatever network [_freeze] is applied to, it only switches
    gradients off.  The layers keep their kinds, and the parameters, in the
    same order, keep their names, roles, shapes and initialisation; none
    has gradients enabled afterwards that had them disabled before. *)
Theorem freeze_only_disables_gradients (self net : BilinearAlex) (option : string) :
  _freeze self option = Ok net ->
  map kind (features net) = map kind (features self) /\
  map kind (bfc net) = map kind (bfc self) /\
  kind (fc net) = kind (fc self) /\
  Forall2 frozen_from (parameters self) (parameters net).
Proof.
  unfold _freeze.
  destruct (String.eqb option "part").
  - intros [= <-]. cbn [features bfc fc]. split; [|split; [|split]].
    + rewrite map_map. reflexivity.
    + rewrite map_app, map_map. cbn [freeze_layer kind].
      rewrite <- map_app, but_last_last_slice. reflexivity.
    + reflexivity.
    + unfold parameters. cbn [features bfc fc].
      apply Forall2_app; [apply frozen_from_layers|].
      apply Forall2_app; [|apply frozen_from_refl].
      rewrite <- (but_last_last_slice (bfc self)) at 1.
      rewrite !layers_parameters_app.
      apply Forall2_app; [apply frozen_from_layers | apply frozen_from_refl].
  - destruct (String.eqb option "all"); [|discriminate].
    intros [= <-]. cbn [features bfc fc]. split; [|split; [|split]].
    + rewrite map_map. reflexivity.
    + rewrite map_map. reflexivity.
    + reflexivity.
    + unfold parameters. cbn [features bfc fc].
      apply Forall2_app; [apply frozen_from_layers|].
      apply Forall2_app; [apply frozen_from_layers | apply frozen_from_freeze].
Qed.

Definition freeze_then (option1 option2 : string) (self : BilinearAlex)
  : result BilinearAlex :=
  (net <- _freeze self option1 ;; _freeze net option2)%result.

(** X4: freezing is idempotent, and [all] absorbs [part] in either order:
    on every network, applying [_freeze] twice with the same option gives
    what one application gives, and [part] followed by [all], or [all]
    followed by [part], gives what [all] alone gives. *)
Theorem freeze_idempotent_and_absorbing (self : BilinearAlex) :
  freeze_then "part" "part" self = _freeze self "part" /\
  freeze_then "all" "all" self = _freeze self "all" /\
  freeze_then "part" "all" self = _freeze self "all" /\
  freeze_then "all" "part" self = _freeze self "all".
Proof.
  unfold freeze_then, _freeze. cbn [String.eqb Ascii.eqb Bool.eqb rbind].
  cbn [features bfc fc].
  repeat split; f_equal.
  - rewrite freeze_layers_idem. f_equal.
    destruct (rebuild_but_last freeze_layer (bfc self)) as [-> ->].
    now rewrite freeze_layers_idem.
  - now rewrite !freeze_layers_idem, freeze_layer_idem.
  - rewrite freeze_layers_idem. f_equal.
    rewrite map_app, freeze_layers_idem, <- map_app, but_last_last_slice.
    reflexivity.
  - rewrite freeze_layers_idem. f_equal.
    rewrite but_last_map, last_slice_map, freeze_layers_idem, <- map_app,
      but_last_last_slice. reflexivity.
Qed.

(** ** Construction *)

Definition head_init (p : param) : init_policy :=
  match prole p with
  | Weight => KaimingNormal
  | Bias => ConstantInit 0
  end.

(** The network of lines 12-16, before freezing and initialisation. *)
Definition fresh_network : BilinearAlex :=
  mkNet (Sequential "features" alexnet_features Pretrained)
        (Sequential "bfc" (but_last alexnet_classifier ++ [Linear 4096 512%Z])
           DefaultInit)
        (new_layer "fc" (Linear (512 ^ 2) 512)%Z DefaultInit).

Lemma init_layers_flags ls :
  map requires_grad (layers_parameters (map init_layer ls))
  = map requires_grad (layers_parameters ls).
Proof.
  induction ls as [|l ls IH]; simpl; [reflexivity|].
  now rewrite !map_app, IH, map_map.
Qed.

(** X5: in every network the constructor returns, frozen or not, the
    feature extractor keeps the pretrained values, the sub-head layers
    before the last keep the library's default initialisation, and the last
    sub-head layer and the final projection have Kaiming-normal weights and
    zero biases; the initialisation, which runs after the freezing, leaves
    every gradient flag as the freezing set it. *)
Theorem constructor_initialisation (freeze : option string) (net : BilinearAlex) :
  BilinearAlex_init freeze = Ok net ->
  (forall p, In p (layers_parameters (features net)) -> pinit p = Pretrained) /\
  (forall p, In p (layers_parameters (but_last (bfc net))) ->
     pinit p = DefaultInit) /\
  (forall p, In p (layers_parameters (last_slice (bfc net)) ++ lparams (fc net)) ->
     pinit p = head_init p) /\
  map pname (layers_parameters (last_slice (bfc net)) ++ lparams (fc net))
    = ["bfc.6.weight"; "bfc.6.bias"; "fc.weight"; "fc.bias"] /\
  (forall s self, freeze = Some s -> s <> "" ->
     _freeze fresh_network s = Ok self ->
     map requires_grad (parameters net) = map requires_grad (parameters self)).
Proof.
  intros H.
  assert (Hflags : forall s self, freeze = Some s -> s <> "" ->
     _freeze fresh_network s = Ok self ->
     map requires_grad (parameters net) = map requires_grad (parameters self)).
  { intros s self -> Hs Hfr. unfold fresh_network in Hfr.
    unfold BilinearAlex_init, truthy in H.
    apply String.eqb_neq in Hs. rewrite Hs in H. cbn [negb] in H.
    rewrite Hfr in H. cbn [rbind] in H.
    destruct (last_slice (bfc self)) eqn:E; [discriminate|].
    injection H as <-. unfold parameters. cbn [features bfc fc].
    rewrite <- (but_last_last_slice (bfc self)) at 2. rewrite E.
    change (init_layer l :: map init_layer l0) with (map init_layer (l :: l0)).
    rewrite !layers_parameters_app, !map_app, init_layers_flags.
    f_equal. f_equal. simpl. now rewrite map_map. }
  apply init_ok_cases in H as [H | [H | H]];
    vm_compute in H; injection H as E; rewrite <- E in *; clear E.
  all: split; [intros p Hp; vm_compute in Hp;
                 repeat destruct Hp as [<- | Hp]; auto; contradiction|].
  all: split; [intros p Hp; vm_compute in Hp;
                 repeat destruct Hp as [<- | Hp]; auto; contradiction|].
  all: split; [intros p Hp; vm_compute in Hp;
                 repeat destruct Hp as [<- | Hp]; auto; contradiction|].
  all: split; [reflexivity | exact Hflags].
Qed.

(** X6: the checkpoint argument of the manager.  A non-empty path that
    cannot be loaded makes the construction fail with [IOError] on that
    path, after the network was built and printed; a path that can be
    loaded installs the checkpoint's weights and reports it; no path, or
    the empty path, leaves the weights alone. *)
Theorem manager_checkpoint (freeze : option string) (net : BilinearAlex)
  (w : world) :
  BilinearAlex_init freeze = Ok net ->
  (forall PATH, PATH <> "" -> load_checkpoint PATH = None ->
     Manager_init freeze (Some PATH) w
     = (Raise (IOError PATH),
        mkWorld (model_weights w) (permutation_calls w) (randint_calls w)
          (trace w ++ [PrintNet net]))) /\
  (forall PATH v, PATH <> "" -> load_checkpoint PATH = Some v ->
     exists mgr,
       Manager_init freeze (Some PATH) w
       = (Ok mgr,
          mkWorld v (permutation_calls w) (randint_calls w)
            (trace w ++ [PrintNet net;
                         PrintStr ("Model parameters loaded: " +++ PATH)])) /\
       _net mgr = net) /\
  (forall param_path, param_path = None \/ param_path = Some "" ->
     exists mgr,
       Manager_init freeze param_path w
       = (Ok mgr,
          mkWorld (model_weights w) (permutation_calls w) (randint_calls w)
            (trace w ++ [PrintNet net])) /\
       _net mgr = net).
Proof.
  intros Hinit. split; [|split].
  - intros PATH Hne Hload. apply String.eqb_neq in Hne.
    unfold Manager_init, bind, lift, emit, _load, raise.
    rewrite Hinit, Hne, Hload. reflexivity.
  - intros PATH v Hne Hload. apply String.eqb_neq in Hne.
    unfold Manager_init, bind, lift, emit, _load, set_weights, ret.
    rewrite Hinit, Hne, Hload. cbn.
    destruct (match freeze with Some f => negb (String.eqb f "all") | None => true end);
      eexists; rewrite <- app_assoc; split; reflexivity.
  - intros param_path Hp.
    unfold Manager_init, bind, lift, emit, ret. rewrite Hinit.
    destruct Hp as [-> | ->]; cbn;
      destruct (match freeze with Some f => negb (String.eqb f "all") | None => true end);
      eexists; split; reflexivity.
Qed.

(** ** The dataset indexer at its edges *)

Lemma py_range_negative_step n step :
  (step < 0)%Z -> py_range 0 (Z.of_nat n) step = Ok [].
Proof.
  intros Hs. unfold py_range.
  destruct (Z.eqb_spec step 0); [lia|].
  destruct (Z.ltb_spec 0 step); [lia|].
  assert (Hq : ((0 - Z.of_nat n - step - 1) / - step < 1)%Z)
    by (apply Z.div_lt_upper_bound; lia).
  replace (Z.to_nat ((0 - Z.of_nat n - step - 1) / - step)) with 0 by lia.
  reflexivity.
Qed.

(** X7: the batch size is not validated.  On a readable table, a batch
    size of 0 makes the loader fail with the [ValueError] of [range], and a
    negative batch size makes it return no batch at all, silently; in both
    cases the table was read and the permutation drawn, but no task file is
    opened and no negative drawn. *)
Theorem data_load_degenerate_batch part ver batch w task_path gt_path gt_list :
  dataset_paths part ver = Ok (task_path, gt_path) ->
  csv_file (root_path +++ gt_path) = Some gt_list ->
  let w1 := mkWorld (model_weights w) (S (permutation_calls w))
              (randint_calls w) (trace w) in
  (batch = 0%Z ->
     sun360h_data_load part ver batch w
     = (Raise (ValueError "range() arg 3 must not be zero"), w1)) /\
  ((batch < 0)%Z -> sun360h_data_load part ver batch w = (Ok [], w1)).
Proof.
  intros Hpaths Hcsv w1. split.
  - intros ->. unfold sun360h_data_load, bind, lift, open_csv, permutation, ret.
    rewrite Hpaths. cbn [fst snd]. rewrite Hcsv. reflexivity.
  - intros Hneg. unfold sun360h_data_load, bind, lift, open_csv, permutation, ret.
    rewrite Hpaths. cbn [fst snd]. rewrite Hcsv.
    unfold index_batches. rewrite (py_range_negative_step _ _ Hneg). reflexivity.
Qed.

(** X8: a positive index written as a negative number is accepted and is
    not excluded from the draw.  For a row whose task file has ten
    candidates and whose positive index is pos in -10..-2, Python's
    indexing designates candidate 10 + pos, the exclusion list still holds
    all ten indices, and the draw 10 + pos makes the loader emit the
    positive path as the negative path. *)
Theorem negative_index_not_excluded task_path gt_list j w sample_id gt rest
  anchor cands pos :
  nth_error gt_list j = Some (sample_id :: gt :: rest) ->
  json_file (root_path +++ task_path +++ sample_id +++ ".json")
    = Some (anchor, cands) ->
  py_int gt = Ok pos -> length cands = 10 -> (-10 <= pos <= -2)%Z ->
  Z.of_nat (np_randint (randint_calls w) 9) = (10 + pos)%Z ->
  other_candidates pos = map Z.of_nat (seq 0 10) /\
  exists p,
    py_index cands (10 + pos) = Ok p /\
    fst (load_row task_path gt_list j w)
    = Ok (root_path +++ imgs_path +++ anchor,
          root_path +++ imgs_path +++ p, root_path +++ imgs_path +++ p).
Proof.
  intros Hj Hjson Hint Hlen Hpos Hdraw.
  assert (Hall : other_candidates pos = map Z.of_nat (seq 0 10)).
  { unfold other_candidates. apply filter_all. intros k Hk.
    apply in_map_iff in Hk as (i & <- & Hi). apply in_seq in Hi.
    apply negb_true_iff, Z.eqb_neq. lia. }
  split; [exact Hall|].
  destruct (py_index_in_range cands (10 + pos)) as (p & Hp); [lia|].
  exists p. split; [exact Hp|].
  assert (Hp' : py_index cands pos = Ok p).
  { unfold py_index in *. rewrite Hlen in *.
    destruct (Z.ltb_spec pos 0); [|lia].
    destruct (Z.ltb_spec (10 + pos) 0); [lia|].
    change (Z.of_nat 10) with 10%Z in *. exact Hp. }
  assert (Hneg : py_index (other_candidates pos) (10 + pos) = Ok (10 + pos)%Z).
  { rewrite Hall. rewrite <- (Z2Nat.id (10 + pos)) at 1 by lia.
    apply py_index_nat. rewrite nth_error_map, nth_error_seq.
    destruct (Nat.ltb_spec (Z.to_nat (10 + pos)) 10); [|lia].
    cbn [option_map]. f_equal. lia. }
  unfold load_row, bind, lift, open_json, randint, ret.
  rewrite (py_index_nat _ _ _ Hj), py_index_head, Hjson.
  change 1%Z with (Z.of_nat 1).
  rewrite (py_index_nat (sample_id :: gt :: rest) 1 gt eq_refl).
  rewrite Hint. cbn [snd fst]. rewrite Hp', Hdraw, Hneg, Hp. reflexivity.
Qed.

(** X9: [dataset_paths] accepts exactly the six configurations, and no two
    of them share a ground-truth table or a task directory. *)
Theorem dataset_paths_distinct part ver part' ver' :
  ((exists paths, dataset_paths part ver = Ok paths) <->
   (part = "train" \/ part = "test") /\ (ver = 0 \/ ver = 1 \/ ver = 2)%Z) /\
  (forall paths paths',
     dataset_paths part ver = Ok paths ->
     dataset_paths part' ver' = Ok paths' ->
     (fst paths = fst paths' \/ snd paths = snd paths') ->
     part = part' /\ ver = ver').
Proof.
  split.
  - split.
    + intros ([t g] & H). eapply dataset_paths_valid; eauto.
    + intros [[-> | ->] [-> | [-> | ->]]]; eexists; reflexivity.
  - intros [t g] [t' g'] H H'.
    destruct (dataset_paths_valid _ _ _ _ H) as [Hp Hv].
    destruct (dataset_paths_valid _ _ _ _ H') as [Hp' Hv'].
    destruct Hp as [-> | ->], Hv as [-> | [-> | ->]],
             Hp' as [-> | ->], Hv' as [-> | [-> | ->]];
      vm_compute in H, H'; injection H as <- <-; injection H' as <- <-;
      cbn [fst snd]; intros [E | E]; try discriminate E; split; reflexivity.
Qed.

(** ** What a completed load went through *)

(** Row [j] could be loaded: it has two fields, its task file is readable,
    its second field is an integer and designates a candidate. *)
Definition row_loaded (task_path : string) (gt_list : list (list string))
  (j : nat) : Prop :=
  exists sample_id gt rest anchor cands pos p_name,
    nth_error gt_list j = Some (sample_id :: gt :: rest) /\
    json_file (root_path +++ task_path +++ sample_id +++ ".json")
      = Some (anchor, cands) /\
    py_int gt = Ok pos /\ py_index cands pos = Ok p_name.

Lemma load_row_inv task_path gt_list j w t w' :
  load_row task_path gt_list j w = (Ok t, w') ->
  row_loaded task_path gt_list j /\ draws 1 w w'.
Proof.
  unfold load_row. intros H.
  apply bind_inv in H as (row & w1 & H1 & H). apply lift_inv in H1 as [Hrow ->].
  apply bind_inv in H as (sample_id & w1 & H1 & H). apply lift_inv in H1 as [Hsid ->].
  apply bind_inv in H as ([anchor cands] & w1 & H1 & H).
  unfold open_json in H1.
  destruct (json_file _) as [names|] eqn:Hjson; [|discriminate].
  injection H1 as -> <-.
  apply bind_inv in H as (gt & w1 & H1 & H). apply lift_inv in H1 as [Hgt ->].
  apply bind_inv in H as (pos & w1 & H1 & H). apply lift_inv in H1 as [Hint ->].
  apply bind_inv in H as (p_name & w1 & H1 & H). apply lift_inv in H1 as [Hp ->].
  apply bind_inv in H as (r & w1 & H1 & H). injection H1 as _ <-.
  apply bind_inv in H as (neg & w2 & H1 & H). apply lift_inv in H1 as [_ ->].
  apply bind_inv in H as (n_name & w2 & H1 & H). apply lift_inv in H1 as [_ ->].
  injection H as _ <-.
  apply py_index_nat_inv in Hrow.
  change 0%Z with (Z.of_nat 0) in Hsid. apply py_index_nat_inv in Hsid.
  change 1%Z with (Z.of_nat 1) in Hgt. apply py_index_nat_inv in Hgt.
  destruct row as [|s0 [|g0 rest]]; try discriminate.
  injection Hsid as ->. injection Hgt as ->.
  split.
  - exists sample_id, gt, rest, anchor, cands, pos, p_name. cbn [snd] in Hp. auto.
  - unfold draws. cbn. f_equal. lia.
Qed.

Lemma load_batch_inv task_path gt_list chunk w b w' :
  load_batch task_path gt_list chunk w = (Ok b, w') ->
  Forall (row_loaded task_path gt_list) chunk /\
  length (fst (fst b)) = length chunk /\
  draws (length chunk) w w'.
Proof.
  unfold load_batch. intros H.
  apply bind_inv in H as (ts & w1 & H1 & H). injection H as <- <-.
  destruct (mapM_inv (load_row task_path gt_list)
              (fun j _ => row_loaded task_path gt_list j) (fun _ => 1) chunk)
    with (w := w) (ys := ts) (w' := w1) as [HF Hd]; [|exact H1|].
  { intros j w0 t w0' _ Hrun. now apply load_row_inv in Hrun. }
  split; [|split].
  - clear - HF. induction HF; constructor; auto.
  - unfold unzip3. cbn [fst]. rewrite length_map. symmetry.
    eapply Forall2_length; eauto.
  - replace (length chunk) with (list_sum (map (fun _ : nat => 1) chunk)); [exact Hd|].
    clear. induction chunk; simpl; auto.
Qed.

Lemma data_load_inv part ver batch w result w' :
  sun360h_data_load part ver batch w = (Ok result, w') ->
  exists task_path gt_path gt_list chunks,
    dataset_paths part ver = Ok (task_path, gt_path) /\
    csv_file (root_path +++ gt_path) = Some gt_list /\
    index_batches (np_permutation (permutation_calls w) (length gt_list))
      (Z.of_nat (length gt_list)) batch = Ok chunks /\
    Forall (row_loaded task_path gt_list) (concat chunks) /\
    list_sum (map (fun b => length (fst (fst b))) result) = length (concat chunks) /\
    w' = mkWorld (model_weights w) (S (permutation_calls w))
           (randint_calls w + length (concat chunks)) (trace w).
Proof.
  unfold sun360h_data_load. intros H.
  apply bind_inv in H as ([task_path gt_path] & w1 & H1 & H).
  apply lift_inv in H1 as [Hpaths ->]. cbn [fst snd] in H.
  apply bind_inv in H as (gt_list & w1 & H1 & H).
  unfold open_csv in H1.
  destruct (csv_file _) as [t|] eqn:Hcsv; [|discriminate]. injection H1 as -> <-.
  apply bind_inv in H as (idx & w1 & H1 & H). injection H1 as <- <-.
  apply bind_inv in H as (chunks & w2 & H1 & H). apply lift_inv in H1 as [Hchunks ->].
  exists task_path, gt_path, gt_list, chunks.
  split; [exact Hpaths|]. split; [exact Hcsv|]. split; [exact Hchunks|].
  destruct (mapM_inv (load_batch task_path gt_list)
              (fun chunk b => Forall (row_loaded task_path gt_list) chunk /\
                              length (fst (fst b)) = length chunk)
              (@length nat) chunks)
    with (w := mkWorld (model_weights w) (S (permutation_calls w))
                 (randint_calls w) (trace w)) (ys := result) (w' := w')
    as [HF Hd]; [|exact H|].
  { intros c w0 b w0' _ Hrun. apply load_batch_inv in Hrun as (Ha & Hb & Hc).
    auto. }
  assert (Hsum : list_sum (map (@length nat) chunks) = length (concat chunks)).
  { clear. induction chunks; simpl; [reflexivity|]. now rewrite length_app, IHchunks. }
  split; [|split].
  - clear - HF. induction HF as [|c b cs bs [Hc _] _ IH]; simpl; [constructor|].
    apply Forall_app. split; assumption.
  - rewrite <- Hsum. clear - HF.
    induction HF as [|c b cs bs [_ Hb] _ IH]; simpl; [reflexivity|].
    now rewrite Hb, IH.
  - rewrite <- Hsum. exact Hd.
Qed.

(** X10: the loader has no partial result.  A table that cannot be read
    raises [IOError] on its path before any random number is drawn; and
    when the loader returns, with a positive batch size and a permutation
    that obeys NumPy's contract, every row of the table was loaded: it has
    two fields, a readable task file and an integer positive index that
    designates one of the file's candidates. *)
Theorem data_load_all_or_nothing part ver batch w :
  (forall task_path gt_path,
     dataset_paths part ver = Ok (task_path, gt_path) ->
     csv_file (root_path +++ gt_path) = None ->
     sun360h_data_load part ver batch w = (Raise (IOError (root_path +++ gt_path)), w)) /\
  (forall result w',
     sun360h_data_load part ver batch w = (Ok result, w') ->
     exists task_path gt_path gt_list,
       dataset_paths part ver = Ok (task_path, gt_path) /\
       csv_file (root_path +++ gt_path) = Some gt_list /\
       batch <> 0%Z /\
       ((0 < batch)%Z ->
        is_permutation (np_permutation (permutation_calls w) (length gt_list))
          (length gt_list) = true ->
        forall j, j < length gt_list -> row_loaded task_path gt_list j)).
Proof.
  split.
  - intros task_path gt_path Hpaths Hcsv.
    unfold sun360h_data_load, bind, lift, open_csv, raise.
    rewrite Hpaths. cbn [fst snd]. rewrite Hcsv. reflexivity.
  - intros result w' Hrun.
    apply data_load_inv in Hrun
      as (task_path & gt_path & gt_list & chunks & Hpaths & Hcsv & Hchunks & Hrows & _).
    exists task_path, gt_path, gt_list.
    split; [exact Hpaths|]. split; [exact Hcsv|]. split.
    + intros ->. unfold index_batches, py_range in Hchunks. discriminate.
    + intros Hb Hperm j Hj.
      destruct (is_permutation_spec _ _ Hperm) as [Hlen HP].
      destruct (index_batches_chunks
                  (np_permutation (permutation_calls w) (length gt_list))
                  (Z.to_nat batch) ltac:(lia)) as (chunks' & Hc' & Hcat & _).
      rewrite Z2Nat.id, Hlen in Hc' by lia. rewrite Hchunks in Hc'.
      injection Hc' as <-. rewrite Hcat in Hrows.
      rewrite Forall_forall in Hrows. apply Hrows.
      apply (Permutation_in _ (Permutation_sym HP)), in_seq. lia.
Qed.

(** X11: a completed load, with a positive batch size and a permutation of
    the right length, has called [np.random.permutation] once and
    [np.random.randint] once per row of the table, has emitted as many
    triplets as the table has rows, and has neither printed anything nor
    touched the weights. *)
Theorem data_load_random_draws part ver batch w result w' :
  sun360h_data_load part ver batch w = (Ok result, w') ->
  (0 < batch)%Z ->
  exists gt_path gt_list,
    (exists task_path, dataset_paths part ver = Ok (task_path, gt_path)) /\
    csv_file (root_path +++ gt_path) = Some gt_list /\
    (length (np_permutation (permutation_calls w) (length gt_list))
       = length gt_list ->
     list_sum (map (fun b => length (fst (fst b))) result) = length gt_list /\
     w' = mkWorld (model_weights w) (S (permutation_calls w))
            (randint_calls w + length gt_list) (trace w)).
Proof.
  intros Hrun Hb.
  apply data_load_inv in Hrun
    as (task_path & gt_path & gt_list & chunks & Hpaths & Hcsv & Hchunks & _ & Hsum & Hw).
  exists gt_path, gt_list. split; [eauto|]. split; [exact Hcsv|].
  intros Hlen.
  destruct (index_batches_chunks
              (np_permutation (permutation_calls w) (length gt_list))
              (Z.to_nat batch) ltac:(lia)) as (chunks' & Hc' & Hcat & _).
  rewrite Z2Nat.id, Hlen in Hc' by lia. rewrite Hchunks in Hc'.
  injection Hc' as <-.
  rewrite Hcat, Hlen in Hsum, Hw. split; assumption.
Qed.

(** ** The manager's loader *)


Lemma data_load_empty_table part ver batch w task_path gt_path :
  dataset_paths part ver = Ok (task_path, gt_path) ->
  csv_file (root_path +++ gt_path) = Some [] ->
  batch <> 0%Z ->
  sun360h_data_load part ver batch w
  = (Ok [], mkWorld (model_weights w) (S (permutation_calls w))
              (randint_calls w) (trace w)).
Proof.
  intros Hpaths Hcsv Hb.
  unfold sun360h_data_load, bind, lift, open_csv, permutation, ret.
  rewrite Hpaths. cbn [fst snd]. rewrite Hcsv. cbn [length].
  assert (Hr : py_range 0 (Z.of_nat 0) batch = Ok []).
  { destruct (Z_lt_dec batch 0) as [Hn|Hn];
      [now apply py_range_negative_step|].
    unfold py_range. destruct (Z.eqb_spec batch 0); [contradiction|].
    destruct (Z.ltb_spec 0 batch); [|lia].
    replace ((Z.of_nat 0 - 0 + batch - 1) / batch)%Z with 0%Z; [reflexivity|].
    symmetry. apply Z.div_small. lia. }
  unfold index_batches. rewrite Hr. reflexivity.
Qed.

(** X13: training on an empty table fails.  Whatever the freeze mode, if
    the training table has no row, [train] raises [IndexError] (at
    [epoch_loss[-1]], since 0 batches is a multiple of 50) in the first
    epoch: nothing is printed after the banner, the weights are unchanged
    and no checkpoint is written. *)
Theorem train_on_empty_table self w :
  csv_file (root_path +++ "gt_train.csv") = Some [] ->
  _batch self <> 0%Z -> _epoch self <> 0 ->
  exists w',
    train self w = (Raise IndexError, w') /\
    trace w' = trace w ++ [PrintStr "Training."] /\
    model_weights w' = model_weights w.
Proof.
  intros Hcsv Hb He. destruct (_epoch self) as [|k] eqn:Ek; [contradiction|].
  eexists. split.
  - unfold train. rewrite Ek. cbn [repeatM].
    unfold bind at 1. cbn [emit]. unfold bind at 1. unfold bind at 1.
    unfold train_epoch. unfold bind at 1. unfold _data_loader.
    rewrite (data_load_empty_table "train" 0 (_batch self) _ "task_train/"
               "gt_train.csv" eq_refl Hcsv Hb).
    reflexivity.
  - split; reflexivity.
Qed.

(** X14: evaluating on an empty table fails.  If the test table has no
    row, [test] raises [ZeroDivisionError] when it divides by the number of
    samples, and prints no accuracy. *)
Theorem test_on_empty_table self w :
  csv_file (root_path +++ "gt_test.csv") = Some [] ->
  _batch self <> 0%Z ->
  exists w',
    test self w = (Raise ZeroDivisionError, w') /\
    trace w' = trace w ++ [PrintStr "Testing."] /\
    model_weights w' = model_weights w.
Proof.
  intros Hcsv Hb. eexists. split.
  - unfold test. unfold bind at 1. cbn [emit]. unfold bind at 1.
    unfold _data_loader.
    rewrite (data_load_empty_table "test" 0 (_batch self) _ "task_test/"
               "gt_test.csv" eq_refl Hcsv Hb).
    reflexivity.
  - split; reflexivity.
Qed.

(** ** Runs of [train] and [test] *)

Definition is_training_event (e : event) : bool :=
  match e with
  | ZeroGrad | Backward | SolverStep | PrintLoss _ => true
  | _ => false
  end.

(** A computation that only appends training events to the trace. *)
Definition trains {A : Type} (m : M A) : Prop :=
  forall w, exists evs,
    trace (snd (m w)) = trace w ++ evs /\
    Forall (fun e => is_training_event e = true) evs.

Lemma trains_quiet {A : Type} (m : M A) : quiet m -> trains m.
Proof.
  intros H w. exists []. rewrite app_nil_r. split; [apply H | constructor].
Qed.

Lemma trains_bind {A B : Type} (m : M A) (k : A -> M B) :
  trains m -> (forall a, trains (k a)) -> trains (bind m k).
Proof.
  intros Hm Hk w. unfold bind. destruct (Hm w) as (ev1 & Ht1 & Hf1).
  destruct (m w) as [[a|e] w1]; cbn [snd] in *; [|eauto].
  destruct (Hk a w1) as (ev2 & Ht2 & Hf2).
  exists (ev1 ++ ev2). rewrite Ht2, Ht1, app_assoc.
  split; [reflexivity | now apply Forall_app].
Qed.

Lemma trains_emit e : is_training_event e = true -> trains (emit e).
Proof. intros H w. exists [e]. split; [reflexivity | now constructor]. Qed.

(** X15: a training batch is all or nothing.  When [train_batch] returns
    it has read the three images, computed the three embeddings under the
    weights it started with, replaced the weights by one optimizer step on
    them and recorded exactly the events zero-grad, backward, step; when it
    raises, the weights are those it started with and no backward pass or
    step was recorded. *)
Theorem train_batch_all_or_nothing self abn w :
  (forall loss w', train_batch self abn w = (Ok loss, w') ->
     exists solver A P N fa fp fn,
       _solver self = Some solver /\
       _image_loader abn = Ok (A, P, N) /\
       forward (model_weights w) (_net self) A = Ok fa /\
       forward (model_weights w) (_net self) P = Ok fp /\
       forward (model_weights w) (_net self) N = Ok fn /\
       loss = triplet_margin_loss (_margin self) fa fp fn /\
       model_weights w' = optimizer_step solver (model_weights w) (A, P, N) /\
       trace w' = trace w ++ [ZeroGrad; Backward; SolverStep]) /\
  (forall e w', train_batch self abn w = (Raise e, w') ->
     model_weights w' = model_weights w /\
     (trace w' = trace w \/ trace w' = trace w ++ [ZeroGrad])).
Proof.
  unfold train_batch, bind, lift, get_solver, emit, net_forward, get_weights,
    set_weights, ret, raise.
  destruct (_image_loader abn) as [[[A P] N]|e0] eqn:EI; cbn.
  2: { split; [discriminate|]. intros e w' [= <- <-]. auto. }
  destruct (_solver self) as [solver|] eqn:ES; cbn.
  2: { split; [discriminate|]. intros e w' [= <- <-]. auto. }
  destruct (forward (model_weights w) (_net self) A) as [fa|e0] eqn:EA; cbn.
  2: { split; [discriminate|]. intros e w' [= <- <-]. auto. }
  destruct (forward (model_weights w) (_net self) P) as [fp|e0] eqn:EP; cbn.
  2: { split; [discriminate|]. intros e w' [= <- <-]. auto. }
  destruct (forward (model_weights w) (_net self) N) as [fn|e0] eqn:EN; cbn.
  2: { split; [discriminate|]. intros e w' [= <- <-]. auto. }
  split; [|discriminate].
  intros loss w' [= <- <-]. exists solver, A, P, N, fa, fp, fn. cbn.
  rewrite <- !app_assoc. repeat split; first [assumption | reflexivity].
Qed.

Lemma trains_train_batch self abn : trains (train_batch self abn).
Proof.
  intros w. unfold train_batch, bind, lift, get_solver, emit, net_forward,
    get_weights, set_weights, ret, raise.
  destruct (_image_loader abn) as [[[A P] N]|e0]; cbn;
    [|exists []; rewrite app_nil_r; split; [reflexivity | constructor]].
  destruct (_solver self) as [solver|]; cbn;
    [|exists []; rewrite app_nil_r; split; [reflexivity | constructor]].
  destruct (forward (model_weights w) (_net self) A) as [fa|e0]; cbn;
    [|exists [ZeroGrad]; split; [reflexivity | repeat constructor]].
  destruct (forward (model_weights w) (_net self) P) as [fp|e0]; cbn;
    [|exists [ZeroGrad]; split; [reflexivity | repeat constructor]].
  destruct (forward (model_weights w) (_net self) N) as [fn|e0]; cbn;
    [|exists [ZeroGrad]; split; [reflexivity | repeat constructor]].
  exists [ZeroGrad; Backward; SolverStep]. rewrite <- !app_assoc.
  split; [reflexivity | repeat constructor].
Qed.

Lemma trains_train_batches self batches :
  forall epoch_loss iter_num,
    trains (train_batches self batches epoch_loss iter_num).
Proof.
  induction batches as [|abn rest IH]; intros epoch_loss iter_num; cbn [train_batches].
  - apply trains_quiet, quiet_ret.
  - apply trains_bind; [apply trains_train_batch|]. intros loss. apply IH.
Qed.

Lemma trains_train_epoch self : trains (train_epoch self).
Proof.
  unfold train_epoch.
  apply trains_bind; [apply trains_quiet, quiet_data_loader|]. intros batches.
  apply trains_bind; [apply trains_train_batches|]. intros [epoch_loss iter_num].
  destruct (iter_num mod 50 =? 0)%Z; [|apply trains_quiet, quiet_ret].
  apply trains_bind; [apply trains_quiet, quiet_lift|]. intros l.
  now apply trains_emit.
Qed.

Lemma trains_repeatM n (m : M unit) : trains m -> trains (repeatM n m).
Proof.
  intros Hm. induction n as [|n IH]; cbn [repeatM].
  - apply trains_quiet, quiet_ret.
  - apply trains_bind; [exact Hm | intros _; exact IH].
Qed.

(** The two ways a run of [train] ends. *)
Lemma train_cases self w :
  exists evs,
    Forall (fun e => is_training_event e = true) evs /\
    ((exists w' stamp,
        train self w = (Ok tt, w') /\
        writable ("./bcnn-param-" +++ stamp) = true /\
        trace w' = trace w ++ [PrintStr "Training."] ++ evs
                     ++ [PrintStr ("Model parameters saved: ./bcnn-param-" +++ stamp)])
     \/
     (exists e w',
        train self w = (Raise e, w') /\
        trace w' = trace w ++ [PrintStr "Training."] ++ evs)).
Proof.
  set (w0 := mkWorld (model_weights w) (permutation_calls w) (randint_calls w)
               (trace w ++ [PrintStr "Training."])).
  assert (E : train self w
              = match repeatM (_epoch self) (train_epoch self) w0 with
                | (Ok _, w1) => _save w1
                | (Raise e, w1) => (Raise e, w1)
                end) by reflexivity.
  destruct (trains_repeatM (_epoch self) (train_epoch self)
              (trains_train_epoch self) w0) as (evs & Ht & Hf).
  exists evs. split; [exact Hf|]. rewrite E.
  destruct (repeatM (_epoch self) (train_epoch self) w0) as [[[]|e] w1];
    cbn [snd] in Ht.
  - unfold _save.
    destruct (writable ("./bcnn-param-" +++ strftime_now w1)) eqn:Hw.
    + left. eexists. exists (strftime_now w1). split; [reflexivity|].
      split; [exact Hw|]. cbn. rewrite Ht. unfold w0. cbn.
      now rewrite <- !app_assoc.
    + right. eexists. eexists. split; [reflexivity|].
      cbn. rewrite Ht. unfold w0. cbn. now rewrite <- !app_assoc.
  - right. exists e, w1. split; [reflexivity|].
    rewrite Ht. unfold w0. cbn. now rewrite <- !app_assoc.
Qed.

Definition is_saved_message (e : event) : bool :=
  match e with
  | PrintStr s => String.prefix "Model parameters saved: " s
  | _ => false
  end.

Lemma training_events_not_saved evs :
  Forall (fun e => is_training_event e = true) evs ->
  existsb is_saved_message evs = false.
Proof.
  induction 1 as [|e evs He _ IH]; [reflexivity|]. simpl. rewrite IH.
  destruct e; try discriminate; reflexivity.
Qed.

(** X16: [train] reports a saved checkpoint exactly when it returns.  The
    trace of a run is the banner, then only optimizer events and loss
    reports; the message that the parameters were saved (under
    [./bcnn-param-] and the time stamp) is its last event when the run
    returns, and does not occur among the events of a run that raises:
    a failure in any epoch, or of the write itself, leaves no checkpoint. *)
Theorem train_saves_iff_it_returns self w :
  exists evs,
    trace (snd (train self w)) = trace w ++ [PrintStr "Training."] ++ evs /\
    (existsb is_saved_message evs = true <-> fst (train self w) = Ok tt) /\
    (fst (train self w) = Ok tt ->
     exists body stamp,
       evs = body ++ [PrintStr ("Model parameters saved: ./bcnn-param-" +++ stamp)] /\
       Forall (fun e => is_training_event e = true) body).
Proof.
  destruct (train_cases self w) as (body & Hf & [(w' & stamp & Hrun & _ & Ht) |
                                                 (e & w' & Hrun & Ht)]).
  - exists (body ++ [PrintStr ("Model parameters saved: ./bcnn-param-" +++ stamp)]).
    rewrite Hrun. cbn [fst snd]. split; [exact Ht|]. split.
    + split; [reflexivity|]. intros _. rewrite existsb_app.
      apply orb_true_iff. right. reflexivity.
    + intros _. exists body, stamp. split; [reflexivity | exact Hf].
  - exists body. rewrite Hrun. cbn [fst snd]. split; [exact Ht|]. split.
    + rewrite (training_events_not_saved body Hf). split; discriminate.
    + discriminate.
Qed.

(** ** Evaluation, again *)

Definition without_solver (self : BilinearAlexManager) : BilinearAlexManager :=
  mkManager (_net self) (_margin self) (_batch self) (_epoch self) None None.

(** X17: [test] only reads.  Whatever happens, a run of [test] leaves the
    weights as they were and records no optimizer event: its trace is the
    banner, followed by the accuracy when the run returns and by nothing
    when it raises.  It never looks at the optimizer or the scheduler: a
    manager stripped of both evaluates exactly the same. *)
Theorem test_only_reads self w :
  model_weights (snd (test self w)) = model_weights w /\
  ((exists acc, fst (test self w) = Ok acc /\
                trace (snd (test self w))
                = trace w ++ [PrintStr "Testing."; PrintAccuracy acc]) \/
   (exists e, fst (test self w) = Raise e /\
              trace (snd (test self w)) = trace w ++ [PrintStr "Testing."])) /\
  test (without_solver self) w = test self w.
Proof.
  destruct (test_raises self w) as (e & w' & Hrun & Ht & Hw).
  split; [|split].
  - rewrite Hrun. exact Hw.
  - right. exists e. rewrite Hrun. split; [reflexivity | exact Ht].
  - rewrite !test_eq. reflexivity.
Qed.

(** ** Images and evaluation *)

Lemma rmapM_Forall2 {A B : Type} (f : A -> result B) (l : list A) (ys : list B) :
  rmapM f l = Ok ys <-> Forall2 (fun x y => f x = Ok y) l ys.
Proof.
  revert ys. induction l as [|x l IH]; intros ys; simpl.
  - split; [intros [= <-]; constructor | intros H; inversion H; reflexivity].
  - split.
    + intros H. apply rbind_inv in H as (y & Hy & H).
      apply rbind_inv in H as (ys' & Hys & H). injection H as <-.
      constructor; [exact Hy | now apply IH].
    + intros H. inversion H as [|x0 y l0 ys' Hy Hys]; subst.
      apply IH in Hys. now rewrite Hy, Hys.
Qed.

Lemma rmapM_ok_iff {A B : Type} (f : A -> result B) (l : list A) :
  (exists ys, rmapM f l = Ok ys) <-> (forall x, In x l -> exists y, f x = Ok y).
Proof.
  induction l as [|x l IH]; simpl.
  - split; [intros _ x [] | intros _; eauto].
  - split.
    + intros (ys & H). apply rbind_inv in H as (y & Hy & H).
      apply rbind_inv in H as (ys' & Hys & _).
      intros x' [<- | Hx]; [eauto|]. apply IH; eauto.
    + intros H. destruct (H x (or_introl eq_refl)) as (y & Hy).
      destruct (proj2 IH (fun x' Hx => H x' (or_intror Hx))) as (ys & Hys).
      exists (y :: ys). now rewrite Hy, Hys.
Qed.

(** Entry [i] of a list of paths exists and is a readable image. *)
Definition readable_at (l : list string) (i : nat) : Prop :=
  exists path px, nth_error l i = Some path /\ image_file path = Some px.

Lemma read_entry_ok l i :
  (exists px, rbind (py_index l (Z.of_nat i)) read_image = Ok px) <-> readable_at l i.
Proof.
  split.
  - intros (px & H). apply rbind_inv in H as (path & Hp & H).
    apply py_index_nat_inv in Hp. unfold read_image in H.
    destruct (image_file path) as [d|] eqn:E; [|discriminate].
    exists path, d. auto.
  - intros (path & px & Hp & Hi). exists px.
    rewrite (py_index_nat _ _ _ Hp). cbn [rbind]. unfold read_image. now rewrite Hi.
Qed.

(** X18: [_image_loader] returns exactly when, for every position below
    [len(a)], the anchor, positive and negative lists all have an entry
    that is a readable image; entries of [p] and [n] beyond [len(a)] are
    never read.  The three tensors it returns are sized
    (len(a), 3, 227, 227). *)
Theorem image_loader_spec (a p n : list string) :
  ((exists APN, _image_loader (a, p, n) = Ok APN) <->
   (forall i, i < length a ->
      readable_at a i /\ readable_at p i /\ readable_at n i)) /\
  (forall A P N, _image_loader (a, p, n) = Ok (A, P, N) ->
     shape A = [Z.of_nat (length a); 3; 227; 227]%Z /\
     shape P = [Z.of_nat (length a); 3; 227; 227]%Z /\
     shape N = [Z.of_nat (length a); 3; 227; 227]%Z /\
     length a <= length p /\ length a <= length n).
Proof.
  set (f := fun i =>
         (ai <- py_index a (Z.of_nat i) ;;
          A <- read_image ai ;;
          pi <- py_index p (Z.of_nat i) ;;
          P <- read_image pi ;;
          ni <- py_index n (Z.of_nat i) ;;
          N <- read_image ni ;;
          Ok (A, P, N))%result).
  assert (Hf : forall i, (exists y, f i = Ok y) <->
                 readable_at a i /\ readable_at p i /\ readable_at n i).
  { intros i. rewrite <- !read_entry_ok. unfold f. split.
    - intros (y & H).
      apply rbind_inv in H as (ai & H1 & H). apply rbind_inv in H as (A & H2 & H).
      apply rbind_inv in H as (pi & H3 & H). apply rbind_inv in H as (P & H4 & H).
      apply rbind_inv in H as (ni & H5 & H). apply rbind_inv in H as (N & H6 & H).
      split; [|split]; eexists.
      + rewrite H1. exact H2.
      + rewrite H3. exact H4.
      + rewrite H5. exact H6.
    - intros ((A & H1) & (P & H2) & (N & H3)).
      apply rbind_inv in H1 as (ai & -> & H1).
      apply rbind_inv in H2 as (pi & -> & H2).
      apply rbind_inv in H3 as (ni & -> & H3).
      exists (A, P, N). cbn [rbind]. now rewrite H1, H2, H3. }
  assert (Hrun : (exists APN, _image_loader (a, p, n) = Ok APN) <->
                 (exists imgs, rmapM f (seq 0 (length a)) = Ok imgs)).
  { unfold _image_loader. fold f. split.
    - intros (APN & H). apply rbind_inv in H as (imgs & H & _). eauto.
    - intros (imgs & ->). cbn [rbind]. eauto. }
  split.
  - rewrite Hrun, rmapM_ok_iff. split.
    + intros H i Hi. apply Hf, H, in_seq. lia.
    + intros H i Hi. apply Hf, H. apply in_seq in Hi. lia.
  - intros A P N H.
    assert (Hall : forall i, i < length a ->
              readable_at a i /\ readable_at p i /\ readable_at n i).
    { assert (Hex : exists imgs, rmapM f (seq 0 (length a)) = Ok imgs)
        by (apply Hrun; eauto).
      rewrite rmapM_ok_iff in Hex. intros i Hi. apply Hf, Hex, in_seq. lia. }
    unfold _image_loader in H. fold f in H.
    apply rbind_inv in H as (imgs & _ & H). injection H as <- <- <-.
    cbn [shape]. split; [reflexivity|]. split; [reflexivity|].
    split; [reflexivity|].
    destruct a as [|a0 a']; [simpl; lia|].
    destruct (Hall (length a') ltac:(simpl; lia))
      as (_ & (x & px & Hp & _) & (y & py & Hn & _)).
    assert (length a' < length p) by (apply nth_error_Some; congruence).
    assert (length a' < length n) by (apply nth_error_Some; congruence).
    simpl. lia.
Qed.

(** X19: how a run of [test] ends.  It never returns an accuracy.  It
    raises what the loader raises; [ZeroDivisionError] when the loader
    returns no batch; and otherwise it stops in its first batch, with the
    error of the image loader, else with the error of the anchor's forward
    pass, else with the [TypeError] of [.numpy()] on the output the network
    left on the GPU.  The positive and the negative of the first batch, and
    the later batches, never reach the network. *)
Theorem test_failure_modes self w :
  let w0 := snd (emit (PrintStr "Testing.") w) in
  (forall acc, fst (test self w) <> Ok acc) /\
  (forall e w1,
     _data_loader self false w0 = (Raise e, w1) -> fst (test self w) = Raise e) /\
  (forall w1,
     _data_loader self false w0 = (Ok [], w1) ->
     fst (test self w) = Raise ZeroDivisionError) /\
  (forall b rest w1,
     _data_loader self false w0 = (Ok (b :: rest), w1) ->
     (forall e, _image_loader b = Raise e -> fst (test self w) = Raise e) /\
     (forall A P N,
        _image_loader b = Ok (A, P, N) ->
        (forall e, forward (model_weights w) (_net self) A = Raise e ->
                   fst (test self w) = Raise e) /\
        (forall Y, forward (model_weights w) (_net self) A = Ok Y ->
                   fst (test self w) = Raise cuda_to_numpy))).
Proof.
  intros w0. split; [|split; [|split]].
  - intros acc. destruct (test_raises self w) as (e & w' & -> & _). discriminate.
  - intros e w1 H. rewrite test_eq. fold w0. now rewrite H.
  - intros w1 H. rewrite test_eq. fold w0. now rewrite H.
  - intros b rest w1 H.
    assert (Hw : model_weights w1 = model_weights w).
    { destruct (quiet_data_loader self false w0) as [_ Hq].
      rewrite H in Hq. exact Hq. }
    assert (E : fst (test self w) = Raise (test_batch_error self (model_weights w) b)).
    { rewrite test_eq. fold w0. rewrite H, Hw. reflexivity. }
    rewrite E. unfold test_batch_error. split.
    + intros e ->. reflexivity.
    + intros A P N ->. split; [intros e -> | intros Y ->]; reflexivity.
Qed.

(** ** The entry point *)

(** X20: [main] as a whole.  Its manager is always constructed, partly
    frozen and with an optimizer.  If training raises, [main] raises the
    same exception and the evaluation never starts.  If training returns,
    the evaluation starts and raises, and [main] raises with it: its output
    is then, in this order, the network, the training banner, optimizer
    events and loss reports only, the saved-checkpoint message and the test
    banner.  So [main] never returns, and never prints an accuracy. *)
Theorem main_run w :
  exists mgr net,
    Manager_init (Some "part") None w
    = (Ok mgr, mkWorld (model_weights w) (permutation_calls w) (randint_calls w)
                 (trace w ++ [PrintNet net])) /\
    _net mgr = net /\ _solver mgr <> None /\
    (forall e, fst (train mgr (snd (Manager_init (Some "part") None w))) = Raise e ->
       fst (main w) = Raise e /\
       ~ In (PrintStr "Testing.") (skipn (length (trace w)) (trace (snd (main w))))) /\
    (fst (train mgr (snd (Manager_init (Some "part") None w))) = Ok tt ->
     exists e body stamp,
       fst (main w) = Raise e /\
       fst (test mgr (snd (train mgr (snd (Manager_init (Some "part") None w)))))
         = Raise e /\
       trace (snd (main w))
       = trace w ++ [PrintNet net; PrintStr "Training."] ++ body
           ++ [PrintStr ("Model parameters saved: ./bcnn-param-" +++ stamp);
               PrintStr "Testing."] /\
       Forall (fun e => is_training_event e = true) body) /\
    (exists e, fst (main w) = Raise e) /\
    (forall acc, ~ In (PrintAccuracy acc) (skipn (length (trace w)) (trace (snd (main w))))).
Proof.
  eexists. eexists. split; [reflexivity|].
  set (mgr := mkManager _ _ _ _ _ _).
  set (w1 := mkWorld (model_weights w) (permutation_calls w) (randint_calls w)
               (trace w ++ [PrintNet (_net mgr)])).
  assert (Emain : main w
                  = match train mgr w1 with
                    | (Ok _, w2) =>
                        match test mgr w2 with
                        | (Ok _, w3) => (Ok tt, w3)
                        | (Raise e, w3) => (Raise e, w3)
                        end
                    | (Raise e, w2) => (Raise e, w2)
                    end) by reflexivity.
  split; [reflexivity|]. split; [discriminate|].
  change (snd (Manager_init (Some "part") None w)) with w1.
  assert (Hskip : forall l, skipn (length (trace w)) (trace w ++ l) = l).
  { intros l. now rewrite skipn_app, skipn_all, Nat.sub_diag. }
  destruct (train_cases mgr w1)
    as (body & Hbody & [(w2 & stamp & Hrun & _ & Ht) | (e0 & w2 & Hrun & Ht)]).
  - destruct (test_raises mgr w2) as (e & w3 & Htest & Ht3 & _).
    assert (Htrace : trace w3
                     = trace w ++ [PrintNet (_net mgr); PrintStr "Training."] ++ body
                         ++ [PrintStr ("Model parameters saved: ./bcnn-param-" +++ stamp);
                             PrintStr "Testing."]).
    { rewrite Ht3, Ht. unfold w1. cbn [trace]. rewrite <- !app_assoc. reflexivity. }
    rewrite Emain, Hrun, Htest. cbn [fst snd].
    split; [discriminate|]. split; [|split].
    + intros _. exists e, body, stamp. rewrite Htest. cbn [fst].
      repeat split; [exact Htrace | exact Hbody].
    + exists e. reflexivity.
    + intros acc. rewrite Htrace, Hskip. intros Hin.
      destruct Hin as [E | [E | Hin]]; try discriminate.
      cbn [app] in Hin.
      apply in_app_or in Hin as [Hin | [E | [E | []]]]; try discriminate.
      rewrite Forall_forall in Hbody. specialize (Hbody _ Hin). discriminate.
  - assert (Htrace : trace w2
                     = trace w ++ [PrintNet (_net mgr); PrintStr "Training."] ++ body).
    { rewrite Ht. unfold w1. cbn [trace]. rewrite <- app_assoc. reflexivity. }
    rewrite Emain, Hrun. cbn [fst snd].
    split; [|split; [discriminate|split]].
    + intros e [= ->]. split; [reflexivity|].
      rewrite Htrace, Hskip.
      intros [E | [E | Hin]]; try discriminate.
      rewrite Forall_forall in Hbody. specialize (Hbody _ Hin). discriminate.
    + exists e0. reflexivity.
    + intros acc. rewrite Htrace, Hskip.
      intros [E | [E | Hin]]; try discriminate.
      rewrite Forall_forall in Hbody. specialize (Hbody _ Hin). discriminate.
Qed.

End Program.

Arguments model_weights {weights} w.
Arguments permutation_calls {weights} w.
Arguments randint_calls {weights} w.
Arguments trace {weights} w.
Arguments mkWorld {weights} _ _ _ _.

(** * Concrete runs

    A small dataset (five training rows, one test row), a fixed random
    generator and a toy backend, on which the theorems above are
    instantiated. *)

Definition lookup {V : Type} (table : list (string * V)) (key : string) : option V :=
  match find (fun kv => String.eqb (fst kv) key) table with
  | Some kv => Some (snd kv)
  | None => None
  end.

Definition sample_candidates : list string :=
  ["c0.jpg"; "c1.jpg"; "c2.jpg"; "c3.jpg"; "c4.jpg";
   "c5.jpg"; "c6.jpg"; "c7.jpg"; "c8.jpg"; "c9.jpg"].

Definition sample_rows : list (list string) :=
  [["s0"; "0"]; ["s1"; "3"]; ["s2"; "9"]; ["s3"; "5"]; ["s4"; "1"]].

Definition sample_csv : string -> option (list (list string)) :=
  lookup [ (root_path +++ "gt_train.csv", sample_rows);
           (root_path +++ "gt_test.csv", [["t0"; "2"]]) ].

Definition sample_json : string -> option (string * list string) :=
  lookup [ (root_path +++ "task_train/s0.json", ("a0.jpg", sample_candidates));
           (root_path +++ "task_train/s1.json", ("a1.jpg", sample_candidates));
           (root_path +++ "task_train/s2.json", ("a2.jpg", sample_candidates));
           (root_path +++ "task_train/s3.json", ("a3.jpg", sample_candidates));
           (root_path +++ "task_train/s4.json", ("a4.jpg", sample_candidates));
           (root_path +++ "task_test/t0.json", ("ta.jpg", sample_candidates)) ].

Definition sample_permutation (call n : nat) : list nat := rev (seq 0 n).

Definition sample_randint (call high : nat) : nat := call mod high.

Lemma sample_randint_bound k : sample_randint k 9 < 9.
Proof. apply Nat.mod_upper_bound. discriminate. Qed.

(** One value per image: 0 for the test anchor, 1 for its positive, 2 for
    everything else. *)
Definition sample_image (path : string) : option (list Q) :=
  if String.eqb path (root_path +++ imgs_path +++ "ta.jpg") then Some [0%Q]
  else if String.eqb path (root_path +++ imgs_path +++ "c2.jpg") then Some [1%Q]
  else Some [2%Q].

(** A backend whose layers pass their input on, except the final projection,
    which reads the first pooled value: 0 yields the origin, 1 a point at
    squared distance 0.1 from it, anything else a point at squared
    distance 2. *)
Definition sample_layer_forward (_ : unit) (l : layer) (d : list Q) : list Q :=
  match kind l with
  | Linear fin _ =>
      if (fin =? 262144)%Z then
        match d with
        | x :: _ =>
            if Qeq_bool x 0 then repeat 0%Q 512
            else if Qeq_bool x 1 then [3 # 10; 1 # 10]%Q ++ repeat 0%Q 510
            else [1; 1]%Q ++ repeat 0%Q 510
        | [] => repeat 0%Q 512
        end
      else d
  | _ => d
  end.

Definition sample_world : world unit := mkWorld tt 0 0 [].

Definition manager_of (freeze : option string) : BilinearAlexManager :=
  match fst (Manager_init unit (fun _ => None) freeze None sample_world) with
  | Ok mgr => mgr
  | Raise _ => mkManager (mkNet [] [] (mkLayer ReLU [])) 0 0 0 None None
  end.


Definition sample_test (self : BilinearAlexManager) : M unit Q :=
  test unit sample_layer_forward sample_permutation sample_randint sample_csv
    sample_json sample_image self.

Definition sample_load (part : string) (ver batch : Z) : M unit (list batch_paths) :=
  sun360h_data_load unit sample_permutation sample_randint sample_csv sample_json
    part ver batch.

(** A task file that lists the same candidate name ten times. *)
Definition repeated_json : string -> option (string * list string) :=
  lookup [ (root_path +++ "task_train/s0.json", ("a0.jpg", repeat "c.jpg" 10)) ].

Definition repeated_csv : string -> option (list (list string)) :=
  lookup [ (root_path +++ "gt_train.csv", [["s0"; "0"]]) ].

(** Witness of C1: a batch of two images through the partly frozen
    network. *)
Lemma forward_output_shape_witness :
  exists net Y,
    BilinearAlex_init (Some "part") = Ok net /\
    forward unit sample_layer_forward tt net
      (mkTensor [2; 3; 227; 227]%Z []) = Ok Y /\
    shape Y = [2; 512]%Z.
Proof.
  destruct (forward_output_shape unit sample_layer_forward tt (Some "part") 2
              (mkTensor [2; 3; 227; 227]%Z [])
              (or_intror (or_introl eq_refl)) ltac:(lia) eq_refl)
    as (net & F & B & O & P & Y & Hinit & _ & _ & _ & _ & _ & _ & _ & _ & HY & Hs).
  exists net, Y. repeat split; assumption.
Defined.

Definition ramp : list Q := map (fun i => inject_Z (Z.of_nat i)) (seq 0 512).

(** Witness of C3: the pooling of the single vector 0, 1, ..., 511. *)
Lemma bilinear_pool_outer_product_witness :
  bilinear_pool 1 (mkTensor [1; 512]%Z (concat [ramp]))
  = Ok (mkTensor [1; 262144]%Z (concat (map outer_product_flat [ramp]))).
Proof.
  apply (bilinear_pool_outer_product unit sample_layer_forward tt
           (manager_of None).(_net) 1 [ramp]).
  - lia.
  - reflexivity.
  - constructor; [reflexivity | constructor].
Defined.

(** Witness of C4: the optimizer of the default manager, freeze mode
    [part]. *)
Lemma freeze_modes_and_solver_witness :
  exists s,
    _solver (manager_of (Some "part")) = Some s /\
    map pname (opt_params s)
      = ["bfc.6.weight"; "bfc.6.bias"; "fc.weight"; "fc.bias"].
Proof.
  destruct (freeze_modes_and_solver unit (fun _ => None))
    as (_ & _ & _ & Hpart & _).
  destruct (Hpart None sample_world (manager_of (Some "part")) eq_refl)
    as (s & Hs & _ & Hn & _).
  exists s. split; assumption.
Defined.

(** Witness of C5: five rows in batches of two make three batches. *)
Lemma data_load_batches_witness :
  exists result,
    fst (sample_load "train" 0 2 sample_world) = Ok result /\
    Z.of_nat (length result) = 3%Z.
Proof.
  destruct (data_load_batches unit sample_permutation sample_randint sample_csv
              sample_json "train" 0 2 sample_world "task_train/" "gt_train.csv"
              sample_rows eq_refl eq_refl eq_refl ltac:(lia) eq_refl
              sample_randint_bound)
    as (chunks & result & w' & Hrun & Hlen & _).
  exists result. split; [unfold sample_load; now rewrite Hrun | exact Hlen].
Defined.

(** Witness of C6 (amended): on the sample dataset every negative path
    differs from the positive path next to it. *)
Lemma negative_differs_from_positive_witness :
  exists result,
    fst (sample_load "train" 0 2 sample_world) = Ok result /\
    forall a p n, In (a, p, n) result -> Forall2 (fun x y => x <> y) p n.
Proof.
  destruct (proj2 (proj2 (negative_differs_from_positive unit sample_permutation
              sample_randint sample_csv sample_json "train" 0 2 sample_world))
              "task_train/" "gt_train.csv" sample_rows eq_refl eq_refl eq_refl
              ltac:(lia) eq_refl sample_randint_bound)
    as (result & w' & Hrun & Hdiff).
  exists result. split; [unfold sample_load; now rewrite Hrun|].
  apply Hdiff. reflexivity.
Defined.

(** The draws behind the first batch of that load: rows 4 and 3, positive
    indices 1 and 5, draws 0 and 1, negatives 0 and 1. *)
Example sample_negative_draws :
  row_drawn sample_randint sample_json "task_train/" sample_rows 4 0
    sample_candidates 1 0
    (root_path +++ imgs_path +++ "a4.jpg", root_path +++ imgs_path +++ "c1.jpg",
     root_path +++ imgs_path +++ "c0.jpg") /\
  row_drawn sample_randint sample_json "task_train/" sample_rows 3 1
    sample_candidates 5 1
    (root_path +++ imgs_path +++ "a3.jpg", root_path +++ imgs_path +++ "c5.jpg",
     root_path +++ imgs_path +++ "c1.jpg").
Proof.
  split.
  - exists "s4", "1", [], "a4.jpg", "c1.jpg", "c0.jpg". repeat split.
  - exists "s3", "5", [], "a3.jpg", "c5.jpg", "c1.jpg". repeat split.
Qed.

(** A table whose only row gives its positive index counted from the
    end. *)
Definition negative_index_csv : string -> option (list (list string)) :=
  lookup [ (root_path +++ "gt_train.csv", [["s0"; "-3"]]) ].

(** Counterexamples to C6 as stated.  With a task file that lists the same
    name ten times, the emitted negative path is the positive path.  And
    with ten different names, a positive index written [-3] designates
    candidate 7, which the draw 7 selects as the negative as well. *)
Lemma negative_path_equals_positive_path :
  (exists a p,
     fst (sun360h_data_load unit sample_permutation sample_randint repeated_csv
            repeated_json "train" 0 1 sample_world)
     = Ok [([a], [p], [p])]) /\
  (distinct_names sample_candidates = true /\
   exists a p,
     fst (sun360h_data_load unit sample_permutation (fun _ _ => 7)
            negative_index_csv sample_json "train" 0 1 sample_world)
     = Ok [([a], [p], [p])]).
Proof.
  split; [|split; [reflexivity|]]; eexists; eexists; vm_compute; reflexivity.
Qed.

(** C7 on the sample test set, one triplet whose images load and go
    through the network: [test] raises at the conversion of the anchor's
    embedding, after the banner. *)
Lemma test_raises_before_scoring_witness :
  exists w',
    sample_test (manager_of (Some "part")) sample_world
    = (Raise cuda_to_numpy, w') /\
    trace w' = [PrintStr "Testing."].
Proof.
  destruct (test_raises_before_scoring unit sample_layer_forward
              sample_permutation sample_randint sample_csv sample_json
              sample_image (fun _ => None))
    as (_ & _ & _ & _ & _ & _ & Hraises).
  destruct (Hraises (manager_of (Some "part")) sample_world)
    as (e & w' & Hrun & Ht & Hfirst).
  exists w'. split; [|exact Ht].
  unfold sample_test. rewrite Hrun. f_equal. f_equal.
  eapply Hfirst;
    [vm_compute; reflexivity | vm_compute; reflexivity | vm_compute; reflexivity].
Defined.

(** The distances of C7 on actual embeddings. *)
Example triplet_at_distances_01_and_2 :
  let a := repeat 0%Q 512 in
  let p := ([3 # 10; 1 # 10] ++ repeat 0 510)%Q in
  let n := ([1; 1] ++ repeat 0 510)%Q in
  (sqdist a p == 1 # 10)%Q /\ (sqdist a n == 2)%Q /\
  triplet_correct 1 a p n = true /\ triplet_correct 1 a n p = false.
Proof. vm_compute. repeat split. Qed.

(** Witness of C8 (amended): the freeze mode ["bogus"], the partition
    ["val"] and the version 5. *)
Lemma invalid_configuration_fails_fast_witness :
  (exists e, BilinearAlex_init (Some "bogus") = Raise e /\
             InvalidConfiguration e = true) /\
  (exists e, sample_load "val" 0 1 sample_world = (Raise e, sample_world) /\
             InvalidConfiguration e = true) /\
  (exists e, sample_load "train" 5 1 sample_world = (Raise e, sample_world) /\
             InvalidConfiguration e = true).
Proof.
  pose proof (invalid_configuration_fails_fast unit sample_permutation
                sample_randint sample_csv sample_json (fun _ => None))
    as (Hfreeze & _ & Hpart & Hver & _).
  split; [|split].
  - apply Hfreeze; discriminate.
  - apply Hpart; discriminate.
  - apply Hver; discriminate.
Defined.

(** Counterexample to C8 as stated: the empty string is none of the freeze
    modes, yet the construction succeeds and freezes nothing. *)
Lemma empty_freeze_mode_is_accepted :
  Some "" <> @None string /\ Some "" <> Some "part" /\ Some "" <> Some "all" /\
  exists net,
    BilinearAlex_init (Some "") = Ok net /\
    trainable (parameters net) = parameters net.
Proof.
  repeat split; try discriminate.
  eexists. split; reflexivity.
Qed.


(** C9 on the sample training set: one epoch of five batches prints no
    loss, and the fifteen events are those of the batches. *)
Example sample_epoch_trace :
  let self := manager_of (Some "part") in
  trace (snd (train_epoch unit sample_layer_forward sample_permutation
                sample_randint sample_csv sample_json sample_image
                (fun _ _ _ _ => 0%Q) (fun _ w _ => w) self sample_world))
  = concat (repeat batch_events 5).
Proof. vm_compute. reflexivity. Qed.

(** ** Instances of the further properties *)

Definition sample_net : BilinearAlex := _net (manager_of None).

Definition sample_main : M unit unit :=
  main unit sample_layer_forward sample_permutation sample_randint sample_csv
    sample_json sample_image (fun _ => None) (fun _ _ _ _ => 0%Q) (fun _ w _ => w)
    (fun _ => "20180101000000") (fun _ => true).

(** A dataset whose two tables are empty. *)
Definition empty_csv : string -> option (list (list string)) :=
  lookup [ (root_path +++ "gt_train.csv", []); (root_path +++ "gt_test.csv", []) ].

(** A checkpoint store with one file. *)
Definition sample_checkpoint (path : string) : option unit :=
  if String.eqb path "./bcnn-param-20180101000000" then Some tt else None.

(** Instance of X1: images of 224 x 224 pixels are refused. *)
Lemma forward_rejects_other_shapes_witness :
  forward unit sample_layer_forward tt sample_net
    (mkTensor [2; 3; 224; 224]%Z []) = Raise AssertionError.
Proof.
  apply (proj2 (forward_rejects_other_shapes unit sample_layer_forward tt
                  sample_net (mkTensor [2; 3; 224; 224]%Z []))
           2%Z [3; 224; 224]%Z eq_refl).
  discriminate.
Defined.

(** Instance of X2: a batch of one image gets through. *)
Lemma forward_returns_iff_nonempty_batch_witness :
  exists Y, forward unit sample_layer_forward tt sample_net
              (mkTensor [1; 3; 227; 227]%Z []) = Ok Y.
Proof.
  apply (proj2 (proj1 (forward_returns_iff_nonempty_batch unit
                  sample_layer_forward tt None sample_net
                  (mkTensor [1; 3; 227; 227]%Z []) eq_refl))).
  exists 1%Z. split; [lia | reflexivity].
Defined.

(** Instance of X3: freezing the fresh network partly. *)
Lemma freeze_only_disables_gradients_witness :
  exists net,
    _freeze fresh_network "part" = Ok net /\
    map kind (bfc net) = map kind (bfc fresh_network) /\
    Forall2 frozen_from (parameters fresh_network) (parameters net).
Proof.
  eexists. split; [reflexivity|].
  destruct (freeze_only_disables_gradients fresh_network _ "part" eq_refl)
    as (_ & Hb & _ & Hp).
  split; [exact Hb | exact Hp].
Defined.

(** Instance of X5: the fully frozen network. *)
Lemma constructor_initialisation_witness :
  Forall (fun p => pinit p = Pretrained)
    (layers_parameters (features (_net (manager_of (Some "all"))))).
Proof.
  apply Forall_forall.
  apply (proj1 (constructor_initialisation (Some "all")
                  (_net (manager_of (Some "all"))) eq_refl)).
Defined.

(** Instance of X6: a checkpoint that exists and one that does not. *)
Lemma manager_checkpoint_witness :
  fst (Manager_init unit sample_checkpoint None (Some "missing") sample_world)
    = Raise (IOError "missing") /\
  exists mgr,
    fst (Manager_init unit sample_checkpoint None
           (Some "./bcnn-param-20180101000000") sample_world) = Ok mgr.
Proof.
  destruct (manager_checkpoint unit sample_checkpoint None sample_net
              sample_world eq_refl) as (Hmiss & Hload & _).
  split.
  - rewrite (Hmiss "missing"); [reflexivity | discriminate | reflexivity].
  - destruct (Hload "./bcnn-param-20180101000000" tt) as (mgr & Hrun & _);
      [discriminate | reflexivity |].
    exists mgr. now rewrite Hrun.
Defined.

(** Instance of X7: batch sizes 0 and -3 on the sample training set. *)
Lemma data_load_degenerate_batch_witness :
  fst (sample_load "train" 0 0 sample_world)
    = Raise (ValueError "range() arg 3 must not be zero") /\
  fst (sample_load "train" 0 (-3) sample_world) = Ok [].
Proof.
  split.
  - unfold sample_load.
    rewrite (proj1 (data_load_degenerate_batch unit sample_permutation
                      sample_randint sample_csv sample_json "train" 0 0
                      sample_world "task_train/" "gt_train.csv" sample_rows
                      eq_refl eq_refl) eq_refl).
    reflexivity.
  - unfold sample_load.
    rewrite (proj2 (data_load_degenerate_batch unit sample_permutation
                      sample_randint sample_csv sample_json "train" 0 (-3)
                      sample_world "task_train/" "gt_train.csv" sample_rows
                      eq_refl eq_refl) eq_refl).
    reflexivity.
Defined.

(** Instance of X8: the row [s0, -3] and the draw 7. *)
Lemma negative_index_not_excluded_witness :
  fst (load_row unit (fun _ _ => 7) sample_json "task_train/" [["s0"; "-3"]] 0
         sample_world)
  = Ok (root_path +++ imgs_path +++ "a0.jpg",
        root_path +++ imgs_path +++ "c7.jpg",
        root_path +++ imgs_path +++ "c7.jpg").
Proof.
  destruct (negative_index_not_excluded unit (fun _ _ => 7) sample_json
              "task_train/" [["s0"; "-3"]] 0 sample_world "s0" "-3" []
              "a0.jpg" sample_candidates (-3)%Z
              eq_refl eq_refl eq_refl eq_refl ltac:(lia) eq_refl)
    as (_ & p & Hp & Hrun).
  vm_compute in Hp. injection Hp as <-. exact Hrun.
Defined.

(** Instance of X9: the two partitions of version 0. *)
Lemma dataset_paths_distinct_witness :
  exists paths paths',
    dataset_paths "train" 0 = Ok paths /\ dataset_paths "test" 0 = Ok paths' /\
    snd paths <> snd paths'.
Proof.
  eexists. eexists. split; [reflexivity|]. split; [reflexivity|].
  intros E.
  destruct (proj2 (dataset_paths_distinct "train" 0 "test" 0) _ _ eq_refl eq_refl
              (or_intror E)) as [Hp _].
  discriminate Hp.
Defined.

(** Instance of X10: the sample training set was loaded row by row. *)
Lemma data_load_all_or_nothing_witness :
  row_loaded sample_json "task_train/" sample_rows 0.
Proof.
  destruct (proj2 (data_load_all_or_nothing unit sample_permutation
                     sample_randint sample_csv sample_json "train" 0 2
                     sample_world)
              (match fst (sample_load "train" 0 2 sample_world) with
               | Ok r => r
               | Raise _ => []
               end)
              (snd (sample_load "train" 0 2 sample_world)))
    as (task_path & gt_path & gt_list & Hpaths & Hcsv & _ & Hrows).
  { vm_compute. reflexivity. }
  vm_compute in Hpaths. injection Hpaths as <- <-.
  vm_compute in Hcsv. injection Hcsv as <-.
  apply Hrows; [lia | reflexivity | simpl; lia].
Defined.

(** Instance of X11: loading the five sample rows draws five negatives. *)
Lemma data_load_random_draws_witness :
  randint_calls (snd (sample_load "train" 0 2 sample_world)) = 5 /\
  permutation_calls (snd (sample_load "train" 0 2 sample_world)) = 1.
Proof.
  destruct (data_load_random_draws unit sample_permutation sample_randint
              sample_csv sample_json "train" 0 2 sample_world
              (match fst (sample_load "train" 0 2 sample_world) with
               | Ok r => r
               | Raise _ => []
               end)
              (snd (sample_load "train" 0 2 sample_world)))
    as (gt_path & gt_list & (task_path & Hpaths) & Hcsv & Hdraws).
  { vm_compute. reflexivity. }
  { lia. }
  vm_compute in Hpaths. injection Hpaths as <- <-.
  vm_compute in Hcsv. injection Hcsv as <-.
  destruct (Hdraws eq_refl) as [_ ->]. split; reflexivity.
Defined.


(** Instance of X13: training on the empty dataset. *)
Lemma train_on_empty_table_witness :
  exists w',
    train unit sample_layer_forward sample_permutation sample_randint empty_csv
      sample_json sample_image (fun _ _ _ _ => 0%Q) (fun _ w _ => w)
      (fun _ => "20180101000000") (fun _ => true)
      (manager_of (Some "part")) sample_world = (Raise IndexError, w') /\
    trace w' = [PrintStr "Training."].
Proof.
  destruct (train_on_empty_table unit sample_layer_forward sample_permutation
              sample_randint empty_csv sample_json sample_image
              (fun _ _ _ _ => 0%Q) (fun _ w _ => w) (fun _ => "20180101000000")
              (fun _ => true) (manager_of (Some "part")) sample_world eq_refl)
    as (w' & Hrun & Ht & _); [discriminate | discriminate |].
  exists w'. split; [exact Hrun | exact Ht].
Defined.

(** Instance of X14: evaluating on the empty dataset. *)
Lemma test_on_empty_table_witness :
  exists w',
    test unit sample_layer_forward sample_permutation sample_randint empty_csv
      sample_json sample_image (manager_of (Some "part")) sample_world
    = (Raise ZeroDivisionError, w').
Proof.
  destruct (test_on_empty_table unit sample_layer_forward sample_permutation
              sample_randint empty_csv sample_json sample_image
              (manager_of (Some "part")) sample_world eq_refl)
    as (w' & Hrun & _); [discriminate|].
  exists w'. exact Hrun.
Defined.

Definition sample_batch : batch_paths :=
  ([root_path +++ imgs_path +++ "ta.jpg"], [root_path +++ imgs_path +++ "c2.jpg"],
   [root_path +++ imgs_path +++ "c0.jpg"]).

Definition sample_train_batch : M unit Q :=
  train_batch unit sample_layer_forward sample_image (fun _ _ _ _ => 0%Q)
    (fun _ w _ => w) (manager_of (Some "part")) sample_batch.

(** Instance of X15: one batch on the default manager. *)
Lemma train_batch_all_or_nothing_witness :
  trace (snd (sample_train_batch sample_world)) = [ZeroGrad; Backward; SolverStep].
Proof.
  destruct (proj1 (train_batch_all_or_nothing unit sample_layer_forward
                     sample_image (fun _ _ _ _ => 0%Q) (fun _ w _ => w)
                     (manager_of (Some "part")) sample_batch sample_world)
              0%Q (snd (sample_train_batch sample_world)))
    as (solver & A & P & N & fa & fp & fn & _ & _ & _ & _ & _ & _ & _ & Ht).
  { vm_compute. reflexivity. }
  exact Ht.
Defined.

(** Instance of X18: a batch of one triplet, and a batch whose positive
    list is too short. *)
Lemma image_loader_spec_witness :
  (exists APN, _image_loader sample_image sample_batch = Ok APN) /\
  ~ (exists APN, _image_loader sample_image (["a.jpg"], [], ["n.jpg"]) = Ok APN).
Proof.
  split.
  - apply (proj1 (image_loader_spec sample_image _ _ _)).
    intros i Hi. assert (i = 0) as -> by (simpl in Hi; lia).
    repeat split; eexists; eexists; split; reflexivity.
  - intros H.
    pose proof (proj1 (proj1 (image_loader_spec sample_image
                                ["a.jpg"] [] ["n.jpg"])) H) as Hall.
    destruct (Hall 0 (le_n 1)) as (_ & (path & px & Hp & _) & _). discriminate Hp.
Defined.

(** Instance of X19: the sample test set with unreadable images. *)
Lemma test_failure_modes_witness :
  fst (test unit sample_layer_forward sample_permutation sample_randint sample_csv
         sample_json (fun _ => None) (manager_of (Some "all")) sample_world)
  = Raise (IOError (root_path +++ imgs_path +++ "ta.jpg")).
Proof.
  destruct (test_failure_modes unit sample_layer_forward sample_permutation
              sample_randint sample_csv sample_json (fun _ => None)
              (manager_of (Some "all")) sample_world)
    as (_ & _ & _ & Hfirst).
  assert (Hload : _data_loader unit sample_permutation sample_randint sample_csv
                    sample_json (manager_of (Some "all")) false
                    (snd (emit unit (PrintStr "Testing.") sample_world))
                  = (Ok [sample_batch], mkWorld tt 1 1 [PrintStr "Testing."]))
    by (vm_compute; reflexivity).
  apply (proj1 (Hfirst sample_batch [] _ Hload)).
  vm_compute. reflexivity.
Defined.

(** Instance of X20: on the sample dataset the training of [main]
    completes and its evaluation raises. *)
Lemma main_run_witness :
  exists body stamp,
    fst (sample_main sample_world) = Raise cuda_to_numpy /\
    skipn 1 (trace (snd (sample_main sample_world)))
    = [PrintStr "Training."] ++ body
        ++ [PrintStr ("Model parameters saved: ./bcnn-param-" +++ stamp);
            PrintStr "Testing."].
Proof.
  destruct (main_run unit sample_layer_forward sample_permutation sample_randint
              sample_csv sample_json sample_image (fun _ => None)
              (fun _ _ _ _ => 0%Q) (fun _ w _ => w) (fun _ => "20180101000000")
              (fun _ => true) sample_world)
    as (mgr & net & Hinit & _ & _ & _ & Hok & _).
  vm_compute in Hinit. injection Hinit as <- _.
  destruct Hok as (e & body & stamp & _ & _ & Ht & _).
  { vm_compute. reflexivity. }
  exists body, stamp. split; [vm_compute; reflexivity|].
  unfold sample_main. rewrite Ht. reflexivity.
Defined.
